(** * SpenGo: token lifecycle and spreadsheet synchronisation

    A shallow embedding of the core of the SpenGo expense tracker:
    the storage service, the Sheets helpers and service, the auth service
    with its waiter queue and fallback timer, and the two controllers.

    JavaScript data is modelled as the code has it: numbers are IEEE-754
    binary floating-point values ([spec_float]), cells of a sheet row are
    JavaScript primitives, the two Web Storage areas are finite maps from
    key strings to stored items, arrays are lists, and every asynchronous
    function is a program in a small monad of HTTP calls. *)

From Stdlib Require Import ZArith String Ascii Bool Lia DecimalString.
From Stdlib Require Import Floats.SpecFloat.
From Stdlib Require HexadecimalString.
From stdpp Require Import base gmap strings list.

Local Open Scope Z_scope.

(** ** JavaScript values *)

Module Js.

(** A JavaScript number. *)
Definition number : Type := spec_float.

Definition zero : number := S754_zero false.
Definition NaN : number := S754_nan.

(** The primitives that occur as record fields and as cells of a row. *)
Inductive prim : Type :=
| PUndef
| PNull
| PBool (b : bool)
| PNum (x : number)
| PStr (s : string).

(** ToBoolean on a number: NaN and both zeros are falsy. *)
Definition num_truthy (x : number) : bool :=
  match x with
  | S754_zero _ | S754_nan => false
  | _ => true
  end.

(** ToBoolean. *)
Definition truthy (v : prim) : bool :=
  match v with
  | PUndef | PNull => false
  | PBool b => b
  | PNum x => num_truthy x
  | PStr s => negb (s =? EmptyString)%string
  end.

(** [a || b] on primitives and on numbers. *)
Definition or_else (a b : prim) : prim := if truthy a then a else b.
Definition num_or (x d : number) : number := if num_truthy x then x else d.

(** [a === b]. *)
Definition strict_eq (a b : prim) : bool :=
  match a, b with
  | PUndef, PUndef | PNull, PNull => true
  | PBool x, PBool y => Bool.eqb x y
  | PNum x, PNum y => SFeqb x y
  | PStr s, PStr t => (s =? t)%string
  | _, _ => false
  end.

(** ToBoolean on a string that may be [null] or [undefined]. *)
Definition truthy_string (v : option string) : bool :=
  match v with
  | Some s => negb (s =? EmptyString)%string
  | None => false
  end.

(** [row[i]]: reading past the end of an array gives [undefined]. *)
Definition at_index (row : list prim) (i : nat) : prim := nth i row PUndef.

(** [Array.prototype.findIndex], as a JavaScript number: -1 when no
    element satisfies the predicate. *)
Fixpoint findIndex_from {A : Type} (p : A -> bool) (l : list A) (i : Z) : Z :=
  match l with
  | [] => -1
  | x :: l' => if p x then i else findIndex_from p l' (i + 1)
  end.

Definition findIndex {A : Type} (p : A -> bool) (l : list A) : Z :=
  findIndex_from p l 0.

(** [.filter(Boolean)] on an array of objects-or-null. *)
Fixpoint filter_Boolean {A : Type} (l : list (option A)) : list A :=
  match l with
  | [] => []
  | Some x :: l' => x :: filter_Boolean l'
  | None :: l' => filter_Boolean l'
  end.

(** An expense object [{ id, date, category, amount, comment }].  The
    amount is always the result of a numeric parse; the other fields are
    whatever primitive the row or the form held. *)
Record expense : Type := {
  id : prim;
  date : prim;
  category : prim;
  amount : number;
  comment : prim;
}.

(** A row of a sheet, as the values API carries it. *)
Definition row : Type := list prim.

(** A deleteDimension request of the Sheets batchUpdate API.  The sheet
    id is the cached or fetched number, [None] when it is not a number. *)
Record delete_request : Type := {
  sheetId : option Z;
  dimension : string;
  startIndex : Z;
  endIndex : Z;
}.

(** The functions of the host environment the program calls and that are
    not part of the repository, and [parseAmount], whose file is not in
    the sources.  The numbers that [Number] and [String] convert here are
    timestamps in milliseconds and sheet ids: integers, [None] standing
    for NaN. *)
Class Runtime : Type := {
  parseFloat_str : string -> number;      (* parseFloat on a string *)
  uuid_gen : nat -> string;                (* the k-th value drawn by uuid() *)
  js_Number : string -> option Z;          (* Number(s) *)
  js_String : Z -> string;                 (* String(n) on a number that is not NaN *)
  encodeURIComponent : string -> string;
  trim : string -> string;                 (* String.prototype.trim *)
  JSON_stringify : list expense -> string;
  JSON_parse : string -> option (list expense);   (* None: the parse throws *)
  parseAmount : string -> number;          (* utils/helpers.js, not in the sources *)
}.

(** [String(n)] on an integral number or NaN. *)
Definition String_of_number `{Runtime} (n : option Z) : string :=
  match n with
  | Some z => js_String z
  | None => "NaN"
  end.

(** [parseFloat(v)] converts its argument to a string first.  A number
    prints to a literal that reads back as the same number, negative
    zero printing as "0"; [undefined], [null] and the booleans print to
    words that do not start a numeric literal. *)
Definition parseFloat `{Runtime} (v : prim) : number :=
  match v with
  | PNum (S754_zero _) => zero
  | PNum x => x
  | PStr s => parseFloat_str s
  | PUndef | PNull | PBool _ => NaN
  end.

End Js.

Import Js.

(** ** constants/config.js *)

Module CONFIG.
Definition SHEET_NAME : string := "spends".
Definition SPREADSHEET_TITLE : string := "SpenGo".
Definition SHEETS_BASE : string := "https://sheets.googleapis.com/v4/spreadsheets".
Definition DRIVE_SEARCH_BASE : string := "https://www.googleapis.com/drive/v3/files".
Definition REVOKE_URL : string := "https://oauth2.googleapis.com/revoke".
End CONFIG.




(** ** state.js *)

Module State.

Inductive authStatus_t : Type := unknown | restoring | ready | unauthenticated.

Record profile : Type := { email : string }.

(** The [AppState] singleton, seen through its getters and setters. *)
Record AppState : Type := {
  accessToken : option string;
  userProfile : option profile;
  authStatus : authStatus_t;
  spreadsheetId : option string;
  expenses : list expense;
  currentScreen : string;
  currentPeriod : string;
  currentCategoryFilter : string;
  selectedCat : option string;
}.

Definition initial : AppState :=
  {| accessToken := None; userProfile := None; authStatus := unknown;
     spreadsheetId := None; expenses := [];
     currentScreen := "auth"; currentPeriod := "day";
     currentCategoryFilter := "all"; selectedCat := None |}.

Definition set_accessToken (v : option string) (s : AppState) : AppState :=
  {| accessToken := v; userProfile := userProfile s; authStatus := authStatus s;
     spreadsheetId := spreadsheetId s; expenses := expenses s;
     currentScreen := currentScreen s; currentPeriod := currentPeriod s;
     currentCategoryFilter := currentCategoryFilter s; selectedCat := selectedCat s |}.

Definition set_authStatus (v : authStatus_t) (s : AppState) : AppState :=
  {| accessToken := accessToken s; userProfile := userProfile s; authStatus := v;
     spreadsheetId := spreadsheetId s; expenses := expenses s;
     currentScreen := currentScreen s; currentPeriod := currentPeriod s;
     currentCategoryFilter := currentCategoryFilter s; selectedCat := selectedCat s |}.

Definition set_spreadsheetId (v : option string) (s : AppState) : AppState :=
  {| accessToken := accessToken s; userProfile := userProfile s; authStatus := authStatus s;
     spreadsheetId := v; expenses := expenses s;
     currentScreen := currentScreen s; currentPeriod := currentPeriod s;
     currentCategoryFilter := currentCategoryFilter s; selectedCat := selectedCat s |}.

Definition set_expenses (v : list expense) (s : AppState) : AppState :=
  {| accessToken := accessToken s; userProfile := userProfile s; authStatus := authStatus s;
     spreadsheetId := spreadsheetId s; expenses := v;
     currentScreen := currentScreen s; currentPeriod := currentPeriod s;
     currentCategoryFilter := currentCategoryFilter s; selectedCat := selectedCat s |}.

Definition set_currentScreen (v : string) (s : AppState) : AppState :=
  {| accessToken := accessToken s; userProfile := userProfile s; authStatus := authStatus s;
     spreadsheetId := spreadsheetId s; expenses := expenses s;
     currentScreen := v; currentPeriod := currentPeriod s;
     currentCategoryFilter := currentCategoryFilter s; selectedCat := selectedCat s |}.

(** [reset()] replaces the auth and data groups and leaves the ui group. *)
Definition reset (s : AppState) : AppState :=
  {| accessToken := None; userProfile := None; authStatus := unauthenticated;
     spreadsheetId := None; expenses := [];
     currentScreen := currentScreen s; currentPeriod := currentPeriod s;
     currentCategoryFilter := currentCategoryFilter s; selectedCat := selectedCat s |}.

End State.

(** ** The browser: Web Storage, the state singleton and the page *)

Module Browser.

(** A stored string.  The string [JSON.stringify(es)] written by the
    expenses cache is kept as [Json es]: parsing it gives [es] back,
    which is what JSON does for Records of the data model with finite
    amounts.  This is an idealisation of the cache: an amount that is
    not finite is written as [null] and does not come back as a number,
    and the model keeps such a record as it was handed to the write.
    What is proved of a read of the cache is therefore a statement
    about the list that was written.  Every other string is a [Text]. *)
Inductive item : Type :=
| Text (s : string)
| Json (es : list expense).

Definition item_text `{Runtime} (i : item) : string :=
  match i with
  | Text s => s
  | Json es => JSON_stringify es
  end.

(** What the page shows, as the sequence of calls into the ui helpers.
    A toast carries the key of its localised text and what is appended. *)
Inductive ui_action : Type :=
| ShowToast (key suffix type : string)
| ShowScreen (name : string)
| SetNavEnabled (enabled : bool)
| RenderUI
| SetSetupText (title sub : string)
| SignInButtonDisabled (disabled : bool)
| SubmitButton (disabled : bool) (labelKey : string)
| CloseModal (modal : string)
| AuthErrorText (message : string)
| AnimateRemoval (expenseId : string).

Record world : Type := {
  localStorage : gmap string item;
  sessionStorage : gmap string item;
  STATE : State.AppState;
  page : list ui_action;
  drawn : nat;            (* how many identifiers uuid() has drawn *)
}.

Definition with_localStorage (f : gmap string item -> gmap string item) (w : world) : world :=
  {| localStorage := f (localStorage w); sessionStorage := sessionStorage w;
     STATE := STATE w; page := page w; drawn := drawn w |}.

Definition with_sessionStorage (f : gmap string item -> gmap string item) (w : world) : world :=
  {| localStorage := localStorage w; sessionStorage := f (sessionStorage w);
     STATE := STATE w; page := page w; drawn := drawn w |}.

Definition with_STATE (f : State.AppState -> State.AppState) (w : world) : world :=
  {| localStorage := localStorage w; sessionStorage := sessionStorage w;
     STATE := f (STATE w); page := page w; drawn := drawn w |}.

Definition with_drawn (k : nat) (w : world) : world :=
  {| localStorage := localStorage w; sessionStorage := sessionStorage w;
     STATE := STATE w; page := page w; drawn := k |}.

Definition show (a : ui_action) (w : world) : world :=
  {| localStorage := localStorage w; sessionStorage := sessionStorage w;
     STATE := STATE w; page := page w ++ [a]; drawn := drawn w |}.

End Browser.

Import Browser.

(** ** services/storageService.js *)

Module Storage.

Module LOCAL_STORAGE.
Definition SHEET_ID : string := "spengo_sheet_id".
Definition EXPENSES : string := "spengo_expenses".
Definition LOGIN_HINT : string := "google_login_hint".
Definition NUMERIC_SHEET_ID : string := "spengo_numeric_sheet_id".
End LOCAL_STORAGE.

Module SESSION_STORAGE.
Definition ACCESS_TOKEN : string := "google_access_token".
Definition EXPIRES_AT : string := "google_token_expires_at".
End SESSION_STORAGE.

Section WithRuntime.
Context `{Runtime}.

Definition saveSession (accessToken : string) (expiresAt : option Z) (w : world) : world :=
  with_sessionStorage
    (fun ss => <[SESSION_STORAGE.EXPIRES_AT := Text (String_of_number expiresAt)]>
                 (<[SESSION_STORAGE.ACCESS_TOKEN := Text accessToken]> ss)) w.

Definition clearSession (w : world) : world :=
  with_sessionStorage
    (fun ss => delete SESSION_STORAGE.EXPIRES_AT (delete SESSION_STORAGE.ACCESS_TOKEN ss)) w.

Definition getAccessToken (w : world) : option string :=
  item_text <$> sessionStorage w !! SESSION_STORAGE.ACCESS_TOKEN.

(** [Date.now() > Number(expiresAt)] is false when the stored text is
    not a number. *)
Definition isTokenExpired (now : Z) (w : world) : bool :=
  match item_text <$> sessionStorage w !! SESSION_STORAGE.EXPIRES_AT with
  | None => true
  | Some expiresAt =>
      if (expiresAt =? EmptyString)%string then true
      else match js_Number expiresAt with
           | Some t => now >? t
           | None => false
           end
  end.

Definition saveLoginHint (email : string) (w : world) : world :=
  with_localStorage (fun ls => <[LOCAL_STORAGE.LOGIN_HINT := Text email]> ls) w.

Definition getLoginHint (w : world) : string :=
  default EmptyString (item_text <$> localStorage w !! LOCAL_STORAGE.LOGIN_HINT).

Definition saveSheetId (spreadsheetId : string) (w : world) : world :=
  with_localStorage (fun ls => <[LOCAL_STORAGE.SHEET_ID := Text spreadsheetId]> ls) w.

Definition getSheetId (w : world) : option string :=
  item_text <$> localStorage w !! LOCAL_STORAGE.SHEET_ID.

Definition saveExpenses (expenses : list expense) (w : world) : world :=
  with_localStorage (fun ls => <[LOCAL_STORAGE.EXPENSES := Json expenses]> ls) w.

(** [raw ? JSON.parse(raw) : []], any exception giving []. *)
Definition parse_expenses (i : item) : list expense :=
  match i with
  | Json es => es
  | Text raw => if (raw =? EmptyString)%string then [] else default [] (JSON_parse raw)
  end.

Definition getExpenses (w : world) : list expense :=
  match localStorage w !! LOCAL_STORAGE.EXPENSES with
  | Some i => parse_expenses i
  | None => []
  end.

Record session : Type := {
  accessToken : option string;
  sheetId : option string;
  expenses : list expense;
  loginHint : string;
  tokenExpired : bool;
}.

Definition getStoredSession (now : Z) (w : world) : session :=
  {| accessToken := getAccessToken w;
     sheetId := getSheetId w;
     expenses := getExpenses w;
     loginHint := getLoginHint w;
     tokenExpired := isTokenExpired now w |}.

Definition saveNumericSheetId (numericSheetId : option Z) (w : world) : world :=
  with_localStorage
    (fun ls => <[LOCAL_STORAGE.NUMERIC_SHEET_ID := Text (String_of_number numericSheetId)]> ls) w.

(** [null] when nothing is stored, else [Number(val)], which may be NaN. *)
Definition getNumericSheetId (w : world) : option (option Z) :=
  (fun i => js_Number (item_text i)) <$> localStorage w !! LOCAL_STORAGE.NUMERIC_SHEET_ID.

Definition clearAll (w : world) : world :=
  with_localStorage
    (fun ls => delete LOCAL_STORAGE.NUMERIC_SHEET_ID
                 (delete LOCAL_STORAGE.LOGIN_HINT
                    (delete LOCAL_STORAGE.EXPENSES
                       (delete LOCAL_STORAGE.SHEET_ID ls))))
    (clearSession w).

End WithRuntime.

End Storage.

(** ** Asynchronous functions

    An [async] function runs until its next [await], hands the world back
    to the event loop together with what it waits for, and is resumed with
    the world as the event loop left it and with the reply.  Exceptions are
    outcomes; a change made to the world before a throw stays made. *)

Module Async.

Inductive method : Type := GET | POST | PUT.

(** The JSON bodies the program sends. *)
Inductive body : Type :=
| CreateBody (title sheetTitle : string)
| ValuesBody (values : list row)
| BatchBody (requests : list delete_request).

(** A call of [SheetsClient.get], [.post] or [.put]: the bearer token (as
    passed, possibly [null]), the url and the body. *)
Record request : Type := {
  meth : method;
  token : option string;
  url : string;
  payload : option body;
}.

Record file : Type := { file_id : option string }.

(** The fields of a response object that the program reads; a field is
    [None] when the object lacks it.  An entry of [sheets] is the
    [properties.sheetId] of that sheet, [None] when it has no properties. *)
Record data : Type := {
  spreadsheetId : option string;
  values : option (list row);
  sheets : option (list (option Z));
  files : option (list file);
}.

Definition no_data : data :=
  {| spreadsheetId := None; values := None; sheets := None; files := None |}.

(** [SheetsClient] resolves with the response object or throws. *)
Inductive reply : Type :=
| Data (d : data)
| Failure (message : string).

Inductive wait : Type :=
| Http (r : request)
| Sleep (ms : Z).

Inductive outcome (A : Type) : Type :=
| Return (a : A)
| Throw (message : string).
Arguments Return {A} a.
Arguments Throw {A} message.

Inductive task (A : Type) : Type :=
| Done (w : world) (o : outcome A)
| Await (w : world) (e : wait) (k : world -> reply -> task A).
Arguments Done {A} w o.
Arguments Await {A} w e k.

Definition M (A : Type) : Type := world -> task A.

Definition ret {A : Type} (a : A) : M A := fun w => Done w (Return a).
Definition throw {A : Type} (message : string) : M A := fun w => Done w (Throw message).

Fixpoint bind_task {A B : Type} (t : task A) (f : A -> M B) : task B :=
  match t with
  | Done w (Return a) => f a w
  | Done w (Throw m) => Done w (Throw m)
  | Await w e k => Await w e (fun w' r => bind_task (k w' r) f)
  end.

Definition bind {A B : Type} (m : M A) (f : A -> M B) : M B :=
  fun w => bind_task (m w) f.

(** [try { m } catch (err) { h err }]. *)
Fixpoint catch_task {A : Type} (t : task A) (h : string -> M A) : task A :=
  match t with
  | Done w (Return a) => Done w (Return a)
  | Done w (Throw m) => h m w
  | Await w e k => Await w e (fun w' r => catch_task (k w' r) h)
  end.

Definition try_catch {A : Type} (m : M A) (h : string -> M A) : M A :=
  fun w => catch_task (m w) h.

(** [try { m } finally { f }] for a finaliser that does not throw. *)
Fixpoint finally_task {A : Type} (t : task A) (f : world -> world) : task A :=
  match t with
  | Done w o => Done (f w) o
  | Await w e k => Await w e (fun w' r => finally_task (k w' r) f)
  end.

Definition try_finally {A : Type} (m : M A) (f : world -> world) : M A :=
  fun w => finally_task (m w) f.

Definition get_world : M world := fun w => Done w (Return w).
Definition update (f : world -> world) : M unit := fun w => Done (f w) (Return tt).

Definition await_http (r : request) : M data :=
  fun w => Await w (Http r)
             (fun w' rep => match rep with
                            | Data d => Done w' (Return d)
                            | Failure m => Done w' (Throw m)
                            end).

Definition sleep (ms : Z) : M unit :=
  fun w => Await w (Sleep ms) (fun w' _ => Done w' (Return tt)).

(** [await Promise.all([a, b])] of two requests: both are sent, and the
    result is both response objects, or a throw when one of them fails
    (with the error of the first request when both do). *)
Definition await_both (r1 r2 : request) : M (data * data) :=
  fun w => Await w (Http r1)
             (fun w1 rep1 =>
                Await w1 (Http r2)
                  (fun w2 rep2 =>
                     match rep1, rep2 with
                     | Data d1, Data d2 => Done w2 (Return (d1, d2))
                     | Failure m, _ => Done w2 (Throw m)
                     | _, Failure m => Done w2 (Throw m)
                     end)).

(** Running a task to its end against a server, with nothing else
    scheduled in between.  The result lists what was awaited, each with
    the world as it stood when the function suspended, then the final
    world and outcome. *)
Fixpoint run {S A : Type} (serve : S -> wait -> reply * S) (s : S) (t : task A)
  : list (world * wait) * world * outcome A * S :=
  match t with
  | Done w o => ([], w, o, s)
  | Await w e k =>
      let '(rep, s') := serve s e in
      let '(es, w', o, s'') := run serve s' (k w rep) in
      ((w, e) :: es, w', o, s'')
  end.

(** A row-delete request: a batchUpdate. *)
Definition is_row_delete (e : wait) : bool :=
  match e with
  | Http r => match payload r with
              | Some (BatchBody _) => true
              | _ => false
              end
  | Sleep _ => false
  end.

(** A request that creates a store. *)
Definition is_create (e : wait) : bool :=
  match e with
  | Http r => match payload r with
              | Some (CreateBody _ _) => true
              | _ => false
              end
  | Sleep _ => false
  end.

(** How many of the awaited requests create a store. *)
Definition creations (trace : list (world * wait)) : nat :=
  length (List.filter (fun x => is_create (snd x)) trace).

(** A server that answers the requests from a script, in order, and is
    unreachable once the script is used up; timers always elapse. *)
Definition scripted (script : list reply) (e : wait) : reply * list reply :=
  match e, script with
  | Sleep _, _ => (Data no_data, script)
  | Http _, [] => (Failure "Failed to fetch", [])
  | Http _, r :: rest => (r, rest)
  end.

End Async.

Import Async.

Notation "'let*' x := m 'in' f" := (bind m (fun x => f))
  (at level 10, x name, m at level 100, f at level 200).

(** ** api/client/sheetsClient.js *)

Module SheetsClient.

Definition get (accessToken : option string) (u : string) : M data :=
  await_http {| meth := GET; token := accessToken; url := u; payload := None |}.

Definition post (accessToken : option string) (u : string) (b : body) : M data :=
  await_http {| meth := POST; token := accessToken; url := u; payload := Some b |}.

Definition put (accessToken : option string) (u : string) (b : body) : M data :=
  await_http {| meth := PUT; token := accessToken; url := u; payload := Some b |}.

End SheetsClient.

(** ** helpers/sheetsHelpers.js *)

Module SheetsHelpers.

Definition range (sheetName a1 : string) : string :=
  (sheetName ++ "!" ++ a1)%string.

Definition headerRow : list row :=
  [[PStr "ID"; PStr "Date"; PStr "Category"; PStr "Amount"; PStr "Comment"]].

Definition expenseToRow (e : expense) : row :=
  [id e; date e; category e; PNum (amount e); comment e].

Section WithRuntime.
Context `{Runtime}.

(** [uuid()] draws from a random source: the state is the number of
    identifiers drawn so far. *)
Definition uuid (k : nat) : string * nat := (uuid_gen k, S k).

Definition rowToExpense (r : row) (k : nat) : option expense * nat :=
  let amount := num_or (parseFloat (at_index r 3)) zero in
  if SFleb amount zero then (None, k)
  else
    let '(i, k') :=
      if truthy (at_index r 0) then (at_index r 0, k)
      else let '(u, k') := uuid k in (PStr u, k') in
    (Some {| id := i;
             date := or_else (at_index r 1) (PStr EmptyString);
             category := or_else (at_index r 2) (PStr "other");
             amount := amount;
             comment := or_else (at_index r 4) (PStr EmptyString) |}, k').

(** [rows.map(rowToExpense)], threading the random source. *)
Fixpoint map_rowToExpense (rows : list row) (k : nat) : list (option expense) * nat :=
  match rows with
  | [] => ([], k)
  | r :: rows' =>
      let '(o, k1) := rowToExpense r k in
      let '(os, k2) := map_rowToExpense rows' k1 in
      (o :: os, k2)
  end.

(** [rows] is [undefined] when the range read holds no value. *)
Definition rowsToExpenses (rows : option (list row)) (k : nat) : list expense * nat :=
  let '(os, k') := map_rowToExpense (default [] rows) k in
  (filter_Boolean os, k').

End WithRuntime.

Definition buildDeleteRowRequest (numericSheetId : option Z) (zeroBasedIndex : Z)
  : delete_request :=
  {| sheetId := numericSheetId;
     dimension := "ROWS";
     startIndex := zeroBasedIndex;
     endIndex := zeroBasedIndex + 1 |}.

Definition findRowIndex (idColumn : list row) (expenseId : string) : Z :=
  let offset := findIndex (fun r => strict_eq (at_index r 0) (PStr expenseId)) idColumn in
  if offset =? -1 then -1 else offset + 1.

(** [`${v}`] for a value that is a string, [null] or [undefined]. *)
Definition or_null (v : option string) : string := default "null"%string v.
Definition or_undefined (v : option string) : string := default "undefined"%string v.

(** [metadata.sheets[0].properties.sheetId]; reading a property of
    [undefined] throws a TypeError. *)
Definition extractNumericSheetId (metadata : data) : outcome Z :=
  match sheets metadata with
  | Some (Some n :: _) => Return n
  | _ => Throw "TypeError"
  end.

Section Requests.
Context `{Runtime}.

Definition verifySpreadsheet (accessToken : option string) (spreadsheetId : string) : M bool :=
  try_catch
    (let* _ := SheetsClient.get accessToken
                 (CONFIG.SHEETS_BASE ++ "/" ++ spreadsheetId ++ "?fields=spreadsheetId")%string in
     ret true)
    (fun _ => ret false).

Definition createSpreadsheet (accessToken : option string) (title sheetName : string)
  : M (option string) :=
  let* d := SheetsClient.post accessToken CONFIG.SHEETS_BASE (CreateBody title sheetName) in
  let* _ := SheetsClient.put accessToken
              (CONFIG.SHEETS_BASE ++ "/" ++ or_undefined (spreadsheetId d) ++ "/values/"
               ++ encodeURIComponent (range sheetName "A1:E1") ++ "?valueInputOption=RAW")%string
              (ValuesBody headerRow) in
  ret (spreadsheetId d).

Definition fetchExpenses (accessToken : option string) (spreadsheetId sheetName : string)
  : M (list expense) :=
  let* d := SheetsClient.get accessToken
              (CONFIG.SHEETS_BASE ++ "/" ++ spreadsheetId ++ "/values/"
               ++ encodeURIComponent (range sheetName "A2:E1000"))%string in
  let* w := get_world in
  let '(es, k) := rowsToExpenses (values d) (drawn w) in
  let* _ := update (with_drawn k) in
  ret es.

Definition insertExpense (accessToken : option string) (spreadsheetId sheetName : string)
  (e : expense) : M unit :=
  let targetRange := encodeURIComponent (range sheetName "A:E") in
  let* _ := SheetsClient.post accessToken
              (CONFIG.SHEETS_BASE ++ "/" ++ spreadsheetId ++ "/values/" ++ targetRange
               ++ ":append?valueInputOption=RAW&insertDataOption=INSERT_ROWS")%string
              (ValuesBody [expenseToRow e]) in
  ret tt.

Definition idColumnRequest (accessToken : option string) (spreadsheetId sheetName : string)
  : request :=
  {| meth := GET; token := accessToken;
     url := (CONFIG.SHEETS_BASE ++ "/" ++ spreadsheetId ++ "/values/"
             ++ encodeURIComponent (range sheetName "A2:A1000"))%string;
     payload := None |}.

Definition metadataRequest (accessToken : option string) (spreadsheetId : string) : request :=
  {| meth := GET; token := accessToken;
     url := (CONFIG.SHEETS_BASE ++ "/" ++ spreadsheetId ++ "?fields=sheets.properties")%string;
     payload := None |}.

Definition batchUpdateRequest (accessToken : option string) (spreadsheetId : string)
  (requests : list delete_request) : request :=
  {| meth := POST; token := accessToken;
     url := (CONFIG.SHEETS_BASE ++ "/" ++ spreadsheetId ++ ":batchUpdate")%string;
     payload := Some (BatchBody requests) |}.

(** The second phase of [removeExpenseRow], after the reads. *)
Definition deleteFoundRow (accessToken : option string) (spreadsheetId : string)
  (cachedNumericId : option (option Z)) (meta : option data) (rowIndex : Z) : M unit :=
  let* numericSheetId :=
    match cachedNumericId, meta with
    | Some n, _ => ret n
    | None, Some m =>
        match extractNumericSheetId m with
        | Return n => ret (Some n)
        | Throw e => throw e
        end
    | None, None => throw "TypeError"
    end in
  let* _ := match cachedNumericId with
            | None => update (Storage.saveNumericSheetId numericSheetId)
            | Some _ => ret tt
            end in
  let* _ := await_http
              (batchUpdateRequest accessToken spreadsheetId
                 [buildDeleteRowRequest numericSheetId rowIndex]) in
  ret tt.

Definition removeExpenseRow (accessToken : option string) (spreadsheetId sheetName : string)
  (expenseId : string) : M unit :=
  let* w := get_world in
  let cachedNumericId := Storage.getNumericSheetId w in
  let* reads :=
    match cachedNumericId with
    | Some _ =>
        let* colA := await_http (idColumnRequest accessToken spreadsheetId sheetName) in
        ret (colA, None)
    | None =>
        let* both := await_both (idColumnRequest accessToken spreadsheetId sheetName)
                       (metadataRequest accessToken spreadsheetId) in
        ret (fst both, Some (snd both))
    end in
  let colA := fst reads in
  let meta := snd reads in
  let rowIndex := findRowIndex (default [] (values colA)) expenseId in
  if rowIndex =? -1 then ret tt
  else deleteFoundRow accessToken spreadsheetId cachedNumericId meta rowIndex.

(** [file?.id || null] for the first file of the search result. *)
Definition first_file_id (d : data) : option string :=
  match files d with
  | Some (f :: _) =>
      match file_id f with
      | Some i => if (i =? EmptyString)%string then None else Some i
      | None => None
      end
  | _ => None
  end.

Definition findExistingSpreadsheet (accessToken : option string) (title : string)
  : M (option string) :=
  try_catch
    (let query := encodeURIComponent
                    ("name='" ++ title
                     ++ "' and mimeType='application/vnd.google-apps.spreadsheet' and trashed=false")%string in
     let u := (CONFIG.DRIVE_SEARCH_BASE ++ "?q=" ++ query
               ++ "&fields=files(id,name)&pageSize=1")%string in
     let* d := SheetsClient.get accessToken u in
     ret (first_file_id d))
    (fun _ => ret None).

(** The requests that the functions above send, by name. *)

Definition verifyRequest (accessToken : option string) (spreadsheetId : string) : request :=
  {| meth := GET; token := accessToken;
     url := (CONFIG.SHEETS_BASE ++ "/" ++ spreadsheetId ++ "?fields=spreadsheetId")%string;
     payload := None |}.

Definition searchRequest (accessToken : option string) (title : string) : request :=
  {| meth := GET; token := accessToken;
     url := (CONFIG.DRIVE_SEARCH_BASE ++ "?q="
             ++ encodeURIComponent
                  ("name='" ++ title
                   ++ "' and mimeType='application/vnd.google-apps.spreadsheet' and trashed=false")
             ++ "&fields=files(id,name)&pageSize=1")%string;
     payload := None |}.

Definition createRequest (accessToken : option string) (title sheetName : string) : request :=
  {| meth := POST; token := accessToken; url := CONFIG.SHEETS_BASE;
     payload := Some (CreateBody title sheetName) |}.

Definition headerRequest (accessToken : option string) (created : option string)
  (sheetName : string) : request :=
  {| meth := PUT; token := accessToken;
     url := (CONFIG.SHEETS_BASE ++ "/" ++ or_undefined created ++ "/values/"
             ++ encodeURIComponent (range sheetName "A1:E1") ++ "?valueInputOption=RAW")%string;
     payload := Some (ValuesBody headerRow) |}.

Definition appendRequest (accessToken : option string) (spreadsheetId sheetName : string)
  (e : expense) : request :=
  {| meth := POST; token := accessToken;
     url := (CONFIG.SHEETS_BASE ++ "/" ++ spreadsheetId ++ "/values/"
             ++ encodeURIComponent (range sheetName "A:E")
             ++ ":append?valueInputOption=RAW&insertDataOption=INSERT_ROWS")%string;
     payload := Some (ValuesBody [expenseToRow e]) |}.

End Requests.

End SheetsHelpers.

(** ** constants/storage.js *)

(** Modelled from the spec: constants/storage.js is not in the sources.
    Its two keys are the durable keys for the store id and for the
    serialized record array, here with the key strings that
    storageService.js gives them. *)
Module STORAGE.
Definition SHEET_ID : string := Storage.LOCAL_STORAGE.SHEET_ID.
Definition EXPENSES : string := Storage.LOCAL_STORAGE.EXPENSES.
End STORAGE.

(** ** ui/navigation.js, utils/helpers.js: what the controllers call *)

Module Ui.

Definition showScreen (name : string) (w : world) : world :=
  with_STATE (State.set_currentScreen name) (show (ShowScreen name) w).

Definition setNavEnabled (enabled : bool) (w : world) : world :=
  show (SetNavEnabled enabled) w.

Definition renderUI (w : world) : world := show RenderUI w.

(** [showToast(getI18nValue(key) + suffix, type)]. *)
Definition showToast (key suffix type : string) (w : world) : world :=
  show (ShowToast key suffix type) w.

End Ui.

(** ** services/sheetsService.js *)

Record resolved : Type := {
  resolved_spreadsheetId : option string;
  isNew : bool;
}.

Module SheetsService.
Section WithRuntime.
Context `{Runtime}.

Definition resolveSpreadsheet (accessToken : option string) : M resolved :=
  let* w := get_world in
  let cached := item_text <$> localStorage w !! STORAGE.SHEET_ID in
  let* verified :=
    match cached with
    | Some sid =>
        if (sid =? EmptyString)%string then ret None
        else
          let* ok := SheetsHelpers.verifySpreadsheet accessToken sid in
          if ok then ret (Some sid)
          else
            let* _ := update (with_localStorage (delete STORAGE.SHEET_ID)) in
            ret None
    | None => ret None
    end in
  match verified with
  | Some sid => ret {| resolved_spreadsheetId := Some sid; isNew := false |}
  | None =>
      let* found := SheetsHelpers.findExistingSpreadsheet accessToken CONFIG.SPREADSHEET_TITLE in
      match found with
      | Some sid =>
          let* _ := update (with_localStorage (insert STORAGE.SHEET_ID (Text sid))) in
          ret {| resolved_spreadsheetId := Some sid; isNew := false |}
      | None =>
          let* created := SheetsHelpers.createSpreadsheet accessToken
                            CONFIG.SPREADSHEET_TITLE CONFIG.SHEET_NAME in
          let* _ := update (with_localStorage
                              (insert STORAGE.SHEET_ID
                                 (Text (SheetsHelpers.or_undefined created)))) in
          ret {| resolved_spreadsheetId := created; isNew := true |}
      end
  end.

Definition loadExpenses (accessToken : option string) (spreadsheetId : string)
  : M (list expense) :=
  let* es := SheetsHelpers.fetchExpenses accessToken spreadsheetId CONFIG.SHEET_NAME in
  let* _ := update (with_localStorage (insert STORAGE.EXPENSES (Json es))) in
  ret es.

Definition appendExpense (accessToken : option string) (spreadsheetId : string)
  (e : expense) : M unit :=
  SheetsHelpers.insertExpense accessToken spreadsheetId CONFIG.SHEET_NAME e.

Definition deleteExpense (accessToken : option string) (spreadsheetId : string)
  (expenseId : string) : M unit :=
  SheetsHelpers.removeExpenseRow accessToken spreadsheetId CONFIG.SHEET_NAME expenseId.

End WithRuntime.
End SheetsService.

(** The first tier of [resolveSpreadsheet] did not yield a store: either
    no identifier is cached, and nothing is sent, or the cached one fails
    verification and is removed.  The relation gives the server state,
    the world and the requests sent at that point. *)
Inductive not_verified `{Runtime} {S : Type} (serve : S -> wait -> reply * S)
  (accessToken : option string)
  : S -> world -> S -> world -> list (world * wait) -> Prop :=
| nothing_cached (s : S) (w : world) :
    truthy_string (item_text <$> localStorage w !! STORAGE.SHEET_ID) = false ->
    not_verified serve accessToken s w s w []
| verification_failed (s s1 : S) (w : world) (sid m : string) :
    item_text <$> localStorage w !! STORAGE.SHEET_ID = Some sid ->
    sid <> EmptyString ->
    serve s (Http (SheetsHelpers.verifyRequest accessToken sid)) = (Failure m, s1) ->
    not_verified serve accessToken s w s1
      (with_localStorage (delete STORAGE.SHEET_ID) w)
      [(w, Http (SheetsHelpers.verifyRequest accessToken sid))].

(** The later revision of the service, which goes through the storage
    service and leaves caching to its caller. *)
Module SheetsServiceStorage.
Section WithRuntime.
Context `{Runtime}.

Definition resolveSpreadsheet (accessToken : option string) : M resolved :=
  let* w := get_world in
  let* verified :=
    match Storage.getSheetId w with
    | Some sid =>
        if (sid =? EmptyString)%string then ret None
        else
          let* ok := SheetsHelpers.verifySpreadsheet accessToken sid in
          if ok then ret (Some sid)
          else
            let* _ := update (Storage.saveSheetId EmptyString) in
            ret None
    | None => ret None
    end in
  match verified with
  | Some sid => ret {| resolved_spreadsheetId := Some sid; isNew := false |}
  | None =>
      let* found := SheetsHelpers.findExistingSpreadsheet accessToken CONFIG.SPREADSHEET_TITLE in
      match found with
      | Some sid =>
          let* _ := update (Storage.saveSheetId sid) in
          ret {| resolved_spreadsheetId := Some sid; isNew := false |}
      | None =>
          let* created := SheetsHelpers.createSpreadsheet accessToken
                            CONFIG.SPREADSHEET_TITLE CONFIG.SHEET_NAME in
          let* _ := update (Storage.saveSheetId (SheetsHelpers.or_undefined created)) in
          ret {| resolved_spreadsheetId := created; isNew := true |}
      end
  end.

Definition loadExpenses (accessToken : option string) (spreadsheetId : string)
  : M (list expense) :=
  SheetsHelpers.fetchExpenses accessToken spreadsheetId CONFIG.SHEET_NAME.

Definition appendExpense (accessToken : option string) (spreadsheetId : string)
  (e : expense) : M unit :=
  SheetsHelpers.insertExpense accessToken spreadsheetId CONFIG.SHEET_NAME e.

Definition deleteExpense (accessToken : option string) (spreadsheetId : string)
  (expenseId : string) : M unit :=
  SheetsHelpers.removeExpenseRow accessToken spreadsheetId CONFIG.SHEET_NAME expenseId.

End WithRuntime.
End SheetsServiceStorage.

(** ** controllers/expenseController.js

    The form fields, the date of today and whether the list shows the
    item are read from the page and the clock when the handler starts;
    they are the arguments of the handlers. *)

(** [!amount || amount <= 0]. *)
Definition invalid_amount (amount : number) : bool :=
  negb (num_truthy amount) || SFleb amount zero.

(** [STATE.expenses.filter(e => e.id !== id)]. *)
Definition without_id (expenseId : string) (es : list expense) : list expense :=
  List.filter (fun e => negb (strict_eq (id e) (PStr expenseId))) es.

(** The object built by [submitExpense] once the form is valid. *)
Definition draft `{Runtime} (k : nat) (today cat : string) (amount : number)
  (comment : string) : expense :=
  {| id := PStr (uuid_gen k); date := PStr today; category := PStr cat;
     amount := amount; comment := PStr comment |}.

Module ExpenseController.
Section WithRuntime.
Context `{Runtime}.

Definition persist_cache (w : world) : world :=
  with_localStorage (insert STORAGE.EXPENSES (Json (State.expenses (STATE w)))) w.

Definition push_expense (e : expense) (w : world) : world :=
  with_STATE (fun s => State.set_expenses (State.expenses s ++ [e]) s) w.

Definition submitExpense (today inputAmount inputComment : string) : M unit :=
  let amount := parseFloat_str inputAmount in
  let comment := trim inputComment in
  if invalid_amount amount then update (Ui.showToast "toast.enter_amount" EmptyString "error")
  else
    let* w := get_world in
    match State.selectedCat (STATE w) with
    | None => update (Ui.showToast "toast.select_cat" EmptyString "error")
    | Some cat =>
        if (cat =? EmptyString)%string
        then update (Ui.showToast "toast.select_cat" EmptyString "error")
        else
          let e := draft (drawn w) today cat amount comment in
          let* _ := update (with_drawn (S (drawn w))) in
          let* _ := update (show (SubmitButton true "btn.saving")) in
          try_finally
            (try_catch
               (let* w1 := get_world in
                let* _ := SheetsService.appendExpense (State.accessToken (STATE w1))
                            (SheetsHelpers.or_null (State.spreadsheetId (STATE w1))) e in
                let* _ := update (push_expense e) in
                let* _ := update persist_cache in
                let* _ := update (show (CloseModal "modal-add")) in
                let* _ := update Ui.renderUI in
                update (Ui.showToast "toast.added" EmptyString "success"))
               (fun err => update (Ui.showToast "toast.error_prefix" err "error")))
            (show (SubmitButton false "btn.add"))
    end.

(** [_animateRemoval]: nothing to animate when the item is not listed. *)
Definition _animateRemoval (listed : bool) (expenseId : string) : M unit :=
  if listed
  then let* _ := update (show (AnimateRemoval expenseId)) in sleep 250
  else ret tt.

Definition remove_local (expenseId : string) (w : world) : world :=
  with_STATE (fun s => State.set_expenses (without_id expenseId (State.expenses s)) s) w.

Definition deleteExpense (listed : bool) (expenseId : string) : M unit :=
  let* _ := _animateRemoval listed expenseId in
  let* _ := update (remove_local expenseId) in
  let* _ := update persist_cache in
  let* _ := update Ui.renderUI in
  try_catch
    (let* w1 := get_world in
     let* _ := SheetsService.deleteExpense (State.accessToken (STATE w1))
                 (SheetsHelpers.or_null (State.spreadsheetId (STATE w1))) expenseId in
     update (Ui.showToast "toast.deleted" EmptyString "success"))
    (fun _ => update (Ui.showToast "toast.delete_error" EmptyString "error")).

End WithRuntime.
End ExpenseController.

(** The later revision of the controller: it uses the storage service and
    [parseAmount], and does not wait for the removal animation. *)
Module ExpenseControllerStorage.
Section WithRuntime.
Context `{Runtime}.

Definition persist_cache (w : world) : world :=
  Storage.saveExpenses (State.expenses (STATE w)) w.

Definition submitExpense (today inputAmount inputComment : string) : M unit :=
  let amount := parseAmount inputAmount in
  let comment := trim inputComment in
  if invalid_amount amount then update (Ui.showToast "toast.enter_amount" EmptyString "error")
  else
    let* w := get_world in
    match State.selectedCat (STATE w) with
    | None => update (Ui.showToast "toast.select_cat" EmptyString "error")
    | Some cat =>
        if (cat =? EmptyString)%string
        then update (Ui.showToast "toast.select_cat" EmptyString "error")
        else
          let e := draft (drawn w) today cat amount comment in
          let* _ := update (with_drawn (S (drawn w))) in
          let* _ := update (show (SubmitButton true "btn.saving")) in
          try_finally
            (try_catch
               (let* w1 := get_world in
                let* _ := SheetsServiceStorage.appendExpense (State.accessToken (STATE w1))
                            (SheetsHelpers.or_null (State.spreadsheetId (STATE w1))) e in
                let* _ := update (ExpenseController.push_expense e) in
                let* _ := update persist_cache in
                let* _ := update (show (CloseModal "modal-add")) in
                let* _ := update Ui.renderUI in
                update (Ui.showToast "toast.added" EmptyString "success"))
               (fun err => update (Ui.showToast "toast.error_prefix" err "error")))
            (show (SubmitButton false "btn.add"))
    end.

(** [_animateRemoval(id)] is started and not awaited. *)
Definition start_animation (listed : bool) (expenseId : string) (w : world) : world :=
  if listed then show (AnimateRemoval expenseId) w else w.

Definition deleteExpense (listed : bool) (expenseId : string) : M unit :=
  let* _ := update (start_animation listed expenseId) in
  try_catch
    (let* w1 := get_world in
     let* _ := SheetsServiceStorage.deleteExpense (State.accessToken (STATE w1))
                 (SheetsHelpers.or_null (State.spreadsheetId (STATE w1))) expenseId in
     let* _ := update (ExpenseController.remove_local expenseId) in
     let* _ := update persist_cache in
     let* _ := update Ui.renderUI in
     update (Ui.showToast "toast.deleted" EmptyString "success"))
    (fun _ => update (Ui.showToast "toast.delete_error" EmptyString "error")).

End WithRuntime.
End ExpenseControllerStorage.

(** ** controllers/authController.js: the silent-failure handler *)

Module AuthController.
Section WithRuntime.
Context `{Runtime}.

Definition _enableSignInButton (w : world) : world :=
  show (SignInButtonDisabled false) w.

Definition _toUnauthenticated (w : world) : world :=
  _enableSignInButton
    (Ui.showScreen "auth"
       (Ui.setNavEnabled false
          (with_STATE (State.set_authStatus State.unauthenticated) w))).

Definition onSilentFail (w : world) : world :=
  _toUnauthenticated
    (with_STATE (State.set_accessToken None) (Storage.clearSession w)).

End WithRuntime.
End AuthController.

(** ** helpers/authHelpers.js *)

Module AuthHelpers.

(** The object the identity provider passes to the error callback. *)
Record auth_error : Type := {
  error : option string;
  type : option string;
  message : option string;
}.

Definition is_string (v : option string) (s : string) : bool :=
  match v with
  | Some x => (x =? s)%string
  | None => false
  end.

Definition isSilentAuthError (err : auth_error) : bool :=
  is_string (error err) "access_denied" || is_string (type err) "popup_closed".

(** [err?.message ?? err?.error ?? err?.type ?? JSON.stringify(err)];
    an object with none of the three prints as an empty object. *)
Definition formatAuthError (err : auth_error) : string :=
  match message err, error err, type err with
  | Some m, _, _ => m
  | None, Some e, _ => e
  | None, None, Some t => t
  | None, None, None => "{}"
  end.

End AuthHelpers.

(** ** services/authService.js

    The module-level variables of the service, the timers it has armed
    and the promises it has handed out.  The identity provider and the
    timer call back into the service as separate events. *)

Module AuthService.

Inductive flow : Type := silent | interactive.

(** What the service does to the outside: requests to the identity
    provider, timers, and the settlement of the promises of
    [waitForToken], each promise known by its number. *)
Inductive signal : Type :=
| RequestAccessToken (prompt : string) (login_hint : option string)
| SetTimeout (timer : nat) (ms : Z)
| ClearTimeout (timer : nat)
| Resolve (promise : nat) (accessToken : string)
| Reject (promise : nat) (message : string)
| CallOnSignIn (accessToken : string)
| CallOnSilentFail
| CallOnError (message : string).

(** The callbacks given to [init]; each runs inside the service call that
    fires it. *)
Record callbacks : Type := {
  onSignIn : string -> world -> world;
  onSilentFail : world -> world;
  onError : string -> world -> world;
}.

Record service : Type := {
  _tokenClient : bool;                  (* the client exists *)
  _accessToken : option string;
  _pendingFlowType : option flow;
  _silentRefreshTimer : option nat;
  _tokenWaiters : list nat;
  armed : list nat;                     (* timers set, not yet fired or cleared *)
  next_timer : nat;
  next_promise : nat;
  out : list signal;                    (* oldest first *)
}.

Definition SILENT_REFRESH_TIMEOUT_MS : Z := 5000.

Definition set_accessToken (v : option string) (s : service) : service :=
  {| _tokenClient := _tokenClient s; _accessToken := v;
     _pendingFlowType := _pendingFlowType s; _silentRefreshTimer := _silentRefreshTimer s;
     _tokenWaiters := _tokenWaiters s; armed := armed s; next_timer := next_timer s;
     next_promise := next_promise s; out := out s |}.

Definition set_pendingFlowType (v : option flow) (s : service) : service :=
  {| _tokenClient := _tokenClient s; _accessToken := _accessToken s;
     _pendingFlowType := v; _silentRefreshTimer := _silentRefreshTimer s;
     _tokenWaiters := _tokenWaiters s; armed := armed s; next_timer := next_timer s;
     next_promise := next_promise s; out := out s |}.

Definition set_tokenWaiters (v : list nat) (s : service) : service :=
  {| _tokenClient := _tokenClient s; _accessToken := _accessToken s;
     _pendingFlowType := _pendingFlowType s; _silentRefreshTimer := _silentRefreshTimer s;
     _tokenWaiters := v; armed := armed s; next_timer := next_timer s;
     next_promise := next_promise s; out := out s |}.

Definition emit (x : signal) (s : service) : service :=
  {| _tokenClient := _tokenClient s; _accessToken := _accessToken s;
     _pendingFlowType := _pendingFlowType s; _silentRefreshTimer := _silentRefreshTimer s;
     _tokenWaiters := _tokenWaiters s; armed := armed s; next_timer := next_timer s;
     next_promise := next_promise s; out := out s ++ [x] |}.

Definition without_timer (t : nat) (l : list nat) : list nat :=
  List.filter (fun x => negb (Nat.eqb x t)) l.

(** [_silentRefreshTimer = setTimeout(...)]. *)
Definition arm_timer (s : service) : service :=
  let t := next_timer s in
  emit (SetTimeout t SILENT_REFRESH_TIMEOUT_MS)
    {| _tokenClient := _tokenClient s; _accessToken := _accessToken s;
       _pendingFlowType := _pendingFlowType s; _silentRefreshTimer := Some t;
       _tokenWaiters := _tokenWaiters s; armed := armed s ++ [t]; next_timer := S t;
       next_promise := next_promise s; out := out s |}.

Definition _clearSilentTimer (s : service) : service :=
  match _silentRefreshTimer s with
  | Some t =>
      emit (ClearTimeout t)
        {| _tokenClient := _tokenClient s; _accessToken := _accessToken s;
           _pendingFlowType := _pendingFlowType s; _silentRefreshTimer := None;
           _tokenWaiters := _tokenWaiters s; armed := without_timer t (armed s);
           next_timer := next_timer s; next_promise := next_promise s; out := out s |}
  | None => s
  end.

(** A timer that fires is no longer armed. *)
Definition disarm (t : nat) (s : service) : service :=
  {| _tokenClient := _tokenClient s; _accessToken := _accessToken s;
     _pendingFlowType := _pendingFlowType s; _silentRefreshTimer := _silentRefreshTimer s;
     _tokenWaiters := _tokenWaiters s; armed := without_timer t (armed s);
     next_timer := next_timer s; next_promise := next_promise s; out := out s |}.

(** [new Promise((resolve, reject) => { _tokenWaiters.push(...) ... })]. *)
Definition enqueue_waiter (s : service) : nat * service :=
  let p := next_promise s in
  (p, {| _tokenClient := _tokenClient s; _accessToken := _accessToken s;
         _pendingFlowType := _pendingFlowType s; _silentRefreshTimer := _silentRefreshTimer s;
         _tokenWaiters := _tokenWaiters s ++ [p]; armed := armed s;
         next_timer := next_timer s; next_promise := S p; out := out s |}).

Definition is_silent (f : option flow) : bool :=
  match f with
  | Some silent => true
  | _ => false
  end.

(** The token response of the identity provider. *)
Record response : Type := {
  response_error : option string;
  access_token : string;
  expires_in : Z;
}.

(** What [waitForToken] returns: a promise already resolved with the
    token, or the promise of a queued waiter. *)
Inductive ticket : Type :=
| Immediate (accessToken : string)
| Queued (promise : nat).

Section WithRuntime.
Context `{Runtime}.
Variable cb : callbacks.

Definition isTokenExpired (now : Z) (w : world) : bool :=
  match item_text <$> sessionStorage w !! "google_token_expires_at"%string with
  | None => true
  | Some expiresAt =>
      if (expiresAt =? EmptyString)%string then true
      else match js_Number expiresAt with
           | Some t => now >? t
           | None => false
           end
  end.

Definition signIn (s : service) (w : world) : service * world :=
  if _tokenClient s
  then (emit (RequestAccessToken EmptyString None)
          (set_pendingFlowType (Some interactive) s), w)
  else (emit (CallOnError "Google API is still loading — please try again in a moment.") s,
        onError cb "Google API is still loading — please try again in a moment." w).

Definition silentRefresh (s : service) (w : world) : service * world :=
  if _tokenClient s
  then
    let hint := default EmptyString (item_text <$> localStorage w !! "google_login_hint"%string) in
    (emit (RequestAccessToken EmptyString (Some hint))
       (arm_timer (set_pendingFlowType (Some silent) s)), w)
  else (s, w).

(** The body of the fallback timer, run when timer [t] fires. *)
Definition timer_fires (t : nat) (s : service) (w : world) : service * world :=
  if existsb (Nat.eqb t) (armed s)
  then
    let s1 := disarm t s in
    if is_silent (_pendingFlowType s1)
    then (emit CallOnSilentFail (set_pendingFlowType None s1), onSilentFail cb w)
    else (s1, w)
  else (s, w).

(** [_accessToken && !isTokenExpired()]. *)
Definition has_valid_token (now : Z) (s : service) (w : world) : bool :=
  truthy_string (_accessToken s) && negb (isTokenExpired now w).

Definition waitForToken (now : Z) (s : service) (w : world) : ticket * service * world :=
  if has_valid_token now s w
  then (Immediate (default EmptyString (_accessToken s)), s, w)
  else
    let '(p, s1) := enqueue_waiter s in
    if negb (is_silent (_pendingFlowType s1))
    then let '(s2, w2) := silentRefresh s1 w in (Queued p, s2, w2)
    else (Queued p, s1, w).

(** [_tokenWaiters.splice(0)] followed by [forEach]. *)
Definition settle_all (f : nat -> signal) (s : service) : service :=
  fold_left (fun acc p => emit (f p) acc) (_tokenWaiters s) (set_tokenWaiters [] s).

Definition _handleFailedFlow (flowType : option flow) (errorMessage : string)
  (s : service) (w : world) : service * world :=
  let s1 := settle_all (fun p => Reject p errorMessage) s in
  if is_silent flowType
  then (emit CallOnSilentFail s1, onSilentFail cb w)
  else (emit (CallOnError errorMessage) s1, onError cb errorMessage w).

Definition _onTokenResponse (now : Z) (r : response) (s : service) (w : world)
  : service * world :=
  let s1 := _clearSilentTimer s in
  let flowType := _pendingFlowType s1 in
  let s2 := set_pendingFlowType None s1 in
  if truthy_string (response_error r)
  then _handleFailedFlow flowType ("OAuth error: " ++ default EmptyString (response_error r))%string s2 w
  else
    let s3 := set_accessToken (Some (access_token r)) s2 in
    let expiresAt := now + (expires_in r - 60) * 1000 in
    let w1 := with_sessionStorage
                (fun ss => <["google_token_expires_at"%string := Text (js_String expiresAt)]>
                             (<["google_access_token"%string := Text (access_token r)]> ss)) w in
    let s4 := settle_all (fun p => Resolve p (access_token r)) s3 in
    (emit (CallOnSignIn (access_token r)) s4, onSignIn cb (access_token r) w1).

Definition _onTokenError (err : AuthHelpers.auth_error) (s : service) (w : world)
  : service * world :=
  let s1 := _clearSilentTimer s in
  let flowType := _pendingFlowType s1 in
  let s2 := set_pendingFlowType None s1 in
  if AuthHelpers.isSilentAuthError err
  then
    if is_silent flowType then (s2, w)
    else if AuthHelpers.is_string (AuthHelpers.type err) "popup_closed" then (s2, w)
    else (emit (CallOnError "Access was denied. Please grant the required permissions.") s2,
          onError cb "Access was denied. Please grant the required permissions." w)
  else _handleFailedFlow flowType
         ("OAuth error: " ++ AuthHelpers.formatAuthError err)%string s2 w.

(** [n] calls of [waitForToken], at the given times. *)
Fixpoint waitForToken_each (times : list Z) (s : service) (w : world)
  : list ticket * service * world :=
  match times with
  | [] => ([], s, w)
  | now :: times' =>
      let '(t, s1, w1) := waitForToken now s w in
      let '(ts, s2, w2) := waitForToken_each times' s1 w1 in
      (t :: ts, s2, w2)
  end.

(** How a pending flow can end: through the success channel (which also
    carries provider errors), through the error channel, or by the
    fallback timer. *)
Inductive conclusion : Type :=
| TokenResponse (now : Z) (r : response)
| TokenError (err : AuthHelpers.auth_error)
| TimerFires (t : nat).

Definition conclude (c : conclusion) (s : service) (w : world) : service * world :=
  match c with
  | TokenResponse now r => _onTokenResponse now r s w
  | TokenError err => _onTokenError err s w
  | TimerFires t => timer_fires t s w
  end.

End WithRuntime.

(** How a promise was settled, read off the signals. *)
Inductive settlement : Type :=
| Resolved (accessToken : string)
| Rejected (message : string).

Fixpoint settlement_of (p : nat) (l : list signal) : option settlement :=
  match l with
  | [] => None
  | Resolve q tok :: l' => if Nat.eqb p q then Some (Resolved tok) else settlement_of p l'
  | Reject q m :: l' => if Nat.eqb p q then Some (Rejected m) else settlement_of p l'
  | _ :: l' => settlement_of p l'
  end.

Definition is_request (x : signal) : bool :=
  match x with
  | RequestAccessToken _ _ => true
  | _ => false
  end.

(** The number of flows started with the identity provider. *)
Definition flows_started (l : list signal) : nat := length (List.filter is_request l).

(** Every promise of [ps] was settled, and with the outcome [o]. *)
Definition all_settled (ps : list nat) (l : list signal) (o : settlement) : Prop :=
  Forall (fun p => settlement_of p l = Some o) ps.

(** All resolved with one token, or all rejected with one error. *)
Definition same_outcome (ps : list nat) (l : list signal) : Prop :=
  (exists tok : string, all_settled ps l (Resolved tok))
  \/ (exists m : string, all_settled ps l (Rejected m)).

(** What a conclusion carries for the waiters: the token of a response,
    the error of a response or of the error channel; nothing for a benign
    interruption, and nothing for the timer. *)
Definition outcome_of (c : conclusion) : option settlement :=
  match c with
  | TokenResponse _ r =>
      if truthy_string (response_error r)
      then Some (Rejected ("OAuth error: " ++ default EmptyString (response_error r)))
      else Some (Resolved (access_token r))
  | TokenError err =>
      if AuthHelpers.isSilentAuthError err then None
      else Some (Rejected ("OAuth error: " ++ AuthHelpers.formatAuthError err))
  | TimerFires _ => None
  end.

End AuthService.


(** ** The data model

    A Record of the data model has an identifier, a date, a category tag
    and a comment that are strings, the identifier and the tag not empty:
    this is what [submitExpense] builds and what [rowToExpense] returns
    for the rows of strings that the values API delivers. *)

Definition is_text (v : prim) : bool :=
  match v with
  | PStr _ => true
  | _ => false
  end.

Definition is_Record (e : expense) : bool :=
  is_text (id e) && truthy (id e) && is_text (date e)
  && is_text (category e) && truthy (category e) && is_text (comment e).

(** [0 < x] on numbers. *)
Definition positive_number (x : number) : bool := SFltb zero x.

(** The amount a row parses to, before validation. *)
Definition parsed_amount `{Runtime} (r : row) : number := parseFloat (at_index r 3).

(** ** The local cache

    The records in memory and the records persisted, compared with the
    records that were in memory when a handler started. *)


(** The cache is as it was. *)
Definition cache_kept (w x : world) : Prop :=
  State.expenses (STATE x) = State.expenses (STATE w)
  /\ localStorage x !! STORAGE.EXPENSES = localStorage w !! STORAGE.EXPENSES.

(** The record was added at the end, in memory and persisted. *)
Definition cache_with `{Runtime} (e : expense) (w x : world) : Prop :=
  State.expenses (STATE x) = State.expenses (STATE w) ++ [e]
  /\ Storage.getExpenses x = State.expenses (STATE w) ++ [e].


(** ** Sample data *)

Module Sample.

(** 12.5 as a binary64 number. *)
Definition twelve_and_a_half : number := S754_finite false 7036874417766400 (-49).

Definition minus_three : number := S754_finite true 6755399441055744 (-51).

(** A small host: it parses the literals the examples use, numbers the
    identifiers it hands out, and prints and reads integers in decimal. *)
Definition runtime : Runtime :=
  {| parseFloat_str := fun s =>
       if (s =? "12.5")%string then twelve_and_a_half
       else if (s =? "-3")%string then minus_three
       else if (s =? "0")%string then zero
       else NaN;
     uuid_gen := fun k => ("uuid-" ++ NilZero.string_of_uint (Nat.to_uint k))%string;
     js_Number := fun s => Z.of_int <$> NilZero.int_of_string s;
     js_String := fun z => NilZero.string_of_int (Z.to_int z);
     encodeURIComponent := fun s => s;
     trim := fun s => s;
     JSON_stringify := fun _ => "[...]"%string;
     JSON_parse := fun _ => None;
     parseAmount := fun s =>
       if (s =? "12.5")%string then twelve_and_a_half else NaN |}.

Definition blank : world :=
  {| localStorage := ∅; sessionStorage := ∅; STATE := State.initial;
     page := []; drawn := 0%nat |}.

(** The reply to a read of the identity column holding these identifiers. *)
Definition column (ids : list string) : data :=
  {| spreadsheetId := None; values := Some (map (fun i => [PStr i]) ids);
     sheets := None; files := None |}.

(** The metadata of a store whose only sheet has the numeric id 0. *)
Definition metadata : data :=
  {| spreadsheetId := None; values := None; sheets := Some [Some 0]; files := None |}.

(** A browser that remembers a store. *)
Definition remembering (sid : string) : world :=
  with_localStorage (insert STORAGE.SHEET_ID (Text sid)) blank.

(** The reply to a search that finds the given stores. *)
Definition found_files (ids : list string) : data :=
  {| spreadsheetId := None; values := None; sheets := None;
     files := Some (map (fun i => {| file_id := Some i |}) ids) |}.

(** The reply to the creation of a store. *)
Definition created_store (sid : string) : data :=
  {| spreadsheetId := Some sid; values := None; sheets := None; files := None |}.

(** The service once [init] has created the token client. *)
Definition service_ready : AuthService.service :=
  {| AuthService._tokenClient := true; AuthService._accessToken := None;
     AuthService._pendingFlowType := None; AuthService._silentRefreshTimer := None;
     AuthService._tokenWaiters := []; AuthService.armed := [];
     AuthService.next_timer := 0%nat; AuthService.next_promise := 0%nat;
     AuthService.out := [] |}.

(** The callbacks of app.js, up to the first await of the sign-in one. *)
Definition app_callbacks : AuthService.callbacks :=
  {| AuthService.onSignIn := fun tok w =>
       Ui.setNavEnabled true
         (with_STATE (fun st => State.set_authStatus State.ready
                                  (State.set_accessToken (Some tok) st)) w);
     AuthService.onSilentFail := AuthController.onSilentFail;
     AuthService.onError := fun m w => show (AuthErrorText m) w |}.

(** The service holding a token in memory. *)
Definition service_with_token : AuthService.service :=
  AuthService.set_accessToken (Some "tok"%string) service_ready.

(** A tab that holds an access token and no expiry. *)
Definition token_without_expiry : world :=
  with_sessionStorage (insert Storage.SESSION_STORAGE.ACCESS_TOKEN (Text "tok")) blank.

(** A token response that carries a provider error. *)
Definition error_response : AuthService.response :=
  {| AuthService.response_error := Some "server_error"%string;
     AuthService.access_token := EmptyString; AuthService.expires_in := 0 |}.

(** The error the provider reports when access is denied. *)
Definition access_denied : AuthHelpers.auth_error :=
  {| AuthHelpers.error := Some "access_denied"%string; AuthHelpers.type := None;
     AuthHelpers.message := None |}.

(** A browser with the store S1, a cached record and a login hint, and a
    token with its expiry in the tab. *)
Definition signed_in : world :=
  {| localStorage :=
       <[Storage.LOCAL_STORAGE.LOGIN_HINT := Text "me@example.org"]>
         (<[Storage.LOCAL_STORAGE.EXPENSES :=
              Json [{| id := PStr "X"; date := PStr "2024-03-01"; category := PStr "food";
                       amount := twelve_and_a_half; comment := PStr EmptyString |}]]>
            (<[Storage.LOCAL_STORAGE.SHEET_ID := Text "S1"]> ∅));
     sessionStorage :=
       <[Storage.SESSION_STORAGE.EXPIRES_AT := Text "1700000000000"]>
         (<[Storage.SESSION_STORAGE.ACCESS_TOKEN := Text "tok"]> ∅);
     STATE := State.set_authStatus State.restoring
                (State.set_spreadsheetId (Some "S1"%string) State.initial);
     page := []; drawn := 0%nat |}.

(** Signed in with store S1, the category food selected in the form,
    and no record yet. *)
Definition ready_to_add : world :=
  {| localStorage := <[Storage.LOCAL_STORAGE.SHEET_ID := Text "S1"]> ∅;
     sessionStorage := <[Storage.SESSION_STORAGE.ACCESS_TOKEN := Text "tok"]> ∅;
     STATE := {| State.accessToken := Some "tok"%string; State.userProfile := None;
                 State.authStatus := State.ready;
                 State.spreadsheetId := Some "S1"%string; State.expenses := [];
                 State.currentScreen := "main"; State.currentPeriod := "day";
                 State.currentCategoryFilter := "all";
                 State.selectedCat := Some "food"%string |};
     page := []; drawn := 0%nat |}.

Definition lunch : expense :=
  {| id := PStr "X"; date := PStr "2024-03-01"; category := PStr "food";
     amount := twelve_and_a_half; comment := PStr EmptyString |}.

(** Signed in with store S1 and the record X cached, in memory and
    persisted, and the numeric sheet id known. *)
Definition with_lunch : world :=
  {| localStorage :=
       <[Storage.LOCAL_STORAGE.NUMERIC_SHEET_ID := Text "0"]>
         (<[Storage.LOCAL_STORAGE.EXPENSES := Json [lunch]]>
            (<[Storage.LOCAL_STORAGE.SHEET_ID := Text "S1"]> ∅));
     sessionStorage := <[Storage.SESSION_STORAGE.ACCESS_TOKEN := Text "tok"]> ∅;
     STATE := State.set_expenses [lunch] (STATE ready_to_add);
     page := []; drawn := 0%nat |}.


End Sample.

(** ** Reading what a run sent *)

(** The row deletions that a request asks for. *)
Definition row_deletes (e : wait) : list delete_request :=
  match e with
  | Http r => match payload r with
              | Some (BatchBody l) => l
              | _ => []
              end
  | Sleep _ => []
  end.

(** The read of the data rows that [fetchExpenses] sends. *)
Definition fetchRequest `{Runtime} (accessToken : option string)
  (spreadsheetId sheetName : string) : request :=
  {| meth := GET; token := accessToken;
     url := (CONFIG.SHEETS_BASE ++ "/" ++ spreadsheetId ++ "/values/"
             ++ encodeURIComponent (SheetsHelpers.range sheetName "A2:E1000"))%string;
     payload := None |}.


(** ** services/authService.js: the service over its lifetime

    The module-level variables as the module leaves them when it is
    loaded, and the calls and callbacks that reach the service, one at a
    time, in any order. *)

Module AuthFlow.
Import AuthService.

(** [let _tokenClient = null; let _accessToken = null; ...]. *)
Definition initial : service :=
  {| _tokenClient := false; _accessToken := None; _pendingFlowType := None;
     _silentRefreshTimer := None; _tokenWaiters := []; armed := [];
     next_timer := 0%nat; next_promise := 0%nat; out := [] |}.

(** [_tokenClient = google.accounts.oauth2.initTokenClient(...)]. *)
Definition _initTokenClient (s : service) : service :=
  {| _tokenClient := true; _accessToken := _accessToken s;
     _pendingFlowType := _pendingFlowType s; _silentRefreshTimer := _silentRefreshTimer s;
     _tokenWaiters := _tokenWaiters s; armed := armed s; next_timer := next_timer s;
     next_promise := next_promise s; out := out s |}.

(** What [signOut] does once the revocation has been awaited; the
    sign-out callback of [init] is [onSignOut]. *)
Definition signOut_completes (onSignOut : world -> world) (s : service) (w : world)
  : service * world :=
  (set_pendingFlowType None (set_accessToken None s),
   onSignOut
     (with_sessionStorage
        (fun ss => delete "google_token_expires_at"%string
                     (delete "google_access_token"%string ss)) w)).

Inductive event : Type :=
| InitTokenClient
| CallSignIn
| CallSilentRefresh
| CallWaitForToken (now : Z)
| Concludes (c : conclusion)
| SignOutCompletes.

Section WithRuntime.
Context `{Runtime}.
Variable cb : callbacks.
Variable onSignOut : world -> world.

Definition step (e : event) (s : service) (w : world) : service * world :=
  match e with
  | InitTokenClient => (_initTokenClient s, w)
  | CallSignIn => signIn cb s w
  | CallSilentRefresh => silentRefresh s w
  | CallWaitForToken now =>
      let '(_, s1, w1) := waitForToken now s w in (s1, w1)
  | Concludes c => conclude cb c s w
  | SignOutCompletes => signOut_completes onSignOut s w
  end.

Fixpoint steps (es : list event) (s : service) (w : world) : service * world :=
  match es with
  | [] => (s, w)
  | e :: es' => let '(s1, w1) := step e s w in steps es' s1 w1
  end.

End WithRuntime.

(** How many times the promise [p] was settled. *)
Definition settles (p : nat) (x : signal) : bool :=
  match x with
  | Resolve q _ | Reject q _ => Nat.eqb p q
  | _ => false
  end.

Definition times_settled (p : nat) (l : list signal) : nat :=
  length (List.filter (settles p) l).

Definition is_error_call (x : signal) : bool :=
  match x with
  | CallOnError _ => true
  | _ => false
  end.

Definition is_silent_fail_call (x : signal) : bool :=
  match x with
  | CallOnSilentFail => true
  | _ => false
  end.

(** The books of the service are in order: the waiters are distinct
    promises that were handed out and are not settled, every other
    promise handed out is settled once, none that was not handed out is
    settled, and the timers armed are distinct handles already given. *)
Definition in_order (s : service) : Prop :=
  NoDup (_tokenWaiters s)
  /\ (forall p : nat, In p (_tokenWaiters s) ->
        (p < next_promise s)%nat /\ times_settled p (out s) = 0%nat)
  /\ (forall p : nat, (p < next_promise s)%nat -> ~ In p (_tokenWaiters s) ->
        times_settled p (out s) = 1%nat)
  /\ (forall p : nat, (next_promise s <= p)%nat -> times_settled p (out s) = 0%nat)
  /\ NoDup (armed s)
  /\ Forall (fun t => (t < next_timer s)%nat) (armed s).

(** What one call or callback does to the queue and the log: it leaves
    the queue and settles nobody, or queues one new promise, or settles
    everybody in the queue once and empties it. *)
Definition queue_effect (s s' : service) : Prop :=
  exists l : list signal,
    out s' = out s ++ l
    /\ ((next_promise s' = next_promise s
         /\ _tokenWaiters s' = _tokenWaiters s
         /\ forall p : nat, times_settled p l = 0%nat)
        \/ (next_promise s' = S (next_promise s)
            /\ _tokenWaiters s' = _tokenWaiters s ++ [next_promise s]
            /\ forall p : nat, times_settled p l = 0%nat)
        \/ (next_promise s' = next_promise s
            /\ _tokenWaiters s' = []
            /\ forall p : nat,
                 times_settled p l = length (List.filter (Nat.eqb p) (_tokenWaiters s)))).

(** What it does to the timers: some are disarmed, and at most one new
    one is armed, with the next handle. *)
Definition timer_effect (s s' : service) : Prop :=
  exists (f : nat -> bool) (b : bool),
    armed s' = List.filter f (armed s) ++ (if b then [next_timer s] else [])
    /\ next_timer s' = if b then S (next_timer s) else next_timer s.

Definition is_init (e : event) : bool :=
  match e with
  | InitTokenClient => true
  | _ => false
  end.

End AuthFlow.

(** ** utils/helpers.js: uuid

    [Math.random() * 16 | 0] is read from the sequence [draws] of its
    values, one for each [x] or [y] of the template, in order. *)

Module Helpers.

(** [n.toString(16)] on a natural number. *)
Definition toString16 (n : N) : string :=
  HexadecimalString.NilZero.string_of_uint (N.to_hex_uint n).

(** [template.replace(/[xy]/g, c => (c === 'x' ? r : (r & 0x3 | 0x8)).toString(16))],
    from the draw [i] on. *)
Fixpoint replace_xy (template : string) (draws : nat -> N) (i : nat) : string :=
  match template with
  | EmptyString => EmptyString
  | String c rest =>
      if Ascii.eqb c "x"
      then (toString16 (draws i) ++ replace_xy rest draws (S i))%string
      else if Ascii.eqb c "y"
      then (toString16 (N.lor (N.land (draws i) 3) 8) ++ replace_xy rest draws (S i))%string
      else String c (replace_xy rest draws i)
  end.

Definition uuid (draws : nat -> N) : string :=
  replace_xy "xxxxxxxx-xxxx-4xxx-yxxx-xxxxxxxxxxxx" draws 0.

Definition hex_digits : list ascii :=
  ["0"; "1"; "2"; "3"; "4"; "5"; "6"; "7"; "8"; "9"; "a"; "b"; "c"; "d"; "e"; "f"]%char.

End Helpers.

(** ** api/client/sheetsClient.js: unwrapping a response

    What [fetch] gives back to [get], [post] and [put]: a rejection, or a
    response with its [ok] flag, its status and its body.  The body is
    given as [res.json()] parses it, with the [error.message] it may
    carry; [None] when it does not parse. *)

Module SheetsClientWire.

Inductive fetched : Type :=
| Rejected (message : string)
| Responded (ok : bool) (status : Z) (json : option (data * option string)).

(** [_unwrap(res)], and the rejection of [fetch] that [get] lets through. *)
Definition _unwrap `{Runtime} (f : fetched) : reply :=
  match f with
  | Rejected m => Failure m
  | Responded ok status json =>
      let d := default (no_data, None) json in
      if ok then Data (fst d)
      else Failure (if truthy_string (snd d) then default EmptyString (snd d)
                    else "HTTP " ++ js_String status)%string
  end.

(** The server that the client sees through [_unwrap]. *)
Definition through `{Runtime} {S : Type} (wire : S -> request -> fetched * S)
  (s : S) (e : wait) : reply * S :=
  match e with
  | Http r => let '(f, s') := wire s r in (_unwrap f, s')
  | Sleep _ => (Data no_data, s)
  end.

End SheetsClientWire.

(** ** controllers/authController.js: start-up and sign-out

    [onAuthReady] and [onSignOut] are the ready and the sign-out
    callbacks of the service; [onAuthReady] ends in a call of
    [AuthService.silentRefresh], so it acts on the service as well as on
    the browser.  The clock is read once, by [getStoredSession]. *)

Module AuthLifecycle.
Section WithRuntime.
Context `{Runtime}.

Definition _disableSignInButton (w : world) : world :=
  show (SignInButtonDisabled true) w.

(** [setSetupText(title, sub)] of ui/navigation.js. *)
Definition setSetupText (title sub : string) (w : world) : world :=
  show (SetSetupText title sub) w.

Definition _startSilentRestore (sheetId : string) (expenses : list expense)
  (s : AuthService.service) (w : world) : AuthService.service * world :=
  let w1 := with_STATE (State.set_authStatus State.restoring)
              (with_STATE (State.set_spreadsheetId (Some sheetId)) w) in
  let w2 :=
    if (0 <? length expenses)%nat
    then Ui.renderUI
           (Ui.showScreen "main"
              (Ui.setNavEnabled true (with_STATE (State.set_expenses expenses) w1)))
    else _disableSignInButton (Ui.showScreen "auth" (Ui.setNavEnabled false w1)) in
  AuthService.silentRefresh s w2.

Definition _restoreSession (accessToken sheetId : string) (expenses : list expense)
  (s : AuthService.service) (w : world) : AuthService.service * world :=
  let w1 := Ui.setNavEnabled true
              (with_STATE (State.set_authStatus State.restoring)
                 (with_STATE (State.set_spreadsheetId (Some sheetId))
                    (with_STATE (State.set_accessToken (Some accessToken)) w))) in
  let w2 :=
    if (0 <? length expenses)%nat
    then Ui.renderUI (Ui.showScreen "main" (with_STATE (State.set_expenses expenses) w1))
    else setSetupText "Loading data…" EmptyString (Ui.showScreen "setup" w1) in
  AuthService.silentRefresh s w2.

Definition onAuthReady (now : Z) (s : AuthService.service) (w : world)
  : AuthService.service * world :=
  let session := Storage.getStoredSession now w in
  let sheetId := default EmptyString (Storage.sheetId session) in
  let accessToken := default EmptyString (Storage.accessToken session) in
  if negb (truthy_string (Storage.sheetId session))
  then (s, AuthController._toUnauthenticated w)
  else if negb (truthy_string (Storage.accessToken session))
  then _startSilentRestore sheetId (Storage.expenses session) s w
  else if Storage.tokenExpired session
  then _startSilentRestore sheetId (Storage.expenses session) s w
  else _restoreSession accessToken sheetId (Storage.expenses session) s w.

(** [STATE.currentPeriod = 'day'; STATE.currentCategoryFilter = 'all';
    STATE.selectedCat = null]. *)
Definition reset_filters (s : State.AppState) : State.AppState :=
  {| State.accessToken := State.accessToken s; State.userProfile := State.userProfile s;
     State.authStatus := State.authStatus s; State.spreadsheetId := State.spreadsheetId s;
     State.expenses := State.expenses s; State.currentScreen := State.currentScreen s;
     State.currentPeriod := "day"; State.currentCategoryFilter := "all";
     State.selectedCat := None |}.

Definition onSignOut (w : world) : world :=
  let w1 := with_STATE (fun st => reset_filters (State.reset st)) w in
  let w2 := Storage.clearAll w1 in
  AuthController._enableSignInButton
    (Ui.showToast "toast.signed_out" EmptyString EmptyString
       (Ui.showScreen "auth"
          (show (CloseModal "modal-profile") (Ui.setNavEnabled false w2)))).

End WithRuntime.
End AuthLifecycle.

(** ** controllers/expenseController.js: restoring and refreshing *)

(** [s.includes(sub)]. *)
Fixpoint includes (s sub : string) : bool :=
  String.prefix sub s
  || match s with
     | EmptyString => false
     | String _ s' => includes s' sub
     end.

(** The revision that reads and writes the storage itself.
    [restoreCachedExpenses] parses the cache outside of any [try], so it
    can throw. *)
Module ExpenseRefresh.
Section WithRuntime.
Context `{Runtime}.

Definition restoreCachedExpenses (w : world) : world * outcome unit :=
  if negb (truthy_string (item_text <$> localStorage w !! STORAGE.SHEET_ID))
  then (w, Return tt)
  else
    match localStorage w !! STORAGE.EXPENSES with
    | None => (w, Return tt)
    | Some (Json es) => (with_STATE (State.set_expenses es) w, Return tt)
    | Some (Text cached) =>
        if (cached =? EmptyString)%string then (w, Return tt)
        else match JSON_parse cached with
             | Some es => (with_STATE (State.set_expenses es) w, Return tt)
             | None => (w, Throw "SyntaxError")
             end
    end.

Definition refreshDataInBackground : M unit :=
  try_catch
    (let* w := get_world in
     let* expenses := SheetsService.loadExpenses (State.accessToken (STATE w))
                        (SheetsHelpers.or_null (State.spreadsheetId (STATE w))) in
     let* _ := update (with_STATE (State.set_expenses expenses)) in
     let* _ := update (with_localStorage (insert STORAGE.EXPENSES (Json expenses))) in
     let* w1 := get_world in
     let* _ := if (State.currentScreen (STATE w1) =? "setup")%string
               then update (Ui.showScreen "main")
               else ret tt in
     update Ui.renderUI)
    (fun err =>
       if includes err "401" || includes err "auth"
       then
         let* _ := update (Ui.showToast "toast.auth_error" err "error") in
         update (Ui.showScreen "auth")
       else ret tt).

End WithRuntime.
End ExpenseRefresh.

(** The revision that goes through the storage service.  The call of
    [AuthService.silentRefresh()] that ends the failure branch of
    [refreshDataInBackground] is the last thing the handler does; the
    handler here returns whether that call is due. *)
Module ExpenseRefreshStorage.
Section WithRuntime.
Context `{Runtime}.

Definition restoreCachedExpenses (w : world) : world :=
  if negb (truthy_string (Storage.getSheetId w)) then w
  else
    let expenses := Storage.getExpenses w in
    if (0 <? length expenses)%nat
    then with_STATE (State.set_expenses expenses) w
    else w.

Definition on_entry_screen (w : world) : bool :=
  (State.currentScreen (STATE w) =? "setup")%string
  || (State.currentScreen (STATE w) =? "auth")%string.

Definition refreshDataInBackground : M bool :=
  let* w := get_world in
  if negb (truthy_string (State.accessToken (STATE w)))
  then
    let* _ := update Ui.renderUI in
    ret false
  else
    try_catch
      (let* expenses := SheetsServiceStorage.loadExpenses (State.accessToken (STATE w))
                          (SheetsHelpers.or_null (State.spreadsheetId (STATE w))) in
       let* _ := update (with_STATE (State.set_expenses expenses)) in
       let* _ := update (Storage.saveExpenses expenses) in
       let* w1 := get_world in
       let* _ := if on_entry_screen w1 then update (Ui.showScreen "main") else ret tt in
       let* _ := update Ui.renderUI in
       ret false)
      (fun err =>
         if includes err "401" || includes err "403"
         then
           let* _ := update Storage.clearSession in
           let* _ := update (with_STATE (State.set_accessToken None)) in
           ret true
         else ret false).

End WithRuntime.
End ExpenseRefreshStorage.

(** ** Scenarios *)

Module Scenario.

(** A token that lives for an hour. *)
Definition hour_token : AuthService.response :=
  {| AuthService.response_error := None; AuthService.access_token := "tok";
     AuthService.expires_in := 3600 |}.

(** The service with one silent flow started and its timer armed. *)
Definition refreshing : AuthService.service :=
  fst (AuthService.silentRefresh (H := Sample.runtime) Sample.service_ready Sample.blank).

(** A store that answers 401 to everything. *)
Definition unauthorized (s : unit) (e : wait) : reply * unit :=
  (Failure "HTTP 401", tt).

(** A store that rejects the token the way the Sheets API words it. *)
Definition unauthenticated (s : unit) (r : request) : SheetsClientWire.fetched * unit :=
  (SheetsClientWire.Responded false 401
     (Some (no_data, Some "Request had invalid authentication credentials."%string)), tt).

(** The signed-in browser of the samples with a cache that was cut off
    in the middle. *)
Definition broken_cache : world :=
  with_localStorage (insert STORAGE.EXPENSES (Text "[{")) Sample.signed_in.

End Scenario.
(** * Properties *)

Module SheetsHelpersFacts.
Import SheetsHelpers.

Lemma strict_eq_PStr (v : prim) (s : string) :
  strict_eq v (PStr s) = true <-> v = PStr s.
Proof.
  destruct v; simpl; try (split; [discriminate | intros [=]]).
  rewrite String.eqb_eq. split; [intros -> | intros [=]]; congruence.
Qed.

Lemma findIndex_from_first {A : Type} (p : A -> bool) (l : list A) :
  forall (i : Z) (k : nat) (x : A),
    l !! k = Some x ->
    p x = true ->
    (forall (j : nat) (y : A), (j < k)%nat -> l !! j = Some y -> p y = false) ->
    findIndex_from p l i = i + Z.of_nat k.
Proof.
  induction l as [|a l IH]; intros i k x Hk Hp Hfirst.
  - destruct k; discriminate.
  - destruct k as [|k]; simpl in *.
    + injection Hk as ->. rewrite Hp. lia.
    + rewrite (Hfirst 0%nat a) by (simpl; (lia || reflexivity)).
      rewrite (IH (i + 1) k x Hk Hp).
      * lia.
      * intros j y Hj Hy. apply (Hfirst (S j) y); [lia | exact Hy].
Qed.

Lemma findIndex_from_none {A : Type} (p : A -> bool) (l : list A) :
  forall i : Z, Forall (fun x => p x = false) l -> findIndex_from p l i = -1.
Proof.
  induction l as [|a l IH]; intros i Hall; simpl.
  - reflexivity.
  - inversion Hall as [|? ? Ha Hl]; subst. rewrite Ha. apply IH, Hl.
Qed.

Lemma findIndex_from_range {A : Type} (p : A -> bool) (l : list A) :
  forall i : Z, 0 <= i -> findIndex_from p l i = -1 \/ i <= findIndex_from p l i.
Proof.
  induction l as [|a l IH]; intros i Hi; simpl.
  - now left.
  - destruct (p a); [right; lia|].
    destruct (IH (i + 1)) as [E|E]; [lia | now left | right; lia].
Qed.

Lemma findRowIndex_first_match
  (idColumn : list row) (expenseId : string) (k : nat) (r : row) :
  idColumn !! k = Some r ->
  at_index r 0 = PStr expenseId ->
  (forall (j : nat) (r' : row),
      (j < k)%nat -> idColumn !! j = Some r' -> at_index r' 0 <> PStr expenseId) ->
  findRowIndex idColumn expenseId = Z.of_nat k + 1.
Proof.
  intros Hk Hid Hfirst. unfold findRowIndex, findIndex.
  rewrite (findIndex_from_first _ idColumn 0 k r Hk).
  - destruct (0 + Z.of_nat k =? -1) eqn:E; [apply Z.eqb_eq in E; lia | lia].
  - apply strict_eq_PStr, Hid.
  - intros j y Hj Hy. destruct (strict_eq (at_index y 0) (PStr expenseId)) eqn:E; auto.
    apply strict_eq_PStr in E. now destruct (Hfirst j y Hj Hy).
Qed.

(** In a column of distinct identifiers, the row that holds the
    identifier is the first and only one that does. *)
Lemma findRowIndex_distinct_ids
  (idColumn : list row) (expenseId : string) (k : nat) (r : row) :
  NoDup (map (fun r' => at_index r' 0) idColumn) ->
  idColumn !! k = Some r ->
  at_index r 0 = PStr expenseId ->
  findRowIndex idColumn expenseId = Z.of_nat k + 1.
Proof.
  intros Hnd Hk Hid. apply (findRowIndex_first_match idColumn expenseId k r Hk Hid).
  intros j r' Hj Hj' Heq. unfold row in *.
  assert (E : j = k); [|lia].
  apply (NoDup_lookup _ j k (PStr expenseId) Hnd).
  - change (map (fun r' => at_index r' 0) idColumn) with ((fun r' => at_index r' 0) <$> idColumn).
    rewrite list_lookup_fmap, Hj'. simpl. now rewrite Heq.
  - change (map (fun r' => at_index r' 0) idColumn) with ((fun r' => at_index r' 0) <$> idColumn).
    rewrite list_lookup_fmap, Hk. simpl. now rewrite Hid.
Qed.

(** C5.  When the identifier sits in the identity column at zero-based
    offset [k] (the offset of its row, the first one that holds it), the
    computed sheet row index is [k + 1], and the delete-dimension request
    built from it starts at [k + 1] and ends at [k + 2]. *)
Theorem findRowIndex_header_correction
  (idColumn : list row) (expenseId : string) (k : nat) (r : row)
  (numericSheetId : option Z) :
  idColumn !! k = Some r ->
  at_index r 0 = PStr expenseId ->
  (forall (j : nat) (r' : row),
      (j < k)%nat -> idColumn !! j = Some r' -> at_index r' 0 <> PStr expenseId) ->
  findRowIndex idColumn expenseId = Z.of_nat k + 1
  /\ startIndex (buildDeleteRowRequest numericSheetId (findRowIndex idColumn expenseId))
     = Z.of_nat k + 1
  /\ endIndex (buildDeleteRowRequest numericSheetId (findRowIndex idColumn expenseId))
     = Z.of_nat k + 2.
Proof.
  intros Hk Hid Hfirst.
  rewrite (findRowIndex_first_match idColumn expenseId k r Hk Hid Hfirst).
  simpl. repeat split; lia.
Qed.

(** The scenario of the specification: column A, X, C and identifier X. *)
Lemma findRowIndex_scenario :
  findRowIndex [[PStr "A"]; [PStr "X"]; [PStr "C"]] "X" = 2
  /\ startIndex (buildDeleteRowRequest (Some 0)
                   (findRowIndex [[PStr "A"]; [PStr "X"]; [PStr "C"]] "X")) = 2
  /\ endIndex (buildDeleteRowRequest (Some 0)
                 (findRowIndex [[PStr "A"]; [PStr "X"]; [PStr "C"]] "X")) = 3.
Proof.
  apply (findRowIndex_header_correction
           [[PStr "A"]; [PStr "X"]; [PStr "C"]] "X" 1 [PStr "X"] (Some 0)).
  - reflexivity.
  - reflexivity.
  - intros j r' Hj. destruct j as [|j]; [|lia].
    simpl. intros [= <-]. discriminate.
Defined.

End SheetsHelpersFacts.

Module RoundTrip.
Import SheetsHelpers.

Section WithRuntime.
Context `{Runtime}.

Lemma positive_number_spec (x : number) :
  positive_number x = true ->
  num_truthy x = true /\ SFleb x zero = false /\ parseFloat (PNum x) = x.
Proof.
  unfold positive_number.
  destruct x as [s|s| |s m e]; simpl; try discriminate; destruct s; simpl;
    try discriminate; auto.
Qed.

Lemma not_positive_number_spec (x : number) :
  positive_number x = false ->
  SFleb (num_or (parseFloat (PNum x)) zero) zero = true.
Proof.
  unfold positive_number, num_or.
  destruct x as [s|s| |s m e]; simpl; try reflexivity; destruct s; simpl;
    try discriminate; auto.
Qed.

Lemma or_else_text (v d : prim) :
  is_text v = true -> truthy v = true -> or_else v d = v.
Proof. unfold or_else. now intros _ ->. Qed.

Lemma or_else_empty_default (v : prim) :
  is_text v = true -> or_else v (PStr EmptyString) = v.
Proof.
  destruct v as [| | | |s]; try discriminate. intros _.
  unfold or_else. simpl. destruct (String.eqb_spec s EmptyString); simpl; congruence.
Qed.

(** Records are what the program makes: the draft of [submitExpense],
    and every row of strings that [rowToExpense] accepts, given that
    [uuid()] never returns the empty string. *)
Lemma draft_is_Record (k : nat) (today cat : string) (a : number) (c : string) :
  uuid_gen k <> EmptyString ->
  cat <> EmptyString ->
  is_Record (draft k today cat a c) = true.
Proof.
  intros Hu Hc. unfold is_Record, draft; simpl.
  destruct (String.eqb_spec (uuid_gen k) EmptyString); [contradiction|].
  destruct (String.eqb_spec cat EmptyString); [contradiction|]. reflexivity.
Qed.

Lemma at_index_text (r : row) (i : nat) :
  Forall (fun c => is_text c = true) r ->
  is_text (at_index r i) = true \/ at_index r i = PUndef.
Proof.
  intros Hall. unfold at_index. revert i.
  induction Hall as [|c r Hc _ IH]; intros [|i]; simpl; auto.
Qed.

Lemma or_else_is_text (v : prim) (d : string) :
  is_text v = true \/ v = PUndef -> is_text (or_else v (PStr d)) = true.
Proof.
  unfold or_else. intros [Ht | ->]; [|reflexivity].
  now destruct (truthy v).
Qed.

Lemma or_else_truthy (v : prim) (d : string) :
  d <> EmptyString -> truthy (or_else v (PStr d)) = true.
Proof.
  intros Hd. unfold or_else. destruct (truthy v) eqn:E; [exact E|].
  simpl. now destruct (String.eqb_spec d EmptyString).
Qed.

Lemma rowToExpense_is_Record (r : row) (k k' : nat) (e : expense) :
  Forall (fun c => is_text c = true) r ->
  uuid_gen k <> EmptyString ->
  rowToExpense r k = (Some e, k') ->
  is_Record e = true /\ positive_number (amount e) = true.
Proof.
  intros Hall Hu. unfold rowToExpense.
  destruct (SFleb (num_or (parseFloat (at_index r 3)) zero) zero) eqn:Hle; [discriminate|].
  assert (Hpos : positive_number (num_or (parseFloat (at_index r 3)) zero) = true).
  { unfold positive_number, num_or in *.
    destruct (parseFloat (at_index r 3)) as [s|s| |s m x]; simpl in *;
      try discriminate; destruct s; cbv in Hle |- *; congruence. }
  destruct (truthy (at_index r 0)) eqn:Hid; simpl; intros [= <- <-];
    unfold is_Record; simpl; (split; [|exact Hpos]).
  - destruct (at_index_text r 0 Hall) as [Ht | Hund];
      [|rewrite Hund in Hid; discriminate].
    rewrite Ht, Hid, !or_else_is_text by (apply at_index_text, Hall).
    now rewrite or_else_truthy by discriminate.
  - destruct (String.eqb_spec (uuid_gen k) EmptyString); [contradiction|].
    rewrite !or_else_is_text by (apply at_index_text, Hall).
    now rewrite or_else_truthy by discriminate.
Qed.

Lemma rowToExpense_roundtrip (e : expense) (k : nat) :
  is_Record e = true ->
  positive_number (amount e) = true ->
  rowToExpense (expenseToRow e) k = (Some e, k).
Proof.
  unfold is_Record. destruct e as [i d c a m]; cbn [id date category amount comment].
  intros Hrec Hpos.
  repeat (apply andb_prop in Hrec as [Hrec ?]).
  destruct (positive_number_spec _ Hpos) as (Ht & Hle & Hparse).
  unfold rowToExpense, expenseToRow, at_index;
    cbn [nth id date category amount comment].
  rewrite Hparse. unfold num_or. rewrite Ht, Hle.
  replace (truthy i) with true by congruence.
  rewrite (or_else_empty_default d), (or_else_text c), (or_else_empty_default m) by assumption.
  reflexivity.
Qed.

Lemma rowToExpense_dropped (r : row) (k : nat) :
  parsed_amount r = NaN \/ SFleb (parsed_amount r) zero = true ->
  rowToExpense r k = (None, k).
Proof.
  unfold parsed_amount, rowToExpense, num_or. intros [E|E].
  - rewrite E. reflexivity.
  - destruct (num_truthy (parseFloat (at_index r 3))); [now rewrite E | reflexivity].
Qed.

Lemma map_rowToExpense_app (l1 l2 : list row) :
  forall k : nat,
    map_rowToExpense (l1 ++ l2) k =
    (fst (map_rowToExpense l1 k)
       ++ fst (map_rowToExpense l2 (snd (map_rowToExpense l1 k))),
     snd (map_rowToExpense l2 (snd (map_rowToExpense l1 k)))).
Proof.
  induction l1 as [|r l1 IH]; intros k; simpl.
  - now destruct (map_rowToExpense l2 k).
  - destruct (rowToExpense r k) as [o k1]. rewrite IH.
    destruct (map_rowToExpense l1 k1) as [os1 k2]; simpl.
    now destruct (map_rowToExpense l2 k2).
Qed.

Lemma filter_Boolean_app {A : Type} (l1 l2 : list (option A)) :
  filter_Boolean (l1 ++ l2) = filter_Boolean l1 ++ filter_Boolean l2.
Proof.
  induction l1 as [|[x|] l1 IH]; simpl; congruence.
Qed.

Lemma rowsToExpenses_drops (r : row) (before after : list row) (k : nat) :
  parsed_amount r = NaN \/ SFleb (parsed_amount r) zero = true ->
  rowsToExpenses (Some (before ++ r :: after)) k
  = rowsToExpenses (Some (before ++ after)) k.
Proof.
  intros Hbad. unfold rowsToExpenses; simpl.
  rewrite !map_rowToExpense_app. simpl.
  rewrite (rowToExpense_dropped r _ Hbad).
  destruct (map_rowToExpense before k) as [os1 k1]; simpl.
  destruct (map_rowToExpense after k1) as [os2 k2]; simpl.
  now rewrite !filter_Boolean_app.
Qed.

(** C7.  A Record with a positive amount, serialized by [expenseToRow]
    and read back by [rowToExpense], is the same Record in all five
    fields, and no identifier is drawn for it.  A row whose amount cell
    does not parse, or parses to a value that is not positive, is mapped
    to null and [rowsToExpenses] leaves it out; so a Record whose amount
    is not positive does not come back. *)
Theorem serialize_deserialize_roundtrip :
  (forall (e : expense) (k : nat),
      is_Record e = true ->
      positive_number (amount e) = true ->
      rowToExpense (expenseToRow e) k = (Some e, k))
  /\ (forall (r : row) (k : nat),
         parsed_amount r = NaN \/ SFleb (parsed_amount r) zero = true ->
         rowToExpense r k = (None, k)
         /\ forall before after : list row,
             rowsToExpenses (Some (before ++ r :: after)) k
             = rowsToExpenses (Some (before ++ after)) k)
  /\ (forall (e : expense) (k : nat),
         positive_number (amount e) = false ->
         rowToExpense (expenseToRow e) k = (None, k)).
Proof.
  split; [|split].
  - apply rowToExpense_roundtrip.
  - intros r k Hbad. split.
    + now apply rowToExpense_dropped.
    + intros before after. now apply rowsToExpenses_drops.
  - intros e k Hneg. unfold rowToExpense, expenseToRow, at_index; cbn [nth].
    now rewrite (not_positive_number_spec _ Hneg).
Qed.

End WithRuntime.

(** The Record of the scenario round-trips, and a row with amount "-3"
    is dropped. *)
Lemma roundtrip_sample :
  rowToExpense (H := Sample.runtime) (expenseToRow Sample.lunch) 0%nat
  = (Some Sample.lunch, 0%nat)
  /\ rowToExpense (H := Sample.runtime)
       [PStr "Y"; PStr "2024-03-02"; PStr "food"; PStr "-3"] 0%nat = (None, 0%nat)
  /\ rowToExpense (H := Sample.runtime)
       (expenseToRow
          {| id := PStr "Z"; date := PStr "2024-03-02"; category := PStr "food";
             amount := Sample.minus_three; comment := PStr EmptyString |}) 0%nat
     = (None, 0%nat).
Proof.
  destruct (serialize_deserialize_roundtrip (H := Sample.runtime)) as (H1 & H2 & H3).
  split; [|split].
  - apply H1; reflexivity.
  - apply H2. right. reflexivity.
  - apply H3. reflexivity.
Defined.

End RoundTrip.

Module RemoveRow.
Import SheetsHelpers.

Section WithRuntime.
Context `{Runtime}.

Lemma findRowIndex_absent (idColumn : list row) (expenseId : string) :
  Forall (fun r => at_index r 0 <> PStr expenseId) idColumn ->
  findRowIndex idColumn expenseId = -1.
Proof.
  intros Habs. unfold findRowIndex, findIndex.
  rewrite SheetsHelpersFacts.findIndex_from_none; [reflexivity|].
  eapply Forall_impl; [exact Habs|].
  intros r Hr. simpl in Hr.
  destruct (strict_eq (at_index r 0) (PStr expenseId)) eqn:E; auto.
  apply SheetsHelpersFacts.strict_eq_PStr in E. contradiction.
Qed.

(** C6, as the code has it.  When the read of the identity column
    succeeds and no row of it holds the identifier, [removeExpenseRow]
    sends no row-delete request and leaves the world as it was.  With
    the numeric sheet id cached it sends the read of the column alone
    and returns normally.  Without it the read of the metadata goes out
    together with the read of the column, and the call returns normally
    when that read succeeds and throws its error when it fails. *)
Theorem removeExpenseRow_absent_is_noop
  {S : Type} (serve : S -> wait -> reply * S) (s0 s1 : S)
  (accessToken : option string) (spreadsheetId sheetName expenseId : string)
  (w : world) (colA : data) :
  serve s0 (Http (idColumnRequest accessToken spreadsheetId sheetName)) = (Data colA, s1) ->
  Forall (fun r => at_index r 0 <> PStr expenseId) (default [] (values colA)) ->
  exists (trace : list (world * wait)) (o : outcome unit) (s' : S),
    run serve s0 (removeExpenseRow accessToken spreadsheetId sheetName expenseId w)
    = (trace, w, o, s')
    /\ Forall (fun x => is_row_delete (snd x) = false) trace
    /\ Forall (fun x => fst x = w) trace
    /\ (Storage.getNumericSheetId w <> None ->
        trace = [(w, Http (idColumnRequest accessToken spreadsheetId sheetName))]
        /\ o = Return tt /\ s' = s1)
    /\ (Storage.getNumericSheetId w = None ->
        trace = [(w, Http (idColumnRequest accessToken spreadsheetId sheetName));
                 (w, Http (metadataRequest accessToken spreadsheetId))]
        /\ o = match fst (serve s1 (Http (metadataRequest accessToken spreadsheetId))) with
               | Data _ => Return tt
               | Failure m => Throw m
               end
        /\ s' = snd (serve s1 (Http (metadataRequest accessToken spreadsheetId)))).
Proof.
  intros Hcol Habs.
  pose proof (findRowIndex_absent _ _ Habs) as Hidx.
  unfold removeExpenseRow, bind, get_world. simpl.
  destruct (Storage.getNumericSheetId w) as [n|] eqn:Hc; simpl.
  - rewrite Hcol. simpl. rewrite Hidx. simpl.
    eexists _, _, _. split; [reflexivity|].
    split; [repeat constructor|]. split; [repeat constructor|].
    split; [intros _; repeat split | intros Hn; discriminate Hn].
  - rewrite Hcol. simpl.
    destruct (serve s1 (Http (metadataRequest accessToken spreadsheetId)))
      as [[meta|m] s2] eqn:Hm; simpl.
    + rewrite Hidx. simpl.
      eexists _, _, _. split; [reflexivity|].
      split; [repeat constructor|]. split; [repeat constructor|].
      split; [intros Hn; now destruct Hn | intros _; repeat split].
    + eexists _, _, _. split; [reflexivity|].
      split; [repeat constructor|]. split; [repeat constructor|].
      split; [intros Hn; now destruct Hn | intros _; repeat split].
Qed.

(** A delete that reached the store leaves the numeric sheet id cached,
    so the next delete sends the read of the identity column alone. *)
Lemma removeExpenseRow_caches_numeric_id
  {S : Type} (serve : S -> wait -> reply * S) (s0 : S)
  (accessToken : option string) (spreadsheetId sheetName expenseId : string) (w : world) :
  let '(trace, w', _, _) :=
    run serve s0 (removeExpenseRow accessToken spreadsheetId sheetName expenseId w) in
  Exists (fun x => is_row_delete (snd x) = true) trace ->
  Storage.getNumericSheetId w' <> None.
Proof.
  unfold removeExpenseRow, deleteFoundRow, bind, get_world, update, ret, throw,
    await_http, await_both.
  simpl.
  destruct (Storage.getNumericSheetId w) as [n|] eqn:Hc; simpl.
  - destruct (serve s0 _) as [[colA|m] s1]; simpl.
    + destruct (findRowIndex _ _ =? -1); simpl.
      * intros _. now rewrite Hc.
      * destruct (serve s1 _) as [[d|m] s2]; simpl; intros _; now rewrite Hc.
    + intros _. now rewrite Hc.
  - destruct (serve s0 _) as [[colA|m] s1]; simpl;
      destruct (serve s1 _) as [[meta|m'] s2]; simpl;
      try (intros Hex; inversion Hex as [? ? Hx | ? ? Hx]; subst;
           [discriminate Hx | inversion Hx as [? ? Hy | ? ? Hy]; subst;
                              [discriminate Hy | inversion Hy]]).
    destruct (findRowIndex _ _ =? -1); simpl.
    + intros Hex; inversion Hex as [? ? Hx | ? ? Hx]; subst;
        [discriminate Hx | inversion Hx as [? ? Hy | ? ? Hy]; subst;
                           [discriminate Hy | inversion Hy]].
    + destruct (extractNumericSheetId meta) as [n|m]; simpl.
      * destruct (serve s2 _) as [[d|m] s3]; simpl; intros _;
          unfold Storage.getNumericSheetId, Storage.saveNumericSheetId; simpl;
          now rewrite lookup_insert_eq.
      * intros Hex; inversion Hex as [? ? Hx | ? ? Hx]; subst;
          [discriminate Hx | inversion Hx as [? ? Hy | ? ? Hy]; subst;
                             [discriminate Hy | inversion Hy]].
Qed.

End WithRuntime.

(** Without a cached numeric sheet id the metadata read goes out together
    with the read of the identity column; when it fails, its error is
    thrown although the identifier is absent.  No row is deleted. *)
Lemma removeExpenseRow_metadata_unreachable :
  let '(trace, w', o, _) :=
    run scripted [Data (Sample.column ["A"; "C"]); Failure "HTTP 500"]
      (removeExpenseRow (H := Sample.runtime) (Some "tok") "S1" "spends" "X" Sample.blank) in
  o = Throw "HTTP 500"
  /\ w' = Sample.blank
  /\ map (fun x => is_row_delete (snd x)) trace = [false; false].
Proof. vm_compute. repeat split. Qed.

(** A second delete of X, when the column holds only A and C: with the
    numeric sheet id cached by the first delete, and on a browser that
    has none cached and a store that answers the metadata read. *)
Lemma removeExpenseRow_absent_sample :
  run scripted [Data (Sample.column ["A"; "C"])]
    (removeExpenseRow (H := Sample.runtime) (Some "tok") "S1" "spends" "X" Sample.with_lunch)
  = ([(Sample.with_lunch,
       Http (idColumnRequest (H := Sample.runtime) (Some "tok") "S1" "spends"))],
     Sample.with_lunch, Return tt, [])
  /\ run scripted [Data (Sample.column ["A"; "C"]); Data Sample.metadata]
       (removeExpenseRow (H := Sample.runtime) (Some "tok") "S1" "spends" "X" Sample.blank)
     = ([(Sample.blank,
          Http (idColumnRequest (H := Sample.runtime) (Some "tok") "S1" "spends"));
         (Sample.blank, Http (metadataRequest (Some "tok") "S1"))],
        Sample.blank, Return tt, []).
Proof.
  split.
  - destruct (removeExpenseRow_absent_is_noop (H := Sample.runtime) scripted
                [Data (Sample.column ["A"; "C"])] []
                (Some "tok") "S1" "spends" "X" Sample.with_lunch (Sample.column ["A"; "C"]))
      as (trace & o & s' & E & _ & _ & Hcached & _).
    + reflexivity.
    + simpl. repeat constructor; discriminate.
    + destruct Hcached as (-> & -> & ->); [discriminate|]. exact E.
  - destruct (removeExpenseRow_absent_is_noop (H := Sample.runtime) scripted
                [Data (Sample.column ["A"; "C"]); Data Sample.metadata]
                [Data Sample.metadata]
                (Some "tok") "S1" "spends" "X" Sample.blank (Sample.column ["A"; "C"]))
      as (trace & o & s' & E & _ & _ & _ & Hfresh).
    + reflexivity.
    + simpl. repeat constructor; discriminate.
    + destruct Hfresh as (-> & -> & ->); [reflexivity|]. exact E.
Defined.

End RemoveRow.

Module ResolveStore.
Import SheetsHelpers SheetsService.

Local Arguments String.append : simpl never.

Section WithRuntime.
Context `{Runtime}.
Context {S : Type} (serve : S -> wait -> reply * S).

Ltac ask :=
  match goal with
  | |- context [serve ?s ?e] => destruct (serve s e) as [[?|?] ?]; simpl
  end.

Ltac open_resolve :=
  unfold resolveSpreadsheet, findExistingSpreadsheet, createSpreadsheet,
    verifySpreadsheet, try_catch, bind, get_world, update, ret,
    SheetsClient.get, SheetsClient.post, SheetsClient.put, await_http;
  simpl.

Lemma resolve_verified (s0 s1 : S) (accessToken : option string) (w : world)
  (sid : string) (d : data) :
  item_text <$> localStorage w !! STORAGE.SHEET_ID = Some sid ->
  sid <> EmptyString ->
  serve s0 (Http (verifyRequest accessToken sid)) = (Data d, s1) ->
  run serve s0 (resolveSpreadsheet accessToken w)
  = ([(w, Http (verifyRequest accessToken sid))], w,
     Return {| resolved_spreadsheetId := Some sid; isNew := false |}, s1).
Proof.
  intros Hc Hne Hv. unfold resolveSpreadsheet, bind, get_world. simpl.
  rewrite Hc. destruct (String.eqb_spec sid EmptyString) as [?|_]; [contradiction|].
  simpl. unfold verifyRequest in Hv. rewrite Hv. reflexivity.
Qed.

Lemma resolve_adopts (s0 s1 s2 : S) (accessToken : option string) (w w1 : world)
  (tr1 : list (world * wait)) (d : data) (found : string) :
  not_verified serve accessToken s0 w s1 w1 tr1 ->
  serve s1 (Http (searchRequest accessToken CONFIG.SPREADSHEET_TITLE)) = (Data d, s2) ->
  first_file_id d = Some found ->
  run serve s0 (resolveSpreadsheet accessToken w)
  = (tr1 ++ [(w1, Http (searchRequest accessToken CONFIG.SPREADSHEET_TITLE))],
     with_localStorage (insert STORAGE.SHEET_ID (Text found)) w1,
     Return {| resolved_spreadsheetId := Some found; isNew := false |}, s2).
Proof.
  intros Hnv Hs Hf. unfold searchRequest in Hs.
  unfold resolveSpreadsheet, bind, get_world. simpl.
  destruct Hnv as [s w Hc | s s1 w sid m Hc Hne Hv].
  - destruct (item_text <$> localStorage w !! STORAGE.SHEET_ID) as [sid|]; simpl in *.
    + destruct (sid =? EmptyString)%string; [|discriminate]. simpl.
      rewrite Hs. simpl. rewrite Hf. reflexivity.
    + rewrite Hs. simpl. rewrite Hf. reflexivity.
  - rewrite Hc. destruct (String.eqb_spec sid EmptyString) as [?|_]; [contradiction|].
    simpl. unfold verifyRequest in Hv. rewrite Hv. simpl.
    rewrite Hs. simpl. rewrite Hf. reflexivity.
Qed.

Lemma resolve_creates (s0 s1 s2 s3 s4 : S) (accessToken : option string) (w w1 : world)
  (tr1 : list (world * wait)) (searched : reply) (created header : data) :
  not_verified serve accessToken s0 w s1 w1 tr1 ->
  serve s1 (Http (searchRequest accessToken CONFIG.SPREADSHEET_TITLE)) = (searched, s2) ->
  match searched with
  | Data d => first_file_id d = None
  | Failure _ => True
  end ->
  serve s2 (Http (createRequest accessToken CONFIG.SPREADSHEET_TITLE CONFIG.SHEET_NAME))
  = (Data created, s3) ->
  serve s3 (Http (headerRequest accessToken (spreadsheetId created) CONFIG.SHEET_NAME))
  = (Data header, s4) ->
  run serve s0 (resolveSpreadsheet accessToken w)
  = (tr1 ++ [(w1, Http (searchRequest accessToken CONFIG.SPREADSHEET_TITLE));
             (w1, Http (createRequest accessToken CONFIG.SPREADSHEET_TITLE CONFIG.SHEET_NAME));
             (w1, Http (headerRequest accessToken (spreadsheetId created) CONFIG.SHEET_NAME))],
     with_localStorage
       (insert STORAGE.SHEET_ID (Text (or_undefined (spreadsheetId created)))) w1,
     Return {| resolved_spreadsheetId := spreadsheetId created; isNew := true |}, s4).
Proof.
  intros Hnv Hs Hf Hcr Hh.
  unfold searchRequest in Hs. unfold createRequest in Hcr. unfold headerRequest in Hh.
  open_resolve.
  destruct Hnv as [s w Hc | s s1 w sid m Hc Hne Hv].
  - destruct (item_text <$> localStorage w !! STORAGE.SHEET_ID) as [sid|]; simpl in *.
    + destruct (sid =? EmptyString)%string; [|discriminate]. simpl.
      rewrite Hs. destruct searched as [d|m]; simpl; [rewrite Hf|];
        simpl; rewrite Hcr; simpl; rewrite Hh; reflexivity.
    + rewrite Hs. destruct searched as [d|m]; simpl; [rewrite Hf|];
        simpl; rewrite Hcr; simpl; rewrite Hh; reflexivity.
  - rewrite Hc. destruct (String.eqb_spec sid EmptyString) as [?|_]; [contradiction|].
    simpl. unfold verifyRequest in Hv. rewrite Hv. simpl.
    rewrite Hs. destruct searched as [d|m0]; simpl; [rewrite Hf|];
      simpl; rewrite Hcr; simpl; rewrite Hh; reflexivity.
Qed.

Lemma resolve_creates_at_most_once (s0 : S) (accessToken : option string) (w : world) :
  (creations (fst (fst (fst (run serve s0 (resolveSpreadsheet accessToken w))))) <= 1)%nat.
Proof.
  open_resolve.
  destruct (item_text <$> localStorage w !! STORAGE.SHEET_ID) as [sid|]; simpl.
  - destruct (sid =? EmptyString)%string; simpl.
    + ask; [destruct (first_file_id _); simpl; [unfold creations; simpl; lia|]|];
        ask; try (unfold creations; simpl; lia);
        ask; unfold creations; simpl; lia.
    + ask; [unfold creations; simpl; lia|].
      ask; [destruct (first_file_id _); simpl; [unfold creations; simpl; lia|]|];
        ask; try (unfold creations; simpl; lia);
        ask; unfold creations; simpl; lia.
  - ask; [destruct (first_file_id _); simpl; [unfold creations; simpl; lia|]|];
      ask; try (unfold creations; simpl; lia);
      ask; unfold creations; simpl; lia.
Qed.

(** C9.  [resolveSpreadsheet] goes verify, search, create.  A run sends
    at most one request that creates a store.  A cached identifier that
    verifies is returned with [isNew = false] after that one request.
    When nothing is cached, or the cached identifier fails verification
    and is removed, the store found by the search for the fixed title is
    adopted and saved, with [isNew = false] and nothing created.  When
    the search finds nothing either, one store is created: a POST of the
    fixed title with the one sheet, then a PUT to the range A1:E1 of the
    store just created that writes the one row ID, Date, Category,
    Amount, Comment; the store is saved and returned with
    [isNew = true]. *)
Theorem resolveSpreadsheet_verify_search_create
  (s0 : S) (accessToken : option string) (w : world) :
  (creations (fst (fst (fst (run serve s0 (resolveSpreadsheet accessToken w))))) <= 1)%nat
  /\ (forall (sid : string) (d : data) (s1 : S),
         item_text <$> localStorage w !! STORAGE.SHEET_ID = Some sid ->
         sid <> EmptyString ->
         serve s0 (Http (verifyRequest accessToken sid)) = (Data d, s1) ->
         run serve s0 (resolveSpreadsheet accessToken w)
         = ([(w, Http (verifyRequest accessToken sid))], w,
            Return {| resolved_spreadsheetId := Some sid; isNew := false |}, s1))
  /\ (forall (s1 s2 : S) (w1 : world) (tr1 : list (world * wait)) (d : data)
             (found : string),
         not_verified serve accessToken s0 w s1 w1 tr1 ->
         serve s1 (Http (searchRequest accessToken CONFIG.SPREADSHEET_TITLE)) = (Data d, s2) ->
         first_file_id d = Some found ->
         run serve s0 (resolveSpreadsheet accessToken w)
         = (tr1 ++ [(w1, Http (searchRequest accessToken CONFIG.SPREADSHEET_TITLE))],
            with_localStorage (insert STORAGE.SHEET_ID (Text found)) w1,
            Return {| resolved_spreadsheetId := Some found; isNew := false |}, s2))
  /\ (forall (s1 s2 s3 s4 : S) (w1 : world) (tr1 : list (world * wait))
             (searched : reply) (created header : data),
         not_verified serve accessToken s0 w s1 w1 tr1 ->
         serve s1 (Http (searchRequest accessToken CONFIG.SPREADSHEET_TITLE))
         = (searched, s2) ->
         match searched with
         | Data d => first_file_id d = None
         | Failure _ => True
         end ->
         serve s2 (Http (createRequest accessToken CONFIG.SPREADSHEET_TITLE CONFIG.SHEET_NAME))
         = (Data created, s3) ->
         serve s3 (Http (headerRequest accessToken (spreadsheetId created) CONFIG.SHEET_NAME))
         = (Data header, s4) ->
         run serve s0 (resolveSpreadsheet accessToken w)
         = (tr1 ++ [(w1, Http (searchRequest accessToken CONFIG.SPREADSHEET_TITLE));
                    (w1, Http (createRequest accessToken CONFIG.SPREADSHEET_TITLE
                                 CONFIG.SHEET_NAME));
                    (w1, Http (headerRequest accessToken (spreadsheetId created)
                                 CONFIG.SHEET_NAME))],
            with_localStorage
              (insert STORAGE.SHEET_ID (Text (or_undefined (spreadsheetId created)))) w1,
            Return {| resolved_spreadsheetId := spreadsheetId created; isNew := true |}, s4)
         /\ createRequest accessToken CONFIG.SPREADSHEET_TITLE CONFIG.SHEET_NAME
            = {| meth := POST; token := accessToken;
                 url := "https://sheets.googleapis.com/v4/spreadsheets";
                 payload := Some (CreateBody "SpenGo" "spends") |}
         /\ headerRequest accessToken (spreadsheetId created) CONFIG.SHEET_NAME
            = {| meth := PUT; token := accessToken;
                 url := ("https://sheets.googleapis.com/v4/spreadsheets" ++ "/"
                         ++ or_undefined (spreadsheetId created) ++ "/values/"
                         ++ encodeURIComponent "spends!A1:E1"
                         ++ "?valueInputOption=RAW")%string;
                 payload := Some (ValuesBody [[PStr "ID"; PStr "Date"; PStr "Category";
                                               PStr "Amount"; PStr "Comment"]]) |}).
Proof.
  split; [apply resolve_creates_at_most_once|].
  split; [intros; eapply resolve_verified; eassumption|].
  split; [intros; eapply resolve_adopts; eassumption|].
  intros. split; [eapply resolve_creates; eassumption|].
  split; reflexivity.
Qed.

End WithRuntime.

(** Three runs: the remembered store S1 verifies; S1 is gone and the
    search finds S2; nothing is remembered or found, and NEW is created
    and gets its header row. *)
Lemma resolveSpreadsheet_sample :
  run scripted [Data no_data]
    (resolveSpreadsheet (H := Sample.runtime) (Some "tok") (Sample.remembering "S1"))
  = ([(Sample.remembering "S1",
       Http (verifyRequest (Some "tok") "S1"))],
     Sample.remembering "S1",
     Return {| resolved_spreadsheetId := Some "S1"; isNew := false |}, [])
  /\ snd (fst (run scripted [Failure "HTTP 404"; Data (Sample.found_files ["S2"])]
                 (resolveSpreadsheet (H := Sample.runtime) (Some "tok")
                    (Sample.remembering "S1"))))
     = Return {| resolved_spreadsheetId := Some "S2"; isNew := false |}
  /\ run scripted
       [Data (Sample.found_files []); Data (Sample.created_store "NEW"); Data no_data]
       (resolveSpreadsheet (H := Sample.runtime) (Some "tok") Sample.blank)
     = ([(Sample.blank,
          Http (searchRequest (H := Sample.runtime) (Some "tok") "SpenGo"));
         (Sample.blank,
          Http {| meth := POST; token := Some "tok"%string;
                  url := "https://sheets.googleapis.com/v4/spreadsheets";
                  payload := Some (CreateBody "SpenGo" "spends") |});
         (Sample.blank,
          Http {| meth := PUT; token := Some "tok"%string;
                  url := "https://sheets.googleapis.com/v4/spreadsheets/NEW/values/spends!A1:E1?valueInputOption=RAW";
                  payload := Some (ValuesBody [[PStr "ID"; PStr "Date"; PStr "Category";
                                                PStr "Amount"; PStr "Comment"]]) |})],
        with_localStorage (insert STORAGE.SHEET_ID (Text "NEW")) Sample.blank,
        Return {| resolved_spreadsheetId := Some "NEW"%string; isNew := true |}, []).
Proof.
  split; [|split].
  - destruct (resolveSpreadsheet_verify_search_create (H := Sample.runtime) scripted
                [Data no_data] (Some "tok") (Sample.remembering "S1"))
      as (_ & Hverified & _).
    apply (Hverified "S1" no_data []); [reflexivity | discriminate | reflexivity].
  - destruct (resolveSpreadsheet_verify_search_create (H := Sample.runtime) scripted
                [Failure "HTTP 404"; Data (Sample.found_files ["S2"])]
                (Some "tok") (Sample.remembering "S1")) as (_ & _ & Hadopt & _).
    assert (Hnv : not_verified (H := Sample.runtime) scripted (Some "tok")
                    [Failure "HTTP 404"; Data (Sample.found_files ["S2"])]
                    (Sample.remembering "S1")
                    [Data (Sample.found_files ["S2"])]
                    (with_localStorage (delete STORAGE.SHEET_ID) (Sample.remembering "S1"))
                    [(Sample.remembering "S1", Http (verifyRequest (Some "tok") "S1"))]).
    { apply (verification_failed scripted (Some "tok") _ _ _ "S1" "HTTP 404");
        [reflexivity | discriminate | reflexivity]. }
    rewrite (Hadopt _ [] _ _ (Sample.found_files ["S2"]) "S2" Hnv eq_refl eq_refl).
    reflexivity.
  - destruct (resolveSpreadsheet_verify_search_create (H := Sample.runtime) scripted
                [Data (Sample.found_files []); Data (Sample.created_store "NEW"); Data no_data]
                (Some "tok") Sample.blank) as (_ & _ & _ & Hcreate).
    assert (Hnv : not_verified (H := Sample.runtime) scripted (Some "tok")
                    [Data (Sample.found_files []); Data (Sample.created_store "NEW");
                     Data no_data]
                    Sample.blank
                    [Data (Sample.found_files []); Data (Sample.created_store "NEW");
                     Data no_data]
                    Sample.blank []).
    { apply nothing_cached. reflexivity. }
    destruct (Hcreate _ [Data (Sample.created_store "NEW"); Data no_data] [Data no_data] []
                _ _ (Data (Sample.found_files [])) (Sample.created_store "NEW") no_data
                Hnv eq_refl eq_refl eq_refl eq_refl) as (Hrun & _ & _).
    rewrite Hrun. reflexivity.
Defined.

End ResolveStore.

Module SilentFailure.

(** C8.  The silent-failure handler removes the access token and its
    expiry from the tab-scoped storage and nothing else from it, leaves
    the durable storage as it was (store id, cached records, login hint
    and every other key), and sets the session status to unauthenticated;
    the store id and the records held in memory stay. *)
Theorem onSilentFail_clears_only_the_token `{Runtime} (w : world) :
  sessionStorage (AuthController.onSilentFail w) !! Storage.SESSION_STORAGE.ACCESS_TOKEN = None
  /\ sessionStorage (AuthController.onSilentFail w) !! Storage.SESSION_STORAGE.EXPIRES_AT = None
  /\ (forall k : string,
         k <> Storage.SESSION_STORAGE.ACCESS_TOKEN ->
         k <> Storage.SESSION_STORAGE.EXPIRES_AT ->
         sessionStorage (AuthController.onSilentFail w) !! k = sessionStorage w !! k)
  /\ localStorage (AuthController.onSilentFail w) = localStorage w
  /\ Storage.getSheetId (AuthController.onSilentFail w) = Storage.getSheetId w
  /\ Storage.getExpenses (AuthController.onSilentFail w) = Storage.getExpenses w
  /\ Storage.getLoginHint (AuthController.onSilentFail w) = Storage.getLoginHint w
  /\ State.authStatus (STATE (AuthController.onSilentFail w)) = State.unauthenticated
  /\ State.accessToken (STATE (AuthController.onSilentFail w)) = None
  /\ State.spreadsheetId (STATE (AuthController.onSilentFail w)) = State.spreadsheetId (STATE w)
  /\ State.expenses (STATE (AuthController.onSilentFail w)) = State.expenses (STATE w).
Proof.
  unfold AuthController.onSilentFail, AuthController._toUnauthenticated,
    AuthController._enableSignInButton, Ui.showScreen, Ui.setNavEnabled,
    Storage.clearSession, Storage.getSheetId, Storage.getExpenses, Storage.getLoginHint.
  simpl. repeat split.
  - rewrite lookup_delete_ne by discriminate. apply lookup_delete_eq.
  - apply lookup_delete_eq.
  - intros k Ha He. now rewrite !lookup_delete_ne by congruence.
Qed.

(** The scenario: store S1 is remembered and the silent refresh fails. *)
Lemma onSilentFail_sample :
  Storage.getSheetId (H := Sample.runtime)
    (AuthController.onSilentFail Sample.signed_in) = Some "S1"%string
  /\ Storage.getAccessToken (H := Sample.runtime)
       (AuthController.onSilentFail Sample.signed_in) = None
  /\ State.authStatus (STATE (AuthController.onSilentFail Sample.signed_in))
     = State.unauthenticated.
Proof.
  destruct (onSilentFail_clears_only_the_token (H := Sample.runtime) Sample.signed_in)
    as (Htok & _ & _ & _ & Hsheet & _ & _ & Hstatus & _).
  split; [|split].
  - rewrite Hsheet. reflexivity.
  - unfold Storage.getAccessToken. now rewrite Htok.
  - exact Hstatus.
Defined.

End SilentFailure.

Module TokenLifecycle.
Import AuthService.

Section WithRuntime.
Context `{Runtime}.
Variable cb : callbacks.

(** *** One call of [waitForToken] without a valid token *)

(** The service after a call that found no valid token. *)
Lemma waitForToken_invalid (now : Z) (s : service) (w : world) :
  has_valid_token now s w = false ->
  exists s1 : service,
    waitForToken now s w = (Queued (next_promise s), s1, w)
    /\ _accessToken s1 = _accessToken s
    /\ _tokenClient s1 = _tokenClient s
    /\ next_promise s1 = Datatypes.S (next_promise s)
    /\ _tokenWaiters s1 = _tokenWaiters s ++ [next_promise s]
    /\ (if _tokenClient s
        then _pendingFlowType s1 = Some silent
        else _pendingFlowType s1 = _pendingFlowType s)
    /\ out s1 = out s ++
                (if _tokenClient s && negb (is_silent (_pendingFlowType s))
                 then [SetTimeout (next_timer s) SILENT_REFRESH_TIMEOUT_MS;
                       RequestAccessToken EmptyString
                         (Some (default EmptyString
                                  (item_text <$> localStorage w !! "google_login_hint"%string)))]
                 else []).
Proof.
  intros Hinv. unfold waitForToken. rewrite Hinv.
  unfold enqueue_waiter, silentRefresh; simpl.
  destruct (is_silent (_pendingFlowType s)) eqn:Hp; simpl.
  - eexists. split; [reflexivity|]. simpl. repeat split; auto.
    + destruct (_tokenClient s); [|reflexivity].
      destruct (_pendingFlowType s) as [[|]|]; try discriminate. reflexivity.
    + rewrite andb_false_r. now rewrite app_nil_r.
  - destruct (_tokenClient s) eqn:Hc; simpl.
    + eexists. split; [reflexivity|]. unfold arm_timer, emit; simpl.
      repeat split; auto. now rewrite <- app_assoc.
    + eexists. split; [reflexivity|]. simpl. repeat split; auto.
      now rewrite app_nil_r.
Qed.

Lemma has_valid_token_ext (now : Z) (s s1 : service) (w : world) :
  _accessToken s1 = _accessToken s ->
  has_valid_token now s1 w = has_valid_token now s w.
Proof. unfold has_valid_token. now intros ->. Qed.

Lemma flows_started_app (l1 l2 : list signal) :
  flows_started (l1 ++ l2) = (flows_started l1 + flows_started l2)%nat.
Proof. unfold flows_started. now rewrite List.filter_app, length_app. Qed.

(** *** [n] calls *)

Lemma waitForToken_each_invalid (times : list Z) (w : world) :
  forall s : service,
    (forall now : Z, In now times -> has_valid_token now s w = false) ->
    exists s1 : service,
      waitForToken_each times s w
      = (map Queued (seq (next_promise s) (length times)), s1, w)
      /\ _accessToken s1 = _accessToken s
      /\ _tokenClient s1 = _tokenClient s
      /\ next_promise s1 = (next_promise s + length times)%nat
      /\ _tokenWaiters s1 = _tokenWaiters s ++ seq (next_promise s) (length times)
      /\ (times <> [] -> _tokenClient s = true -> _pendingFlowType s1 = Some silent)
      /\ (exists new : list signal,
             out s1 = out s ++ new
             /\ (flows_started new <= 1)%nat
             /\ (is_silent (_pendingFlowType s) = true -> new = [])
             /\ (forall p : nat, settlement_of p new = None)).
Proof.
  induction times as [|now times IH]; intros s Hinv.
  - exists s. simpl. rewrite app_nil_r, Nat.add_0_r.
    repeat split; auto; try congruence.
    exists []. rewrite app_nil_r. repeat split; auto.
  - destruct (waitForToken_invalid now s w) as (s1 & E1 & Ha1 & Hc1 & Hn1 & Hw1 & Hp1 & Ho1).
    { apply Hinv. now left. }
    destruct (IH s1) as (s2 & E2 & Ha2 & Hc2 & Hn2 & Hw2 & Hp2 & new2 & Ho2 & Hf2 & Hs2 & Hq2).
    { intros t Ht. rewrite (has_valid_token_ext t s s1 w Ha1). apply Hinv. now right. }
    exists s2. simpl. rewrite E1, E2, Hn1. simpl.
    split; [reflexivity|].
    split; [congruence|]. split; [congruence|].
    split; [rewrite Hn2, Hn1; lia|].
    split; [rewrite Hw2, Hw1, Hn1, <- app_assoc; reflexivity|].
    split.
    { intros _ Hc. rewrite Hc in Hp1.
      destruct times as [|t times'].
      - simpl in E2. injection E2 as <-. exact Hp1.
      - apply Hp2; [discriminate | congruence]. }
    destruct (_tokenClient s) eqn:Hc; simpl in Ho1.
    + destruct (is_silent (_pendingFlowType s)) eqn:Hsil; simpl in Ho1.
      * rewrite app_nil_r in Ho1.
        assert (Hs1 : is_silent (_pendingFlowType s1) = true) by now rewrite Hp1.
        exists new2. rewrite Ho2, Ho1.
        repeat split; auto.
      * assert (Hs1 : is_silent (_pendingFlowType s1) = true) by now rewrite Hp1.
        rewrite (Hs2 Hs1), app_nil_r in Ho2.
        eexists. rewrite Ho2, Ho1. split; [reflexivity|].
        repeat split; auto. discriminate.
    + rewrite app_nil_r in Ho1.
      exists new2. rewrite Ho2, Ho1. repeat split; auto.
      intros Hsil. apply Hs2. now rewrite Hp1.
Qed.

(** *** How the waiters are settled *)

Lemma fold_emit_out (f : nat -> signal) (ps : list nat) :
  forall s : service,
    out (fold_left (fun acc p => emit (f p) acc) ps s) = out s ++ map f ps
    /\ _tokenWaiters (fold_left (fun acc p => emit (f p) acc) ps s) = _tokenWaiters s
    /\ _pendingFlowType (fold_left (fun acc p => emit (f p) acc) ps s) = _pendingFlowType s
    /\ armed (fold_left (fun acc p => emit (f p) acc) ps s) = armed s
    /\ _silentRefreshTimer (fold_left (fun acc p => emit (f p) acc) ps s)
       = _silentRefreshTimer s.
Proof.
  induction ps as [|p ps IH]; intros s; simpl.
  - now rewrite app_nil_r.
  - destruct (IH (emit (f p) s)) as (Ho & Hw & Hp & Ha & Ht).
    rewrite Ho, Hw, Hp, Ha, Ht. simpl. now rewrite <- app_assoc.
Qed.

Lemma settle_all_spec (f : nat -> signal) (s : service) :
  out (settle_all f s) = out s ++ map f (_tokenWaiters s)
  /\ _tokenWaiters (settle_all f s) = []
  /\ _pendingFlowType (settle_all f s) = _pendingFlowType s
  /\ armed (settle_all f s) = armed s
  /\ _silentRefreshTimer (settle_all f s) = _silentRefreshTimer s.
Proof.
  unfold settle_all.
  destruct (fold_emit_out f (_tokenWaiters s) (set_tokenWaiters [] s))
    as (Ho & Hw & Hp & Ha & Ht).
  rewrite Ho, Hw, Hp, Ha, Ht. now simpl.
Qed.

Lemma settlement_of_resolved (tok : string) (ps : list nat) (post : list signal) (p : nat) :
  In p ps ->
  settlement_of p (map (fun q => Resolve q tok) ps ++ post) = Some (Resolved tok).
Proof.
  induction ps as [|q ps IH]; intros Hin; [destruct Hin|].
  simpl. destruct (Nat.eqb_spec p q) as [_|Hne]; [reflexivity|].
  apply IH. destruct Hin; [congruence | assumption].
Qed.

Lemma settlement_of_rejected (m : string) (ps : list nat) (post : list signal) (p : nat) :
  In p ps ->
  settlement_of p (map (fun q => Reject q m) ps ++ post) = Some (Rejected m).
Proof.
  induction ps as [|q ps IH]; intros Hin; [destruct Hin|].
  simpl. destruct (Nat.eqb_spec p q) as [_|Hne]; [reflexivity|].
  apply IH. destruct Hin; [congruence | assumption].
Qed.

Lemma clearSilentTimer_spec (s : service) :
  _tokenWaiters (_clearSilentTimer s) = _tokenWaiters s
  /\ _pendingFlowType (_clearSilentTimer s) = _pendingFlowType s
  /\ _silentRefreshTimer (_clearSilentTimer s) = None
  /\ exists pre : list signal,
       out (_clearSilentTimer s) = out s ++ pre
       /\ forall (p : nat) (l : list signal), settlement_of p (pre ++ l) = settlement_of p l.
Proof.
  unfold _clearSilentTimer. destruct (_silentRefreshTimer s) as [t|] eqn:E; simpl.
  - repeat split; auto. exists [ClearTimeout t]. split; reflexivity.
  - repeat split; auto. exists []. rewrite app_nil_r. split; reflexivity.
Qed.

(** A conclusion that carries an outcome settles every queued waiter
    with it and empties the queue. *)
Lemma conclude_settles (c : conclusion) (o : settlement) (s : service) (w : world) :
  outcome_of c = Some o ->
  _tokenWaiters (fst (conclude cb c s w)) = []
  /\ exists new : list signal,
       out (fst (conclude cb c s w)) = out s ++ new
       /\ all_settled (_tokenWaiters s) new o.
Proof.
  destruct (clearSilentTimer_spec s) as (Hw & Hp & Ht & pre & Ho & Hpre).
  destruct c as [now r | err | t]; simpl; [| |discriminate].
  - unfold _onTokenResponse, _handleFailedFlow.
    destruct (truthy_string (response_error r)); intros [= <-].
    + set (m := ("OAuth error: " ++ default EmptyString (response_error r))%string).
      destruct (settle_all_spec (fun p => Reject p m)
                  (set_pendingFlowType None (_clearSilentTimer s)))
        as (Ho1 & Hw1 & _).
      simpl in Ho1. rewrite Ho, Hw in Ho1.
      destruct (is_silent (_pendingFlowType (_clearSilentTimer s))); simpl;
        (split; [exact Hw1|]); rewrite Ho1, <- !app_assoc;
        eexists; (split; [reflexivity|]);
        apply Forall_forall; intros p Hin; rewrite Hpre;
        apply settlement_of_rejected, list_elem_of_In, Hin.
    + destruct (settle_all_spec (fun p => Resolve p (access_token r))
                  (set_accessToken (Some (access_token r))
                     (set_pendingFlowType None (_clearSilentTimer s))))
        as (Ho1 & Hw1 & _).
      simpl in Ho1. rewrite Ho, Hw in Ho1. simpl.
      split; [exact Hw1|]. rewrite Ho1, <- !app_assoc.
      eexists. split; [reflexivity|].
      apply Forall_forall. intros p Hin. rewrite Hpre.
      apply settlement_of_resolved, list_elem_of_In, Hin.
  - unfold _onTokenError, _handleFailedFlow.
    destruct (AuthHelpers.isSilentAuthError err); [discriminate|]. intros [= <-].
    set (m := ("OAuth error: " ++ AuthHelpers.formatAuthError err)%string).
    destruct (settle_all_spec (fun p => Reject p m)
                (set_pendingFlowType None (_clearSilentTimer s)))
      as (Ho1 & Hw1 & _).
    simpl in Ho1. rewrite Ho, Hw in Ho1.
    destruct (is_silent (_pendingFlowType (_clearSilentTimer s))); simpl;
      (split; [exact Hw1|]); rewrite Ho1, <- !app_assoc;
      eexists; (split; [reflexivity|]);
      apply Forall_forall; intros p Hin; rewrite Hpre;
      apply settlement_of_rejected, list_elem_of_In, Hin.
Qed.

(** *** The fallback timer and the two channels *)

(** When the timer fires on a pending silent flow, the tag is cleared and
    the silent-failure callback runs; the queue of waiters is not
    touched, and nothing is rejected. *)
Lemma timer_fires_spec (t : nat) (s : service) (w : world) :
  In t (armed s) ->
  _pendingFlowType s = Some silent ->
  _pendingFlowType (fst (timer_fires cb t s w)) = None
  /\ out (fst (timer_fires cb t s w)) = out s ++ [CallOnSilentFail]
  /\ snd (timer_fires cb t s w) = onSilentFail cb w
  /\ _tokenWaiters (fst (timer_fires cb t s w)) = _tokenWaiters s
  /\ ~ In t (armed (fst (timer_fires cb t s w))).
Proof.
  intros Hin Hp. unfold timer_fires.
  assert (E : existsb (Nat.eqb t) (armed s) = true).
  { apply existsb_exists. exists t. split; [exact Hin | apply Nat.eqb_refl]. }
  rewrite E. simpl. rewrite Hp. simpl. repeat split; auto.
  unfold without_timer. rewrite filter_In. intros [_ Hne].
  now rewrite Nat.eqb_refl in Hne.
Qed.

(** Either channel cancels the timer the service holds: it is disarmed,
    and its firing would change nothing. *)
Lemma channel_cancels_timer (c : conclusion) (t : nat) (s : service) (w : world) :
  _silentRefreshTimer s = Some t ->
  match c with TimerFires _ => False | _ => True end ->
  ~ In t (armed (fst (conclude cb c s w)))
  /\ _silentRefreshTimer (fst (conclude cb c s w)) = None
  /\ timer_fires cb t (fst (conclude cb c s w)) (snd (conclude cb c s w))
     = conclude cb c s w.
Proof.
  intros Ht Hc.
  assert (Hclear : ~ In t (armed (_clearSilentTimer s))
                   /\ _silentRefreshTimer (_clearSilentTimer s) = None).
  { unfold _clearSilentTimer. rewrite Ht. simpl. split; [|reflexivity].
    unfold without_timer. rewrite filter_In. intros [_ Hne].
    now rewrite Nat.eqb_refl in Hne. }
  destruct Hclear as (Hnot & Hnone).
  assert (Hkeep : ~ In t (armed (fst (conclude cb c s w)))
                  /\ _silentRefreshTimer (fst (conclude cb c s w)) = None).
  { destruct c as [now r | err | t']; [| |destruct Hc]; simpl.
    - unfold _onTokenResponse, _handleFailedFlow.
      destruct (truthy_string (response_error r)).
      + match goal with
        | |- context [settle_all ?f ?x] =>
            destruct (settle_all_spec f x) as (_ & _ & _ & Ha & Hs)
        end.
        destruct (is_silent _); simpl; rewrite Ha, Hs; simpl; auto.
      + match goal with
        | |- context [settle_all ?f ?x] =>
            destruct (settle_all_spec f x) as (_ & _ & _ & Ha & Hs)
        end.
        simpl. rewrite Ha, Hs. simpl. auto.
    - unfold _onTokenError, _handleFailedFlow.
      destruct (AuthHelpers.isSilentAuthError err).
      + destruct (is_silent _); simpl; auto.
        destruct (AuthHelpers.is_string _ _); simpl; auto.
      + match goal with
        | |- context [settle_all ?f ?x] =>
            destruct (settle_all_spec f x) as (_ & _ & _ & Ha & Hs)
        end.
        destruct (is_silent _); simpl; rewrite Ha, Hs; simpl; auto. }
  destruct Hkeep as (Hk1 & Hk2). repeat split; auto.
  unfold timer_fires.
  destruct (existsb (Nat.eqb t) (armed (fst (conclude cb c s w)))) eqn:E.
  - apply existsb_exists in E as (x & Hx & Hxt).
    apply Nat.eqb_eq in Hxt. subst x. contradiction.
  - now destruct (conclude cb c s w).
Qed.

(** The part of C2 that the code keeps.  [n] calls of [waitForToken]
    that find no valid token queue [n] new promises, start at most one
    flow with the identity provider (none when a silent flow is already
    pending), and leave a silent flow pending once the token client
    exists.  When the flow then concludes with a token response, or with
    an error that is not a benign interruption, every one of the [n]
    promises is settled with that one outcome, and the queue is empty. *)
Theorem waitForToken_coalesces (times : list Z) (s : service) (w : world) :
  (forall now : Z, In now times -> has_valid_token now s w = false) ->
  exists s1 : service,
    waitForToken_each times s w
    = (map Queued (seq (next_promise s) (length times)), s1, w)
    /\ _tokenWaiters s1 = _tokenWaiters s ++ seq (next_promise s) (length times)
    /\ (flows_started (out s1) <= flows_started (out s) + 1)%nat
    /\ (is_silent (_pendingFlowType s) = true -> out s1 = out s)
    /\ (times <> [] -> _tokenClient s = true -> _pendingFlowType s1 = Some silent)
    /\ (forall (c : conclusion) (o : settlement),
           outcome_of c = Some o ->
           _tokenWaiters (fst (conclude cb c s1 w)) = []
           /\ exists new : list signal,
                out (fst (conclude cb c s1 w)) = out s1 ++ new
                /\ all_settled (seq (next_promise s) (length times)) new o).
Proof.
  intros Hinv.
  destruct (waitForToken_each_invalid times w s Hinv)
    as (s1 & E & _ & _ & _ & Hw & Hp & new & Ho & Hf & Hs & _).
  exists s1. split; [exact E|]. split; [exact Hw|].
  split; [rewrite Ho, flows_started_app; lia|].
  split; [intros Hsil; rewrite Ho, (Hs Hsil); apply app_nil_r|].
  split; [exact Hp|].
  intros c o Hc. destruct (conclude_settles c o s1 w Hc) as (Hq & new' & Ho' & Hall).
  split; [exact Hq|]. exists new'. split; [exact Ho'|].
  unfold all_settled in *. rewrite Hw in Hall.
  now apply Forall_app in Hall.
Qed.

Lemma settlement_of_app (p : nat) (l1 l2 : list signal) :
  settlement_of p (l1 ++ l2)
  = match settlement_of p l1 with
    | Some o => Some o
    | None => settlement_of p l2
    end.
Proof.
  induction l1 as [|x l1 IH]; [reflexivity|].
  destruct x; simpl; try exact IH; now destruct (Nat.eqb p promise).
Qed.

(** C2, where the code departs from it.  [n >= 1] calls of
    [waitForToken] on the initialised service that find no valid token
    queue [n] promises and start at most one flow, which is pending as a
    silent flow.  When that flow concludes through the error callback
    with a benign interruption (access_denied or popup_closed), the flow
    is over: the tag and the timer are cleared.  But nothing else
    happens: no callback runs, the world is as it was, the [n] promises
    are still in the queue, and no promise has been settled that was not
    settled before.  So the [n] callers do not receive a common outcome;
    they receive none. *)
Theorem benign_error_settles_no_waiter (times : list Z) (err : AuthHelpers.auth_error)
  (s : service) (w : world) :
  times <> [] ->
  _tokenClient s = true ->
  (forall now : Z, In now times -> has_valid_token now s w = false) ->
  AuthHelpers.isSilentAuthError err = true ->
  exists s1 : service,
    waitForToken_each times s w
    = (map Queued (seq (next_promise s) (length times)), s1, w)
    /\ (flows_started (out s1) <= flows_started (out s) + 1)%nat
    /\ _pendingFlowType s1 = Some silent
    /\ _pendingFlowType (fst (conclude cb (TokenError err) s1 w)) = None
    /\ _silentRefreshTimer (fst (conclude cb (TokenError err) s1 w)) = None
    /\ snd (conclude cb (TokenError err) s1 w) = w
    /\ _tokenWaiters (fst (conclude cb (TokenError err) s1 w))
       = _tokenWaiters s ++ seq (next_promise s) (length times)
    /\ (exists pre : list signal,
           out (fst (conclude cb (TokenError err) s1 w)) = out s1 ++ pre
           /\ Forall (fun x => exists t : nat, x = ClearTimeout t) pre)
    /\ (forall p : nat,
           settlement_of p (out (fst (conclude cb (TokenError err) s1 w)))
           = settlement_of p (out s))
    /\ ((forall p : nat, In p (seq (next_promise s) (length times)) ->
                         settlement_of p (out s) = None) ->
        ~ same_outcome (seq (next_promise s) (length times))
            (out (fst (conclude cb (TokenError err) s1 w)))).
Proof.
  intros Hne Hc Hinv Hbenign.
  destruct (waitForToken_each_invalid times w s Hinv)
    as (s1 & E & _ & _ & _ & Hw & Hp & new & Ho & Hf & _ & Hq).
  specialize (Hp Hne Hc).
  exists s1. split; [exact E|].
  split; [rewrite Ho, flows_started_app; lia|].
  split; [exact Hp|].
  assert (Hclr : exists pre : list signal,
            out (_clearSilentTimer s1) = out s1 ++ pre
            /\ Forall (fun x => exists t : nat, x = ClearTimeout t) pre
            /\ _tokenWaiters (_clearSilentTimer s1) = _tokenWaiters s1
            /\ _silentRefreshTimer (_clearSilentTimer s1) = None
            /\ _pendingFlowType (_clearSilentTimer s1) = Some silent).
  { unfold _clearSilentTimer. destruct (_silentRefreshTimer s1) as [t|] eqn:Et; simpl.
    - exists [ClearTimeout t]. repeat split; auto.
      constructor; [now exists t | constructor].
    - exists []. rewrite app_nil_r. repeat split; auto. }
  destruct Hclr as (pre & Hout & Hpre & Hwq & Htm & Hp').
  simpl. unfold _onTokenError. rewrite Hbenign, Hp'. simpl.
  assert (Hnone : forall p : nat, settlement_of p pre = None).
  { intros p. clear Hout. induction Hpre as [|x l (t & ->) _ IH]; [reflexivity | exact IH]. }
  assert (Hsame : forall p : nat,
            settlement_of p (out (set_pendingFlowType None (_clearSilentTimer s1)))
            = settlement_of p (out s)).
  { intros p. simpl. rewrite Hout, Ho, !settlement_of_app, Hq, Hnone.
    now destruct (settlement_of p (out s)). }
  split; [reflexivity|]. split; [exact Htm|]. split; [reflexivity|].
  split; [simpl; now rewrite Hwq, Hw|].
  split; [exists pre; split; [exact Hout | exact Hpre]|].
  split; [exact Hsame|].
  intros Hfresh Hout2.
  assert (Hin : In (next_promise s) (seq (next_promise s) (length times))).
  { destruct times as [|t0 times']; [now destruct Hne | now left]. }
  assert (Hsettled : exists o : settlement,
            settlement_of (next_promise s)
              (out (set_pendingFlowType None (_clearSilentTimer s1))) = Some o).
  { destruct Hout2 as [[tok Hall] | [m Hall]]; unfold all_settled in Hall;
      rewrite Forall_forall in Hall; eexists; apply Hall, list_elem_of_In, Hin. }
  destruct Hsettled as (o & Ho2).
  rewrite Hsame, (Hfresh _ Hin) in Ho2. discriminate.
Qed.

(** C10.  With no expiry in the tab-scoped storage the token counts as
    expired, whether or not an access token is stored: both copies of
    [isTokenExpired] say so, the session snapshot reports it, and
    [waitForToken] hands out a queued promise instead of the token, with
    a silent flow pending afterwards, newly requested unless one was
    pending already. *)
Theorem no_expiry_is_expired (now : Z) (s : service) (w : world) :
  sessionStorage w !! "google_token_expires_at"%string = None ->
  Storage.isTokenExpired now w = true
  /\ isTokenExpired now w = true
  /\ Storage.tokenExpired (Storage.getStoredSession now w) = true
  /\ exists s1 : service,
       waitForToken now s w = (Queued (next_promise s), s1, w)
       /\ _tokenWaiters s1 = _tokenWaiters s ++ [next_promise s]
       /\ (_tokenClient s = true -> _pendingFlowType s1 = Some silent)
       /\ (_tokenClient s = true ->
           is_silent (_pendingFlowType s) = false ->
           out s1 = out s ++
                    [SetTimeout (next_timer s) SILENT_REFRESH_TIMEOUT_MS;
                     RequestAccessToken EmptyString
                       (Some (default EmptyString
                                (item_text <$> localStorage w !! "google_login_hint"%string)))]).
Proof.
  intros Hnone.
  assert (E : isTokenExpired now w = true) by (unfold isTokenExpired; now rewrite Hnone).
  split; [unfold Storage.isTokenExpired, Storage.SESSION_STORAGE.EXPIRES_AT; now rewrite Hnone|].
  split; [exact E|].
  split; [simpl; unfold Storage.isTokenExpired, Storage.SESSION_STORAGE.EXPIRES_AT;
          now rewrite Hnone|].
  destruct (waitForToken_invalid now s w) as (s1 & E1 & _ & _ & _ & Hw & Hp & Ho).
  { unfold has_valid_token. rewrite E. apply andb_false_r. }
  exists s1. split; [exact E1|]. split; [exact Hw|].
  split.
  - intros Hc. now rewrite Hc in Hp.
  - intros Hc Hsil. now rewrite Ho, Hc, Hsil.
Qed.

End WithRuntime.

(** Two callers on the initialised service, and the provider answers
    the one silent flow with access_denied: the flow is over, both
    callers are still queued, and they have no common outcome. *)
Lemma benign_error_sample :
  exists s1 : service,
    waitForToken_each (H := Sample.runtime) [0; 0] Sample.service_ready Sample.blank
    = ([Queued 0; Queued 1], s1, Sample.blank)
    /\ _pendingFlowType s1 = Some silent
    /\ _pendingFlowType
         (fst (conclude (H := Sample.runtime) Sample.app_callbacks
                 (TokenError Sample.access_denied) s1 Sample.blank)) = None
    /\ _tokenWaiters
         (fst (conclude (H := Sample.runtime) Sample.app_callbacks
                 (TokenError Sample.access_denied) s1 Sample.blank)) = [0; 1]%nat
    /\ snd (conclude (H := Sample.runtime) Sample.app_callbacks
              (TokenError Sample.access_denied) s1 Sample.blank) = Sample.blank
    /\ ~ same_outcome [0; 1]%nat
         (out (fst (conclude (H := Sample.runtime) Sample.app_callbacks
                      (TokenError Sample.access_denied) s1 Sample.blank))).
Proof.
  destruct (benign_error_settles_no_waiter (H := Sample.runtime) Sample.app_callbacks
              [0; 0] Sample.access_denied Sample.service_ready Sample.blank)
    as (s1 & E & _ & Hp & Hdone & _ & Hw & Hq & _ & _ & Hnot).
  - discriminate.
  - reflexivity.
  - intros now _. reflexivity.
  - reflexivity.
  - exists s1. split; [exact E|]. split; [exact Hp|]. split; [exact Hdone|].
    split; [exact Hq|]. split; [exact Hw|].
    apply Hnot. intros p _. reflexivity.
Defined.

(** Two callers, one flow, and the provider answers with access_denied:
    the flow is over and neither caller has been resolved or rejected. *)
Lemma benign_error_leaves_waiters_pending :
  let '(tickets, s1, w1) :=
    waitForToken_each (H := Sample.runtime) [0; 0] Sample.service_ready Sample.blank in
  let '(s2, _) :=
    conclude (H := Sample.runtime) Sample.app_callbacks
      (TokenError Sample.access_denied) s1 w1 in
  tickets = [Queued 0; Queued 1]
  /\ flows_started (out s1) = 1%nat
  /\ _pendingFlowType s1 = Some silent
  /\ _pendingFlowType s2 = None
  /\ armed s2 = []
  /\ _tokenWaiters s2 = [0; 1]%nat
  /\ ~ same_outcome [0; 1]%nat (out s2).
Proof.
  vm_compute. repeat split.
  intros [[tok Hall] | [m Hall]]; inversion Hall as [|? ? H0 _]; discriminate H0.
Qed.

(** The same two callers when the provider answers with an error in the
    token response: both are rejected with it. *)
Lemma waitForToken_coalesces_sample :
  exists s1 : service,
    waitForToken_each (H := Sample.runtime) [0; 0] Sample.service_ready Sample.blank
    = ([Queued 0; Queued 1], s1, Sample.blank)
    /\ (flows_started (out s1) <= 1)%nat
    /\ exists new : list signal,
         out (fst (conclude (H := Sample.runtime) Sample.app_callbacks
                     (TokenResponse 0 Sample.error_response) s1 Sample.blank))
         = out s1 ++ new
         /\ all_settled [0; 1]%nat new (Rejected "OAuth error: server_error").
Proof.
  destruct (waitForToken_coalesces (H := Sample.runtime) Sample.app_callbacks
              [0; 0] Sample.service_ready Sample.blank)
    as (s1 & E & _ & Hf & _ & _ & Hc).
  - intros now _. reflexivity.
  - exists s1. split; [exact E|]. split; [exact Hf|].
    destruct (Hc (TokenResponse 0 Sample.error_response)
                (Rejected "OAuth error: server_error") eq_refl) as (_ & new & Ho & Hall).
    exists new. split; [exact Ho | exact Hall].
Defined.

(** C3 at its failing input.  One caller is queued and the silent flow is
    started with its 5000 ms timer; neither channel answers and the timer
    fires.  The tag is cleared and the silent-failure callback runs, but
    the caller stays in the queue, neither resolved nor rejected, whereas
    an error in the token response rejects it.  Had a channel answered
    first, the timer would have been disarmed. *)
Lemma fallback_timer_leaves_waiters_pending :
  let '(t, s1, w1) :=
    waitForToken (H := Sample.runtime) 0 Sample.service_ready Sample.blank in
  let '(s2, _) := timer_fires Sample.app_callbacks 0 s1 w1 in
  let '(s3, _) :=
    _onTokenResponse (H := Sample.runtime) Sample.app_callbacks 0
      Sample.error_response s1 w1 in
  t = Queued 0
  /\ out s1 = [SetTimeout 0 5000; RequestAccessToken EmptyString (Some EmptyString)]
  /\ armed s1 = [0%nat]
  /\ _pendingFlowType s2 = None
  /\ out s2 = out s1 ++ [CallOnSilentFail]
  /\ _tokenWaiters s2 = [0%nat]
  /\ settlement_of 0 (out s2) = None
  /\ settlement_of 0 (out s3) = Some (Rejected "OAuth error: server_error")
  /\ In CallOnSilentFail (out s3)
  /\ armed s3 = [].
Proof.
  vm_compute. repeat split. repeat (first [left; reflexivity | right]).
Qed.

(** A token in the tab without an expiry: the caller is queued. *)
Lemma no_expiry_sample :
  Storage.getAccessToken (H := Sample.runtime) Sample.token_without_expiry = Some "tok"%string
  /\ Storage.tokenExpired
       (Storage.getStoredSession (H := Sample.runtime) 0 Sample.token_without_expiry) = true
  /\ exists s1 : service,
       waitForToken (H := Sample.runtime) 0 Sample.service_with_token
         Sample.token_without_expiry
       = (Queued 0, s1, Sample.token_without_expiry)
       /\ _pendingFlowType s1 = Some silent.
Proof.
  destruct (no_expiry_is_expired (H := Sample.runtime) 0 Sample.service_with_token
              Sample.token_without_expiry eq_refl)
    as (_ & _ & Hsnap & s1 & E & _ & Hp & _).
  split; [reflexivity|]. split; [exact Hsnap|].
  exists s1. split; [exact E | apply Hp; reflexivity].
Defined.

End TokenLifecycle.

Module RunFacts.

Section WithServer.
Context {S : Type} (serve : S -> wait -> reply * S).



Lemma run_finally_task {A : Type} (t : task A) (f : world -> world) :
  forall s : S,
    run serve s (finally_task t f) =
    let '(tr, w1, o, s1) := run serve s t in (tr, f w1, o, s1).
Proof.
  induction t as [w o | w e k IH]; intros s; simpl.
  - reflexivity.
  - destruct (serve s e) as [rep s']. rewrite IH.
    now destruct (run serve s' (k w rep)) as [[[tr w1] o] s1].
Qed.

End WithServer.
End RunFacts.

Module LocalCache.
Import SheetsHelpers.

Local Arguments String.append : simpl never.

Section WithRuntime.
Context `{Runtime}.
Context {S : Type} (serve : S -> wait -> reply * S).




Local Arguments removeExpenseRow : simpl never.



(** The check of the form, [!amount || amount <= 0], rejects exactly the
    amounts that are not greater than zero. *)
Lemma invalid_amount_spec (a : number) :
  invalid_amount a = negb (positive_number a).
Proof.
  unfold invalid_amount, positive_number.
  destruct a as [s|s| |s m e]; try reflexivity; now destruct s.
Qed.

Ltac open_submit :=
  unfold ExpenseController.submitExpense, ExpenseControllerStorage.submitExpense,
    SheetsService.appendExpense, SheetsServiceStorage.appendExpense, insertExpense,
    SheetsClient.post, await_http, try_finally, try_catch, bind, update, ret, get_world.

(** The direct-storage revision appends and persists after the remote
    append has succeeded, and not at all when it failed. *)
Lemma submitExpense_remote_first (s0 s1 : S) (today inputAmount inputComment cat : string)
  (w : world) (rep : reply) :
  State.selectedCat (STATE w) = Some cat ->
  cat <> EmptyString ->
  invalid_amount (parseFloat_str inputAmount) = false ->
  serve s0 (Http (appendRequest (State.accessToken (STATE w))
                    (or_null (State.spreadsheetId (STATE w))) CONFIG.SHEET_NAME
                    (draft (drawn w) today cat (parseFloat_str inputAmount)
                       (trim inputComment))))
  = (rep, s1) ->
  exists w_sent w' : world,
    run serve s0 (ExpenseController.submitExpense today inputAmount inputComment w)
    = ([(w_sent,
         Http (appendRequest (State.accessToken (STATE w))
                 (or_null (State.spreadsheetId (STATE w))) CONFIG.SHEET_NAME
                 (draft (drawn w) today cat (parseFloat_str inputAmount)
                    (trim inputComment))))],
       w', Return tt, s1)
    /\ cache_kept w w_sent
    /\ match rep with
       | Data _ =>
           cache_with (draft (drawn w) today cat (parseFloat_str inputAmount)
                         (trim inputComment)) w w'
           /\ In (ShowToast "toast.added" EmptyString "success") (page w')
       | Failure m =>
           cache_kept w w'
           /\ In (ShowToast "toast.error_prefix" m "error") (page w')
       end.
Proof.
  intros Hcat Hne Hvalid Hserve. unfold appendRequest in Hserve.
  open_submit. rewrite Hvalid. simpl. rewrite Hcat.
  destruct (String.eqb_spec cat EmptyString) as [?|_]; [contradiction|].
  simpl. rewrite Hserve.
  destruct rep as [d|m]; simpl; eexists _, _; (split; [reflexivity|]);
    (split; [split; reflexivity|]).
  - split.
    + unfold cache_with, Storage.getExpenses. simpl.
      now rewrite lookup_insert_eq.
    + apply in_or_app. left. apply in_or_app. now right; left.
  - split; [split; reflexivity|].
    apply in_or_app. left. apply in_or_app. now right; left.
Qed.

Lemma submitExpense_storage_remote_first (s0 s1 : S)
  (today inputAmount inputComment cat : string) (w : world) (rep : reply) :
  State.selectedCat (STATE w) = Some cat ->
  cat <> EmptyString ->
  invalid_amount (parseAmount inputAmount) = false ->
  serve s0 (Http (appendRequest (State.accessToken (STATE w))
                    (or_null (State.spreadsheetId (STATE w))) CONFIG.SHEET_NAME
                    (draft (drawn w) today cat (parseAmount inputAmount)
                       (trim inputComment))))
  = (rep, s1) ->
  exists w_sent w' : world,
    run serve s0 (ExpenseControllerStorage.submitExpense today inputAmount inputComment w)
    = ([(w_sent,
         Http (appendRequest (State.accessToken (STATE w))
                 (or_null (State.spreadsheetId (STATE w))) CONFIG.SHEET_NAME
                 (draft (drawn w) today cat (parseAmount inputAmount)
                    (trim inputComment))))],
       w', Return tt, s1)
    /\ cache_kept w w_sent
    /\ match rep with
       | Data _ =>
           cache_with (draft (drawn w) today cat (parseAmount inputAmount)
                         (trim inputComment)) w w'
           /\ In (ShowToast "toast.added" EmptyString "success") (page w')
       | Failure m =>
           cache_kept w w'
           /\ In (ShowToast "toast.error_prefix" m "error") (page w')
       end.
Proof.
  intros Hcat Hne Hvalid Hserve. unfold appendRequest in Hserve.
  open_submit. rewrite Hvalid. simpl. rewrite Hcat.
  destruct (String.eqb_spec cat EmptyString) as [?|_]; [contradiction|].
  simpl. rewrite Hserve.
  destruct rep as [d|m]; simpl; eexists _, _; (split; [reflexivity|]);
    (split; [split; reflexivity|]).
  - split.
    + unfold cache_with, Storage.getExpenses. simpl.
      now rewrite lookup_insert_eq.
    + apply in_or_app. left. apply in_or_app. now right; left.
  - split; [split; reflexivity|].
    apply in_or_app. left. apply in_or_app. now right; left.
Qed.

(** C1, as the code has it.  For a valid draft (an amount that passes
    the check and a category selected), both revisions of
    [submitExpense] send the remote append first, with the local cache
    as it was.  When the append succeeds the record is appended to the
    records in memory and the cache is persisted with it; when the append
    fails the cache is left as it was, without the record, and the
    failure is shown. *)
Theorem submitExpense_appends_after_remote_success
  (s0 : S) (today inputAmount inputComment cat : string) (w : world) :
  State.selectedCat (STATE w) = Some cat ->
  cat <> EmptyString ->
  (forall (rep : reply) (s1 : S),
      positive_number (parseFloat_str inputAmount) = true ->
      serve s0 (Http (appendRequest (State.accessToken (STATE w))
                        (or_null (State.spreadsheetId (STATE w))) CONFIG.SHEET_NAME
                        (draft (drawn w) today cat (parseFloat_str inputAmount)
                           (trim inputComment))))
      = (rep, s1) ->
      exists w_sent w' : world,
        run serve s0 (ExpenseController.submitExpense today inputAmount inputComment w)
        = ([(w_sent,
             Http (appendRequest (State.accessToken (STATE w))
                     (or_null (State.spreadsheetId (STATE w))) CONFIG.SHEET_NAME
                     (draft (drawn w) today cat (parseFloat_str inputAmount)
                        (trim inputComment))))],
           w', Return tt, s1)
        /\ cache_kept w w_sent
        /\ match rep with
           | Data _ =>
               cache_with (draft (drawn w) today cat (parseFloat_str inputAmount)
                             (trim inputComment)) w w'
               /\ In (ShowToast "toast.added" EmptyString "success") (page w')
           | Failure m =>
               cache_kept w w'
               /\ In (ShowToast "toast.error_prefix" m "error") (page w')
           end)
  /\ (forall (rep : reply) (s1 : S),
         positive_number (parseAmount inputAmount) = true ->
         serve s0 (Http (appendRequest (State.accessToken (STATE w))
                           (or_null (State.spreadsheetId (STATE w))) CONFIG.SHEET_NAME
                           (draft (drawn w) today cat (parseAmount inputAmount)
                              (trim inputComment))))
         = (rep, s1) ->
         exists w_sent w' : world,
           run serve s0
             (ExpenseControllerStorage.submitExpense today inputAmount inputComment w)
           = ([(w_sent,
                Http (appendRequest (State.accessToken (STATE w))
                        (or_null (State.spreadsheetId (STATE w))) CONFIG.SHEET_NAME
                        (draft (drawn w) today cat (parseAmount inputAmount)
                           (trim inputComment))))],
              w', Return tt, s1)
           /\ cache_kept w w_sent
           /\ match rep with
              | Data _ =>
                  cache_with (draft (drawn w) today cat (parseAmount inputAmount)
                                (trim inputComment)) w w'
                  /\ In (ShowToast "toast.added" EmptyString "success") (page w')
              | Failure m =>
                  cache_kept w w'
                  /\ In (ShowToast "toast.error_prefix" m "error") (page w')
              end).
Proof.
  intros Hcat Hne. split; intros rep s1 Hpos Hserve.
  - apply submitExpense_remote_first; auto.
    now rewrite invalid_amount_spec, Hpos.
  - apply submitExpense_storage_remote_first; auto.
    now rewrite invalid_amount_spec, Hpos.
Qed.


End WithRuntime.

(** The scenario: 12.5 for food is submitted and the store accepts it. *)
Lemma submitExpense_sample :
  exists w_sent w' : world,
    run scripted [Data no_data]
      (ExpenseController.submitExpense (H := Sample.runtime)
         "2024-03-01" "12.5" EmptyString Sample.ready_to_add)
    = ([(w_sent,
         Http (appendRequest (H := Sample.runtime) (Some "tok") "S1" "spends"
                 (draft (H := Sample.runtime) 0 "2024-03-01" "food"
                    Sample.twelve_and_a_half EmptyString)))],
       w', Return tt, [])
    /\ State.expenses (STATE w_sent) = []
    /\ State.expenses (STATE w')
       = [draft (H := Sample.runtime) 0 "2024-03-01" "food"
            Sample.twelve_and_a_half EmptyString].
Proof.
  destruct (submitExpense_appends_after_remote_success (H := Sample.runtime) scripted
              [Data no_data] "2024-03-01" "12.5" EmptyString "food" Sample.ready_to_add)
    as (Hfirst & _); [reflexivity | discriminate |].
  destruct (Hfirst (Data no_data) [] eq_refl eq_refl)
    as (w_sent & w' & E & (Hsent & _) & (Hmem & _) & _).
  exists w_sent, w'. split; [exact E|]. split; [exact Hsent | exact Hmem].
Defined.

(** The scenario of the specification, on the code: the same draft with
    the remote append failing.  The request went out with an empty
    cache, and afterwards the record is neither in memory nor in the
    persisted cache; the failure was shown. *)
Lemma submitExpense_failed_append_drops_record :
  let '(tr, w', o, _) :=
    run scripted [Failure "HTTP 500"]
      (ExpenseController.submitExpense (H := Sample.runtime)
         "2024-03-01" "12.5" EmptyString Sample.ready_to_add) in
  map (fun x => State.expenses (STATE (fst x))) tr = [[]]
  /\ State.expenses (STATE w') = []
  /\ Storage.getExpenses (H := Sample.runtime) w' = []
  /\ In (ShowToast "toast.error_prefix" "HTTP 500" "error") (page w').
Proof.
  vm_compute. repeat split. repeat (first [left; reflexivity | right]).
Qed.



End LocalCache.

(** * Further properties of the code *)

Module StorageFacts.
Import Storage.

Section WithRuntime.
Context `{Runtime}.

(** X1.  What each setter stores as a text is what its getter reads: the
    store id, the login hint and the access token come back as saved,
    and the numeric sheet id and the expiry do when the number survives
    [String] and [Number].  The token then counts as expired exactly
    when the clock is past the saved expiry. *)
Theorem storage_round_trips (w : world) :
  (forall sid : string, getSheetId (saveSheetId sid w) = Some sid)
  /\ (forall hint : string, getLoginHint (saveLoginHint hint w) = hint)
  /\ (forall (tok : string) (t : option Z),
         getAccessToken (saveSession tok t w) = Some tok)
  /\ (forall n : Z,
         js_Number (js_String n) = Some n ->
         getNumericSheetId (saveNumericSheetId (Some n) w) = Some (Some n))
  /\ (forall (tok : string) (t now : Z),
         js_Number (js_String t) = Some t ->
         js_String t <> EmptyString ->
         isTokenExpired now (saveSession tok (Some t) w) = (now >? t)).
Proof.
  repeat split.
  - intros sid. unfold getSheetId, saveSheetId; simpl. now rewrite lookup_insert_eq.
  - intros hint. unfold getLoginHint, saveLoginHint; simpl. now rewrite lookup_insert_eq.
  - intros tok t. unfold getAccessToken, saveSession; simpl.
    rewrite lookup_insert_ne by discriminate. now rewrite lookup_insert_eq.
  - intros n Hn. unfold getNumericSheetId, saveNumericSheetId; simpl.
    rewrite lookup_insert_eq. simpl. now rewrite Hn.
  - intros tok t now Hn Hne. unfold isTokenExpired, saveSession; simpl.
    rewrite lookup_insert_eq. simpl.
    destruct (String.eqb_spec (js_String t) EmptyString); [contradiction|].
    now rewrite Hn.
Qed.

(** X2.  The setters do not disturb each other: saving under one key leaves
    what every other getter reads. *)
Theorem storage_setters_are_independent (w : world) :
  (forall sid : string,
      getLoginHint (saveSheetId sid w) = getLoginHint w
      /\ getExpenses (saveSheetId sid w) = getExpenses w
      /\ getNumericSheetId (saveSheetId sid w) = getNumericSheetId w
      /\ sessionStorage (saveSheetId sid w) = sessionStorage w)
  /\ (forall hint : string,
         getSheetId (saveLoginHint hint w) = getSheetId w
         /\ getExpenses (saveLoginHint hint w) = getExpenses w
         /\ getNumericSheetId (saveLoginHint hint w) = getNumericSheetId w
         /\ sessionStorage (saveLoginHint hint w) = sessionStorage w)
  /\ (forall es : list expense,
         getSheetId (saveExpenses es w) = getSheetId w
         /\ getLoginHint (saveExpenses es w) = getLoginHint w
         /\ getNumericSheetId (saveExpenses es w) = getNumericSheetId w
         /\ sessionStorage (saveExpenses es w) = sessionStorage w)
  /\ (forall n : option Z,
         getSheetId (saveNumericSheetId n w) = getSheetId w
         /\ getLoginHint (saveNumericSheetId n w) = getLoginHint w
         /\ getExpenses (saveNumericSheetId n w) = getExpenses w
         /\ sessionStorage (saveNumericSheetId n w) = sessionStorage w)
  /\ (forall (tok : string) (t : option Z),
         localStorage (saveSession tok t w) = localStorage w)
  /\ localStorage (clearSession w) = localStorage w.
Proof.
  unfold getSheetId, getLoginHint, getExpenses, getNumericSheetId,
    saveSheetId, saveLoginHint, saveExpenses, saveNumericSheetId, saveSession, clearSession.
  repeat split; simpl; try reflexivity;
    now rewrite lookup_insert_ne by discriminate.
Qed.

(** X3.  The cache read never fails: with nothing stored, with an empty text,
    or with a text that does not parse, it is the empty array. *)
Theorem getExpenses_defaults_to_empty (w : world) :
  (localStorage w !! LOCAL_STORAGE.EXPENSES = None -> getExpenses w = [])
  /\ (localStorage w !! LOCAL_STORAGE.EXPENSES = Some (Text EmptyString) -> getExpenses w = [])
  /\ (forall raw : string,
         localStorage w !! LOCAL_STORAGE.EXPENSES = Some (Text raw) ->
         JSON_parse raw = None ->
         getExpenses w = []).
Proof.
  unfold getExpenses. repeat split.
  - now intros ->.
  - now intros ->.
  - intros raw -> Hp. simpl. rewrite Hp. now destruct (raw =? EmptyString)%string.
Qed.

Lemma clearAll_snapshot (now : Z) (w : world) :
  getStoredSession now (clearAll w)
  = {| accessToken := None; sheetId := None; expenses := [];
       loginHint := EmptyString; tokenExpired := true |}
  /\ getNumericSheetId (clearAll w) = None.
Proof.
  unfold getStoredSession, getAccessToken, getSheetId, getExpenses, getLoginHint,
    isTokenExpired, getNumericSheetId, clearAll, clearSession.
  destruct w as [ls ss st pg dr]; simpl.
  split; repeat (rewrite ?lookup_delete_eq, ?lookup_delete_ne by discriminate); reflexivity.
Qed.

(** X4.  [clearAll] wipes every key the service owns, whatever was stored:
    the snapshot read afterwards is the empty one, no numeric sheet id is
    cached, the keys of other owners stay, and clearing twice is
    clearing once. *)
Theorem clearAll_wipes_everything (now : Z) (w : world) :
  getStoredSession now (clearAll w)
  = {| accessToken := None; sheetId := None; expenses := [];
       loginHint := EmptyString; tokenExpired := true |}
  /\ getNumericSheetId (clearAll w) = None
  /\ clearAll (clearAll w) = clearAll w
  /\ STATE (clearAll w) = STATE w
  /\ (forall k : string,
         k <> LOCAL_STORAGE.SHEET_ID -> k <> LOCAL_STORAGE.EXPENSES ->
         k <> LOCAL_STORAGE.LOGIN_HINT -> k <> LOCAL_STORAGE.NUMERIC_SHEET_ID ->
         localStorage (clearAll w) !! k = localStorage w !! k)
  /\ (forall k : string,
         k <> SESSION_STORAGE.ACCESS_TOKEN -> k <> SESSION_STORAGE.EXPIRES_AT ->
         sessionStorage (clearAll w) !! k = sessionStorage w !! k).
Proof.
  destruct (clearAll_snapshot now w) as (Hsnap & Hnum).
  split; [exact Hsnap|]. split; [exact Hnum|].
  unfold clearAll, clearSession.
  destruct w as [ls ss st pg dr]; simpl.
  repeat split.
  - unfold with_localStorage, with_sessionStorage; simpl. f_equal.
    + apply map_eq. intros i. rewrite !lookup_delete. now repeat case_decide.
    + apply map_eq. intros i. rewrite !lookup_delete. now repeat case_decide.
  - intros k H1 H2 H3 H4. now rewrite !lookup_delete_ne by congruence.
  - intros k H1 H2. now rewrite !lookup_delete_ne by congruence.
Qed.

End WithRuntime.

(** Saving the numeric sheet id 0 and an expiry, on the sample host. *)
Lemma storage_round_trips_sample :
  getNumericSheetId (H := Sample.runtime)
    (saveNumericSheetId (H := Sample.runtime) (Some 0) Sample.blank) = Some (Some 0)
  /\ isTokenExpired (H := Sample.runtime) 1700000000001
       (saveSession (H := Sample.runtime) "tok" (Some 1700000000000) Sample.blank) = true
  /\ isTokenExpired (H := Sample.runtime) 1700000000000
       (saveSession (H := Sample.runtime) "tok" (Some 1700000000000) Sample.blank) = false.
Proof.
  destruct (storage_round_trips (H := Sample.runtime) Sample.blank)
    as (_ & _ & _ & Hnum & Hexp).
  split; [apply Hnum; reflexivity|].
  split; rewrite Hexp by (reflexivity || discriminate); reflexivity.
Defined.

(** A cache text that does not parse, on the sample host. *)
Lemma getExpenses_defaults_sample :
  getExpenses (H := Sample.runtime)
    (with_localStorage (insert LOCAL_STORAGE.EXPENSES (Text "not json")) Sample.blank) = [].
Proof.
  destruct (getExpenses_defaults_to_empty (H := Sample.runtime)
              (with_localStorage (insert LOCAL_STORAGE.EXPENSES (Text "not json"))
                 Sample.blank)) as (_ & _ & Hbad).
  apply (Hbad "not json"); reflexivity.
Defined.

(** Signing out of the sample session leaves nothing behind. *)
Lemma clearAll_sample :
  getStoredSession (H := Sample.runtime) 0 (clearAll Sample.signed_in)
  = {| accessToken := None; sheetId := None; expenses := [];
       loginHint := EmptyString; tokenExpired := true |}.
Proof.
  exact (proj1 (clearAll_wipes_everything (H := Sample.runtime) 0 Sample.signed_in)).
Defined.

End StorageFacts.

Module SheetsFacts.
Import SheetsHelpers.

Local Arguments String.append : simpl never.

(** X5.  [findRowIndex] is -1 exactly when no row holds the identifier;
    otherwise it is between 1 and the length of the column, and the row
    one above it in the column is the first that holds the identifier. *)
Theorem findRowIndex_bounds (idColumn : list row) (expenseId : string) :
  (findRowIndex idColumn expenseId = -1
   /\ Forall (fun r => at_index r 0 <> PStr expenseId) idColumn)
  \/ (exists (k : nat) (r : row),
         findRowIndex idColumn expenseId = Z.of_nat k + 1
         /\ (k < length idColumn)%nat
         /\ idColumn !! k = Some r
         /\ at_index r 0 = PStr expenseId
         /\ forall (j : nat) (r' : row),
             (j < k)%nat -> idColumn !! j = Some r' -> at_index r' 0 <> PStr expenseId).
Proof.
  induction idColumn as [|r0 col IH].
  - left. split; [reflexivity | constructor].
  - destruct (strict_eq (at_index r0 0) (PStr expenseId)) eqn:E.
    + right. exists 0%nat, r0.
      apply SheetsHelpersFacts.strict_eq_PStr in E.
      split; [|split; [simpl; lia | split; [reflexivity | split; [exact E | intros; lia]]]].
      apply (SheetsHelpersFacts.findRowIndex_first_match (r0 :: col) expenseId 0 r0);
        [reflexivity | exact E | intros; lia].
    + assert (Hne : at_index r0 0 <> PStr expenseId).
      { intros Heq. apply SheetsHelpersFacts.strict_eq_PStr in Heq. congruence. }
      destruct IH as [[Hidx Hall] | (k & r & Hidx & Hlen & Hk & Hid & Hfirst)].
      * left. split; [|now constructor].
        apply RemoveRow.findRowIndex_absent. now constructor.
      * right. exists (Datatypes.S k), r.
        assert (Hfirst' : forall (j : nat) (r' : row),
                   (j < Datatypes.S k)%nat -> (r0 :: col) !! j = Some r' ->
                   at_index r' 0 <> PStr expenseId).
        { intros [|j] r' Hj Hl; simpl in Hl.
          - now injection Hl as <-.
          - apply (Hfirst j r'); [lia | exact Hl]. }
        split; [|split; [simpl; lia | split; [exact Hk | split; [exact Hid | exact Hfirst']]]].
        apply (SheetsHelpersFacts.findRowIndex_first_match (r0 :: col) expenseId
                 (Datatypes.S k) r); [exact Hk | exact Hid | exact Hfirst'].
Qed.

Lemma findRowIndex_positive (idColumn : list row) (expenseId : string) :
  findRowIndex idColumn expenseId = -1 \/ 1 <= findRowIndex idColumn expenseId.
Proof.
  unfold findRowIndex, findIndex.
  destruct (SheetsHelpersFacts.findIndex_from_range
              (fun r => strict_eq (at_index r 0) (PStr expenseId)) idColumn 0) as [E|E];
    [lia | rewrite E; now left |].
  destruct (Z.eqb_spec (findIndex_from (fun r => strict_eq (at_index r 0) (PStr expenseId))
                          idColumn 0) (-1)); [now left | right; lia].
Qed.

Section Ingestion.
Context `{Runtime}.

Lemma rowToExpense_accepts (r : row) (k k' : nat) (e : expense) :
  rowToExpense r k = (Some e, k') ->
  positive_number (amount e) = true
  /\ truthy (category e) = true
  /\ ((truthy (at_index r 0) = true /\ id e = at_index r 0 /\ k' = k)
      \/ (truthy (at_index r 0) = false /\ id e = PStr (uuid_gen k) /\ k' = Datatypes.S k)).
Proof.
  unfold rowToExpense.
  destruct (SFleb (num_or (parseFloat (at_index r 3)) zero) zero) eqn:Hle; [discriminate|].
  assert (Hpos : positive_number (num_or (parseFloat (at_index r 3)) zero) = true).
  { unfold positive_number, num_or in *.
    destruct (parseFloat (at_index r 3)) as [s|s| |s m x]; simpl in *;
      try discriminate; destruct s; cbv in Hle |- *; congruence. }
  destruct (truthy (at_index r 0)) eqn:Hid; simpl; intros [= <- <-]; simpl;
    (split; [exact Hpos|]);
    (split; [apply RoundTrip.or_else_truthy; discriminate|]); auto.
Qed.

Lemma rowToExpense_rejects (r : row) (k k' : nat) :
  rowToExpense r k = (None, k') -> k' = k.
Proof.
  unfold rowToExpense.
  destruct (SFleb _ zero); [now intros [= <-]|].
  destruct (truthy (at_index r 0)); simpl; discriminate.
Qed.

(** X6.  What ingestion keeps.  Every record that [rowsToExpenses] returns has
    an amount greater than zero and a category that is not empty; there
    are no more records than rows, in the order of the rows; an
    identifier is drawn only for a record that is kept, so at most one
    per record; and when the range read held no values the result is
    empty and nothing is drawn.  When [uuid()] never returns the empty
    string, every record has an identifier that is not empty. *)
Theorem rowsToExpenses_keeps_valid_records (rows : option (list row)) (k : nat) :
  Forall (fun e => positive_number (amount e) = true /\ truthy (category e) = true)
    (fst (rowsToExpenses rows k))
  /\ (length (fst (rowsToExpenses rows k)) <= length (default [] rows))%nat
  /\ (k <= snd (rowsToExpenses rows k) <= k + length (fst (rowsToExpenses rows k)))%nat
  /\ (rows = None -> rowsToExpenses rows k = ([], k))
  /\ ((forall j : nat, uuid_gen j <> EmptyString) ->
      Forall (fun e => truthy (id e) = true) (fst (rowsToExpenses rows k))).
Proof.
  assert (Hmain : forall (l : list row) (k0 : nat),
    Forall (fun e => positive_number (amount e) = true /\ truthy (category e) = true)
      (filter_Boolean (fst (map_rowToExpense l k0)))
    /\ (length (filter_Boolean (fst (map_rowToExpense l k0))) <= length l)%nat
    /\ (k0 <= snd (map_rowToExpense l k0)
         <= k0 + length (filter_Boolean (fst (map_rowToExpense l k0))))%nat
    /\ ((forall j : nat, uuid_gen j <> EmptyString) ->
        Forall (fun e => truthy (id e) = true)
          (filter_Boolean (fst (map_rowToExpense l k0))))).
  { induction l as [|r l IH]; intros k0; simpl.
    - repeat split; auto; lia.
    - destruct (rowToExpense r k0) as [[e|] k1] eqn:E.
      + destruct (rowToExpense_accepts r k0 k1 e E) as (Hp & Hc & Hid).
        destruct (IH k1) as (IH1 & IH2 & IH3 & IH4).
        destruct (map_rowToExpense l k1) as [os k2]; simpl in *.
        split; [constructor; auto|]. split; [lia|].
        split; [destruct Hid as [(_ & _ & ->) | (_ & _ & ->)]; lia|].
        intros Hu. constructor; [|now apply IH4].
        destruct Hid as [(Ht & -> & _) | (_ & -> & _)]; [exact Ht|].
        simpl. now destruct (String.eqb_spec (uuid_gen k0) EmptyString);
          [destruct (Hu k0)|].
      + apply rowToExpense_rejects in E. subst k1.
        destruct (IH k0) as (IH1 & IH2 & IH3 & IH4).
        destruct (map_rowToExpense l k0) as [os k2]; simpl in *.
        repeat split; auto; lia. }
  unfold rowsToExpenses.
  destruct (Hmain (default [] rows) k) as (H1 & H2 & H3 & H4).
  destruct (map_rowToExpense (default [] rows) k) as [os k'] eqn:E; simpl in *.
  split; [exact H1|]. split; [exact H2|]. split; [exact H3|].
  split; [|exact H4].
  intros ->. simpl in E. now injection E as <- <-.
Qed.

End Ingestion.

Section WithRuntime.
Context `{Runtime}.
Context {S : Type} (serve : S -> wait -> reply * S).

(** X7.  [loadExpenses] of the service that caches: one read of the data
    rows; when it succeeds, the valid records of the reply are returned
    and are what the cache then holds, and when it fails the error is
    thrown and the world is as it was. *)
Theorem loadExpenses_caches_what_it_returns (s0 : S) (accessToken : option string)
  (spreadsheetId : string) (w : world) :
  let '(rep, s1) := serve s0 (Http (fetchRequest accessToken spreadsheetId CONFIG.SHEET_NAME)) in
  run serve s0 (SheetsService.loadExpenses accessToken spreadsheetId w)
  = ([(w, Http (fetchRequest accessToken spreadsheetId CONFIG.SHEET_NAME))],
     match rep with
     | Data d =>
         with_localStorage
           (insert STORAGE.EXPENSES (Json (fst (rowsToExpenses (values d) (drawn w)))))
           (with_drawn (snd (rowsToExpenses (values d) (drawn w))) w)
     | Failure _ => w
     end,
     match rep with
     | Data d => Return (fst (rowsToExpenses (values d) (drawn w)))
     | Failure m => Throw m
     end,
     s1)
  /\ match rep with
     | Data d =>
         Storage.getExpenses
           (with_localStorage
              (insert STORAGE.EXPENSES (Json (fst (rowsToExpenses (values d) (drawn w)))))
              (with_drawn (snd (rowsToExpenses (values d) (drawn w))) w))
         = fst (rowsToExpenses (values d) (drawn w))
     | Failure _ => True
     end.
Proof.
  unfold SheetsService.loadExpenses, fetchExpenses, fetchRequest, bind, ret, update,
    get_world, SheetsClient.get, await_http.
  simpl. destruct (serve s0 _) as [[d|m] s1]; simpl.
  - destruct (rowsToExpenses (values d) (drawn w)) as [es k]; simpl.
    split; [reflexivity|].
    unfold Storage.getExpenses. simpl. now rewrite lookup_insert_eq.
  - now split.
Qed.

Ltac shape_done :=
  unfold buildDeleteRowRequest; simpl;
  repeat match goal with
         | |- _ /\ _ => split
         | |- Forall _ [] => constructor
         | |- Forall _ (_ :: _) => constructor
         | |- (_ <= _)%nat => simpl; lia
         | |- (_ <= _)%Z => simpl; lia
         | |- _ = _ => reflexivity
         | |- _ -> _ => intro
         end.

(** X8.  Whatever the store answers, [removeExpenseRow] deletes at most one
    row, as its last request, and never the header: every deletion it
    asks for is one whole row at index 1 or below.  It sends at most
    three requests, and at most two when the numeric sheet id is cached. *)
Theorem removeExpenseRow_spares_the_header (s0 : S) (accessToken : option string)
  (spreadsheetId sheetName expenseId : string) (w : world) :
  let '(tr, _, _, _) :=
    run serve s0 (removeExpenseRow accessToken spreadsheetId sheetName expenseId w) in
  Forall (fun d => 1 <= startIndex d
                   /\ endIndex d = startIndex d + 1
                   /\ dimension d = "ROWS"%string)
    (concat (map (fun x => row_deletes (snd x)) tr))
  /\ (length (concat (map (fun x => row_deletes (snd x)) tr)) <= 1)%nat
  /\ Forall (fun x => is_row_delete (snd x) = false) (removelast tr)
  /\ (length tr <= 3)%nat
  /\ (Storage.getNumericSheetId w <> None -> (length tr <= 2)%nat).
Proof.
  unfold removeExpenseRow, deleteFoundRow, bind, get_world, update, ret, throw,
    await_http, await_both.
  simpl.
  destruct (Storage.getNumericSheetId w) as [n|]; simpl.
  - destruct (serve s0 _) as [[colA|m] s1]; simpl; [|shape_done].
    destruct (findRowIndex_positive (default [] (values colA)) expenseId) as [E|E].
    + rewrite E. shape_done.
    + destruct (findRowIndex _ _ =? -1) eqn:E1; [apply Z.eqb_eq in E1; lia|]. simpl.
      destruct (serve s1 _) as [[d|m] s2]; shape_done.
  - destruct (serve s0 _) as [[colA|m] s1]; simpl;
      destruct (serve s1 _) as [[meta|m'] s2]; simpl; try (shape_done; try congruence; fail).
    destruct (findRowIndex_positive (default [] (values colA)) expenseId) as [E|E].
    + rewrite E. shape_done; congruence.
    + destruct (findRowIndex _ _ =? -1) eqn:E1; [apply Z.eqb_eq in E1; lia|]. simpl.
      destruct (extractNumericSheetId meta) as [n|m]; simpl; [|shape_done; congruence].
      destruct (serve s2 _) as [[d|m] s3]; shape_done; congruence.
Qed.

(** X9.  The delete of a row that is there.  When the identity column is
    read and holds the identifier first at offset [k], the batchUpdate
    that goes out asks for row [k + 1] of the sheet with the numeric id:
    the cached one, and then nothing else is read or stored, or the one
    of the first sheet in the metadata, which is then cached.  The call
    returns normally when the store accepts the batchUpdate and throws
    its error otherwise, with the numeric id cached in both cases. *)
Theorem removeExpenseRow_deletes_the_row
  (s0 s1 : S) (accessToken : option string)
  (spreadsheetId sheetName expenseId : string) (w : world)
  (colA : data) (k : nat) (r : row) :
  serve s0 (Http (idColumnRequest accessToken spreadsheetId sheetName)) = (Data colA, s1) ->
  default [] (values colA) !! k = Some r ->
  at_index r 0 = PStr expenseId ->
  (forall (j : nat) (r' : row),
      (j < k)%nat -> default [] (values colA) !! j = Some r' ->
      at_index r' 0 <> PStr expenseId) ->
  (forall (n : option Z) (rep : reply) (s2 : S),
      Storage.getNumericSheetId w = Some n ->
      serve s1 (Http (batchUpdateRequest accessToken spreadsheetId
                        [buildDeleteRowRequest n (Z.of_nat k + 1)])) = (rep, s2) ->
      run serve s0 (removeExpenseRow accessToken spreadsheetId sheetName expenseId w)
      = ([(w, Http (idColumnRequest accessToken spreadsheetId sheetName));
          (w, Http (batchUpdateRequest accessToken spreadsheetId
                      [buildDeleteRowRequest n (Z.of_nat k + 1)]))],
         w,
         match rep with Data _ => Return tt | Failure m => Throw m end,
         s2))
  /\ (forall (meta : data) (n : Z) (rep : reply) (s2 s3 : S),
         Storage.getNumericSheetId w = None ->
         serve s1 (Http (metadataRequest accessToken spreadsheetId)) = (Data meta, s2) ->
         extractNumericSheetId meta = Return n ->
         serve s2 (Http (batchUpdateRequest accessToken spreadsheetId
                           [buildDeleteRowRequest (Some n) (Z.of_nat k + 1)])) = (rep, s3) ->
         run serve s0 (removeExpenseRow accessToken spreadsheetId sheetName expenseId w)
         = ([(w, Http (idColumnRequest accessToken spreadsheetId sheetName));
             (w, Http (metadataRequest accessToken spreadsheetId));
             (Storage.saveNumericSheetId (Some n) w,
              Http (batchUpdateRequest accessToken spreadsheetId
                      [buildDeleteRowRequest (Some n) (Z.of_nat k + 1)]))],
            Storage.saveNumericSheetId (Some n) w,
            match rep with Data _ => Return tt | Failure m => Throw m end,
            s3)).
Proof.
  intros Hcol Hk Hid Hfirst.
  pose proof (SheetsHelpersFacts.findRowIndex_first_match _ _ _ _ Hk Hid Hfirst) as Hidx.
  assert (Hne : (Z.of_nat k + 1 =? -1) = false) by (apply Z.eqb_neq; lia).
  split.
  - intros n rep s2 Hc Hb.
    unfold removeExpenseRow, deleteFoundRow, bind, get_world, update, ret, throw,
      await_http, await_both.
    simpl. rewrite Hc. simpl. rewrite Hcol. simpl. rewrite Hidx, Hne. simpl.
    rewrite Hb. now destruct rep.
  - intros meta n rep s2 s3 Hc Hm Hex Hb.
    unfold removeExpenseRow, deleteFoundRow, bind, get_world, update, ret, throw,
      await_http, await_both.
    simpl. rewrite Hc. simpl. rewrite Hcol. simpl. rewrite Hm. simpl.
    rewrite Hidx, Hne. simpl. rewrite Hex. simpl.
    rewrite Hb. now destruct rep.
Qed.

(** X10.  The two lookups never throw.  [verifySpreadsheet] sends one read and
    answers whether it succeeded; [findExistingSpreadsheet] sends one
    search and answers the identifier of the first file found, or null
    when there is none or the search failed.  Neither changes the world. *)
Theorem lookups_never_throw (s0 : S) (accessToken : option string)
  (spreadsheetId title : string) (w : world) :
  run serve s0 (verifySpreadsheet accessToken spreadsheetId w)
  = ([(w, Http (verifyRequest accessToken spreadsheetId))], w,
     Return (match fst (serve s0 (Http (verifyRequest accessToken spreadsheetId))) with
             | Data _ => true
             | Failure _ => false
             end),
     snd (serve s0 (Http (verifyRequest accessToken spreadsheetId))))
  /\ run serve s0 (findExistingSpreadsheet accessToken title w)
     = ([(w, Http (searchRequest accessToken title))], w,
        Return (match fst (serve s0 (Http (searchRequest accessToken title))) with
                | Data d => first_file_id d
                | Failure _ => None
                end),
        snd (serve s0 (Http (searchRequest accessToken title)))).
Proof.
  unfold verifySpreadsheet, findExistingSpreadsheet, verifyRequest, searchRequest,
    try_catch, bind, ret, SheetsClient.get, await_http.
  simpl. split.
  - now destruct (serve s0 _) as [[d|m] s1].
  - now destruct (serve s0 _) as [[d|m] s1].
Qed.

Ltac ask :=
  match goal with
  | |- context [serve ?s ?e] => destruct (serve s e) as [[?|?] ?]; simpl
  end.

Ltac open_resolve :=
  unfold SheetsService.resolveSpreadsheet, SheetsServiceStorage.resolveSpreadsheet,
    findExistingSpreadsheet, createSpreadsheet,
    verifySpreadsheet, try_catch, bind, get_world, update, ret,
    SheetsClient.get, SheetsClient.post, SheetsClient.put, await_http;
  simpl.

Ltac resolved :=
  unfold creations, Storage.getSheetId, Storage.saveSheetId; simpl;
  rewrite ?lookup_insert_eq, ?lookup_delete_eq; simpl;
  repeat match goal with
         | |- _ /\ _ => split
         | |- _ <-> _ => split
         | |- _ -> _ => intro
         | |- _ = _ => first [reflexivity | congruence | assumption]
         end.

(** X11.  What [resolveSpreadsheet] returns is what it leaves in the durable
    storage, in both revisions of the service: after a normal return the
    stored id is the returned one, and [isNew] tells whether the run
    created a store.  It throws only out of the creation of a store, and
    then no usable id is left stored.  The state singleton and the
    tab-scoped storage are not touched. *)
Theorem resolveSpreadsheet_persists_its_result (s0 : S) (accessToken : option string)
  (w : world) :
  (let '(tr, w', o, _) := run serve s0 (SheetsService.resolveSpreadsheet accessToken w) in
   match o with
   | Return res =>
       Storage.getSheetId w' = Some (or_undefined (resolved_spreadsheetId res))
       /\ (isNew res = true <-> creations tr = 1%nat)
   | Throw _ => creations tr = 1%nat /\ truthy_string (Storage.getSheetId w') = false
   end
   /\ STATE w' = STATE w /\ sessionStorage w' = sessionStorage w)
  /\ (let '(tr, w', o, _) :=
        run serve s0 (SheetsServiceStorage.resolveSpreadsheet accessToken w) in
      match o with
      | Return res =>
          Storage.getSheetId w' = Some (or_undefined (resolved_spreadsheetId res))
          /\ (isNew res = true <-> creations tr = 1%nat)
      | Throw _ => creations tr = 1%nat /\ truthy_string (Storage.getSheetId w') = false
      end
      /\ STATE w' = STATE w /\ sessionStorage w' = sessionStorage w).
Proof.
  split; open_resolve.
  - change STORAGE.SHEET_ID with Storage.LOCAL_STORAGE.SHEET_ID.
    destruct (item_text <$> localStorage w !! Storage.LOCAL_STORAGE.SHEET_ID)
      as [sid|] eqn:Hc; simpl.
    + destruct (sid =? EmptyString)%string eqn:He; simpl.
      * ask; [destruct (first_file_id _) eqn:Hf; simpl; [resolved; discriminate|]|];
          ask; try (resolved; rewrite ?Hc; simpl; rewrite ?He; resolved; fail);
          ask; resolved; rewrite ?Hc; simpl; rewrite ?He; resolved.
      * ask; [resolved; try discriminate; rewrite Hc; reflexivity|].
        ask; [destruct (first_file_id _) eqn:Hf; simpl; [resolved; discriminate|]|];
          ask; try (resolved; fail);
          ask; resolved.
    + ask; [destruct (first_file_id _) eqn:Hf; simpl; [resolved; discriminate|]|];
        ask; try (resolved; rewrite ?Hc; resolved; fail);
        ask; resolved; rewrite ?Hc; resolved.
  - unfold Storage.getSheetId at 1.
    destruct (item_text <$> localStorage w !! Storage.LOCAL_STORAGE.SHEET_ID)
      as [sid|] eqn:Hc; simpl.
    + destruct (sid =? EmptyString)%string eqn:He; simpl.
      * ask; [destruct (first_file_id _) eqn:Hf; simpl; [resolved; discriminate|]|];
          ask; try (resolved; rewrite ?Hc; simpl; rewrite ?He; resolved; fail);
          ask; resolved; rewrite ?Hc; simpl; rewrite ?He; resolved.
      * ask; [resolved; try discriminate; rewrite Hc; reflexivity|].
        ask; [destruct (first_file_id _) eqn:Hf; simpl; [resolved; discriminate|]|];
          ask; try (resolved; fail);
          ask; resolved.
    + ask; [destruct (first_file_id _) eqn:Hf; simpl; [resolved; discriminate|]|];
        ask; try (resolved; rewrite ?Hc; resolved; fail);
        ask; resolved; rewrite ?Hc; resolved.
Qed.

End WithRuntime.

(** Three rows come back from the store: one complete, one without an
    identifier, one with the amount -3.  Two records are kept and one
    identifier is drawn. *)
Lemma rowsToExpenses_sample :
  rowsToExpenses (H := Sample.runtime)
    (Some [[PStr "X"; PStr "2024-03-01"; PStr "food"; PStr "12.5"];
           [PStr EmptyString; PStr "2024-03-02"; PStr EmptyString; PStr "12.5"; PStr "tea"];
           [PStr "Z"; PStr "2024-03-03"; PStr "food"; PStr "-3"]]) 0
  = ([Sample.lunch;
      {| id := PStr "uuid-0"; date := PStr "2024-03-02"; category := PStr "other";
         amount := Sample.twelve_and_a_half; comment := PStr "tea" |}], 1%nat)
  /\ Forall (fun e => truthy (id e) = true)
       (fst (rowsToExpenses (H := Sample.runtime)
               (Some [[PStr "X"; PStr "2024-03-01"; PStr "food"; PStr "12.5"];
                      [PStr EmptyString; PStr "2024-03-02"; PStr EmptyString; PStr "12.5";
                       PStr "tea"];
                      [PStr "Z"; PStr "2024-03-03"; PStr "food"; PStr "-3"]]) 0)).
Proof.
  split; [reflexivity|].
  apply (rowsToExpenses_keeps_valid_records (H := Sample.runtime)).
  intros j. discriminate.
Defined.

(** X is the second row of the column, the numeric sheet id is not
    cached, and the store accepts the deletion of row 2. *)
Lemma removeExpenseRow_deletes_the_row_sample :
  run scripted
    [Data (Sample.column ["A"; "X"; "C"]); Data Sample.metadata; Data no_data]
    (removeExpenseRow (H := Sample.runtime) (Some "tok") "S1" "spends" "X" Sample.blank)
  = ([(Sample.blank, Http (idColumnRequest (H := Sample.runtime) (Some "tok") "S1" "spends"));
      (Sample.blank, Http (metadataRequest (Some "tok") "S1"));
      (Storage.saveNumericSheetId (H := Sample.runtime) (Some 0) Sample.blank,
       Http (batchUpdateRequest (Some "tok") "S1" [buildDeleteRowRequest (Some 0) 2]))],
     Storage.saveNumericSheetId (H := Sample.runtime) (Some 0) Sample.blank,
     Return tt, []).
Proof.
  destruct (removeExpenseRow_deletes_the_row (H := Sample.runtime) scripted
              [Data (Sample.column ["A"; "X"; "C"]); Data Sample.metadata; Data no_data]
              [Data Sample.metadata; Data no_data]
              (Some "tok") "S1" "spends" "X" Sample.blank
              (Sample.column ["A"; "X"; "C"]) 1 [PStr "X"]) as (_ & Hfetch).
  - reflexivity.
  - reflexivity.
  - reflexivity.
  - intros j r' Hj. destruct j as [|j]; [|lia]. simpl. intros [= <-]. discriminate.
  - apply (Hfetch Sample.metadata 0 (Data no_data) [Data no_data] []); reflexivity.
Defined.

End SheetsFacts.

Module AuthFlowFacts.
Import AuthService AuthFlow.

Lemma times_settled_app (p : nat) (l1 l2 : list signal) :
  times_settled p (l1 ++ l2) = (times_settled p l1 + times_settled p l2)%nat.
Proof. unfold times_settled. now rewrite List.filter_app, length_app. Qed.

Lemma times_settled_map (f : nat -> signal) (ps : list nat) (p : nat) :
  (forall q : nat, settles p (f q) = Nat.eqb p q) ->
  times_settled p (map f ps) = length (List.filter (Nat.eqb p) ps).
Proof.
  intros Hf. unfold times_settled. induction ps as [|q ps IH]; [reflexivity|].
  simpl. rewrite Hf. destruct (Nat.eqb p q); simpl; now rewrite IH.
Qed.

Lemma occurrences_absent (p : nat) (ps : list nat) :
  ~ In p ps -> length (List.filter (Nat.eqb p) ps) = 0%nat.
Proof.
  induction ps as [|q ps IH]; intros Hn; [reflexivity|]. simpl.
  destruct (Nat.eqb_spec p q) as [->|_]; [destruct Hn; now left|].
  apply IH. intros Hin. apply Hn. now right.
Qed.

Lemma occurrences_NoDup (p : nat) (ps : list nat) :
  NoDup ps -> In p ps -> length (List.filter (Nat.eqb p) ps) = 1%nat.
Proof.
  induction ps as [|q ps IH]; intros Hnd Hin; [destruct Hin|].
  apply NoDup_cons in Hnd as [Hq Hnd]. simpl.
  destruct (Nat.eqb_spec p q) as [->|Hne]; simpl.
  - f_equal. apply occurrences_absent. now rewrite <- list_elem_of_In.
  - apply IH; [exact Hnd|]. destruct Hin; [congruence | assumption].
Qed.

Lemma filter_all {A : Type} (l : list A) : List.filter (fun _ => true) l = l.
Proof. induction l as [|x l IH]; [reflexivity|]. simpl. now rewrite IH. Qed.

Lemma fold_emit_fields (f : nat -> signal) (ps : list nat) :
  forall s : service,
    let s' := fold_left (fun acc p => emit (f p) acc) ps s in
    out s' = out s ++ map f ps
    /\ _tokenWaiters s' = _tokenWaiters s
    /\ next_promise s' = next_promise s
    /\ armed s' = armed s
    /\ next_timer s' = next_timer s.
Proof.
  induction ps as [|p ps IH]; intros s; simpl.
  - now rewrite app_nil_r.
  - destruct (IH (emit (f p) s)) as (Ho & Hw & Hn & Ha & Ht).
    rewrite Ho, Hw, Hn, Ha, Ht. simpl. now rewrite <- app_assoc.
Qed.

Lemma settle_all_fields (f : nat -> signal) (s : service) :
  out (settle_all f s) = out s ++ map f (_tokenWaiters s)
  /\ _tokenWaiters (settle_all f s) = []
  /\ next_promise (settle_all f s) = next_promise s
  /\ armed (settle_all f s) = armed s
  /\ next_timer (settle_all f s) = next_timer s.
Proof.
  unfold settle_all.
  destruct (fold_emit_fields f (_tokenWaiters s) (set_tokenWaiters [] s))
    as (Ho & Hw & Hn & Ha & Ht).
  rewrite Ho, Hw, Hn, Ha, Ht. now simpl.
Qed.

Lemma clearSilentTimer_fields (s : service) :
  exists (pre : list signal) (f : nat -> bool),
    out (_clearSilentTimer s) = out s ++ pre
    /\ (forall p : nat, times_settled p pre = 0%nat)
    /\ _tokenWaiters (_clearSilentTimer s) = _tokenWaiters s
    /\ next_promise (_clearSilentTimer s) = next_promise s
    /\ armed (_clearSilentTimer s) = List.filter f (armed s)
    /\ next_timer (_clearSilentTimer s) = next_timer s
    /\ _pendingFlowType (_clearSilentTimer s) = _pendingFlowType s.
Proof.
  unfold _clearSilentTimer. destruct (_silentRefreshTimer s) as [t|]; simpl.
  - exists [ClearTimeout t], (fun x => negb (Nat.eqb x t)). now repeat split.
  - exists [], (fun _ => true). rewrite app_nil_r, filter_all. now repeat split.
Qed.

Section WithRuntime.
Context `{Runtime}.
Variable cb : callbacks.
Variable onSignOut : world -> world.

Ltac quiet l :=
  exists l; split; [simpl; rewrite ?app_nil_r, <- ?app_assoc; reflexivity|];
  left; repeat split; try reflexivity.

Lemma failed_flow_effect (flowType : option flow) (m : string) (s0 s : service) (w : world)
  (pre : list signal) :
  out s = out s0 ++ pre ->
  (forall p : nat, times_settled p pre = 0%nat) ->
  _tokenWaiters s = _tokenWaiters s0 ->
  next_promise s = next_promise s0 ->
  queue_effect s0 (fst (_handleFailedFlow cb flowType m s w)).
Proof.
  intros Ho Hpre Hw Hn. unfold _handleFailedFlow.
  destruct (settle_all_fields (fun p => Reject p m) s) as (Ho1 & Hw1 & Hn1 & _).
  exists (pre ++ map (fun p => Reject p m) (_tokenWaiters s0)
          ++ [if is_silent flowType then CallOnSilentFail else CallOnError m]).
  split.
  - destruct (is_silent flowType); simpl; rewrite Ho1, Ho, Hw, <- !app_assoc; reflexivity.
  - right; right.
    destruct (is_silent flowType); simpl; rewrite Hw1, Hn1, Hn;
      (split; [reflexivity|]); (split; [reflexivity|]);
      intros p; rewrite !times_settled_app, Hpre, times_settled_map by reflexivity;
      unfold times_settled; simpl; lia.
Qed.

Lemma step_queue_effect (e : event) (s : service) (w : world) :
  queue_effect s (fst (step cb onSignOut e s w)).
Proof.
  destruct e as [| | |now|c|]; simpl.
  - quiet (@nil signal).
  - unfold signIn. destruct (_tokenClient s); simpl.
    + quiet [RequestAccessToken EmptyString None].
    + quiet [CallOnError "Google API is still loading — please try again in a moment."].
  - unfold silentRefresh. destruct (_tokenClient s); simpl.
    + eexists. split; [unfold arm_timer; simpl; rewrite <- app_assoc; reflexivity|].
      left. now repeat split.
    + quiet (@nil signal).
  - unfold waitForToken. destruct (has_valid_token now s w); simpl.
    + quiet (@nil signal).
    + unfold silentRefresh.
      destruct (is_silent (_pendingFlowType s)); simpl.
      * exists []. rewrite app_nil_r. split; [reflexivity|]. right; left. now repeat split.
      * destruct (_tokenClient s); simpl.
        -- eexists. split; [unfold arm_timer; simpl; rewrite <- app_assoc; reflexivity|].
           right; left. now repeat split.
        -- exists []. rewrite app_nil_r. split; [reflexivity|]. right; left.
           now repeat split.
  - destruct (clearSilentTimer_fields s) as (pre & f & Ho & Hpre & Hw & Hn & _).
    destruct c as [now r | err | t]; simpl.
    + unfold _onTokenResponse. destruct (truthy_string (response_error r)).
      * apply failed_flow_effect with (pre := pre); auto.
      * match goal with
        | |- context [settle_all ?g ?x] =>
            destruct (settle_all_fields g x) as (Ho1 & Hw1 & Hn1 & _)
        end.
        simpl in Ho1, Hw1, Hn1.
        exists (pre ++ map (fun p => Resolve p (access_token r)) (_tokenWaiters s)
                ++ [CallOnSignIn (access_token r)]).
        simpl.
        split; [rewrite Ho1, Ho, Hw, <- !app_assoc; reflexivity|].
        right; right. rewrite Hw1, Hn1, Hn.
        split; [reflexivity|]. split; [reflexivity|].
        intros p. rewrite !times_settled_app, Hpre, times_settled_map by reflexivity.
        unfold times_settled. simpl. lia.
    + unfold _onTokenError. destruct (AuthHelpers.isSilentAuthError err).
      * destruct (is_silent _); simpl.
        -- exists pre. split; [exact Ho|]. left. now repeat split.
        -- destruct (AuthHelpers.is_string _ _); simpl.
           ++ exists pre. split; [exact Ho|]. left. now repeat split.
           ++ exists (pre ++ [CallOnError
                                "Access was denied. Please grant the required permissions."]).
              split; [simpl; rewrite Ho, <- app_assoc; reflexivity|].
              left. repeat split; auto.
              intros p. rewrite times_settled_app, Hpre. reflexivity.
      * apply failed_flow_effect with (pre := pre); auto.
    + unfold timer_fires. destruct (existsb _ _); simpl; [|quiet (@nil signal)].
      destruct (is_silent _); simpl; [|quiet (@nil signal)].
      quiet [CallOnSilentFail].
  - quiet (@nil signal).
Qed.

Lemma failed_flow_timers (flowType : option flow) (m : string) (s : service) (w : world) :
  armed (fst (_handleFailedFlow cb flowType m s w)) = armed s
  /\ next_timer (fst (_handleFailedFlow cb flowType m s w)) = next_timer s.
Proof.
  unfold _handleFailedFlow.
  destruct (settle_all_fields (fun p => Reject p m) s) as (_ & _ & _ & Ha & Ht).
  now destruct (is_silent flowType); simpl; rewrite Ha, Ht.
Qed.

Lemma step_timer_effect (e : event) (s : service) (w : world) :
  timer_effect s (fst (step cb onSignOut e s w)).
Proof.
  assert (Hsame : forall s' : service,
            armed s' = armed s -> next_timer s' = next_timer s -> timer_effect s s').
  { intros s' Ha Ht. exists (fun _ => true), false.
    now rewrite filter_all, app_nil_r, Ha, Ht. }
  assert (Harm : forall s' : service,
            armed s' = armed s ++ [next_timer s] ->
            next_timer s' = S (next_timer s) -> timer_effect s s').
  { intros s' Ha Ht. exists (fun _ => true), true. now rewrite filter_all, Ha, Ht. }
  destruct e as [| | |now|c|]; simpl.
  - now apply Hsame.
  - unfold signIn. destruct (_tokenClient s); now apply Hsame.
  - unfold silentRefresh. destruct (_tokenClient s); [now apply Harm | now apply Hsame].
  - unfold waitForToken. destruct (has_valid_token now s w); simpl; [now apply Hsame|].
    unfold silentRefresh.
    destruct (is_silent (_pendingFlowType s)); simpl; [now apply Hsame|].
    destruct (_tokenClient s); simpl; [now apply Harm | now apply Hsame].
  - destruct (clearSilentTimer_fields s) as (pre & f & _ & _ & _ & _ & Ha & Ht & _).
    assert (Hclear : forall s' : service,
              armed s' = armed (_clearSilentTimer s) ->
              next_timer s' = next_timer (_clearSilentTimer s) -> timer_effect s s').
    { intros s' Ha' Ht'. exists f, false. now rewrite app_nil_r, Ha', Ht', Ha, Ht. }
    destruct c as [now r | err | t]; simpl.
    + unfold _onTokenResponse. destruct (truthy_string (response_error r)).
      * apply Hclear; now rewrite ?(proj1 (failed_flow_timers _ _ _ _)),
                            ?(proj2 (failed_flow_timers _ _ _ _)).
      * match goal with
        | |- context [settle_all ?g ?x] =>
            destruct (settle_all_fields g x) as (_ & _ & _ & Ha1 & Ht1)
        end.
        apply Hclear; simpl; [now rewrite Ha1 | now rewrite Ht1].
    + unfold _onTokenError. destruct (AuthHelpers.isSilentAuthError err).
      * destruct (is_silent _); simpl; [now apply Hclear|].
        destruct (AuthHelpers.is_string _ _); simpl; now apply Hclear.
      * apply Hclear; now rewrite ?(proj1 (failed_flow_timers _ _ _ _)),
                            ?(proj2 (failed_flow_timers _ _ _ _)).
    + unfold timer_fires. destruct (existsb _ _); simpl; [|now apply Hsame].
      destruct (is_silent _); simpl;
        exists (fun x => negb (Nat.eqb x t)), false; now rewrite app_nil_r.
  - now apply Hsame.
Qed.

Lemma in_order_step (e : event) (s : service) (w : world) :
  in_order s -> in_order (fst (step cb onSignOut e s w)).
Proof.
  intros (Hnd & Hq & Hs & Hu & Hta & Htb).
  destruct (step_queue_effect e s w) as (l & Ho & Hcase).
  destruct (step_timer_effect e s w) as (f & b & Ha & Ht).
  set (s' := fst (step cb onSignOut e s w)) in *.
  unfold in_order.
  assert (Htimers : NoDup (armed s') /\ Forall (fun t => (t < next_timer s')%nat) (armed s')).
  { rewrite Ha, Ht. split.
    - apply NoDup_app.
      split; [now apply NoDup_ListNoDup, List.NoDup_filter, NoDup_ListNoDup|]. split.
      + intros t Hin Hin'. destruct b; [|now apply not_elem_of_nil in Hin'].
        apply list_elem_of_In in Hin. apply filter_In in Hin as [Hin _].
        apply list_elem_of_singleton in Hin'. subst t.
        rewrite Forall_forall in Htb. apply list_elem_of_In in Hin.
        specialize (Htb _ Hin). simpl in Htb. lia.
      + destruct b; [apply NoDup_singleton | apply NoDup_nil_2].
    - apply Forall_app. split.
      + apply Forall_forall. intros t Hin. apply list_elem_of_In in Hin.
        apply filter_In in Hin as [Hin _].
        rewrite Forall_forall in Htb. apply list_elem_of_In in Hin.
        specialize (Htb _ Hin). simpl in Htb. destruct b; lia.
      + destruct b; [|constructor]. constructor; [lia | constructor]. }
  destruct Htimers as (Ht1 & Ht2).
  destruct Hcase as [(Hn & Hw & Hl) | [(Hn & Hw & Hl) | (Hn & Hw & Hl)]];
    rewrite Hn, Hw, Ho.
  - repeat split; auto.
    + now apply Hq.
    + rewrite times_settled_app, Hl. destruct (Hq p H0) as (_ & ->). reflexivity.
    + intros p Hp Hnin. rewrite times_settled_app, Hl, (Hs p Hp Hnin). reflexivity.
    + intros p Hp. rewrite times_settled_app, Hl, (Hu p Hp). reflexivity.
  - repeat split; auto.
    + apply NoDup_app. split; [exact Hnd|]. split; [|apply NoDup_singleton].
      intros p Hin Hin'. apply list_elem_of_singleton in Hin'. subst p.
      apply list_elem_of_In in Hin. destruct (Hq _ Hin) as (Hlt & _). lia.
    + apply in_app_or in H0 as [Hin | [<- | []]]; [|lia].
      destruct (Hq _ Hin) as (Hlt & _). lia.
    + rewrite times_settled_app, Hl.
      apply in_app_or in H0 as [Hin | [<- | []]].
      * destruct (Hq _ Hin) as (_ & ->). reflexivity.
      * rewrite (Hu (next_promise s)) by lia. reflexivity.
    + intros p Hp Hnin. rewrite times_settled_app, Hl.
      assert (Hp' : (p < next_promise s)%nat).
      { destruct (Nat.eq_dec p (next_promise s)) as [->|Hne]; [|lia].
        destruct Hnin. apply in_or_app. right. now left. }
      rewrite (Hs p Hp'); [reflexivity|].
      intros Hin. apply Hnin, in_or_app. now left.
    + intros p Hp. rewrite times_settled_app, Hl, (Hu p) by lia. reflexivity.
  - repeat split; auto.
    + apply NoDup_nil_2.
    + destruct H0.
    + destruct H0.
    + intros p Hp _. rewrite times_settled_app, Hl.
      destruct (in_dec Nat.eq_dec p (_tokenWaiters s)) as [Hin|Hnin].
      * destruct (Hq _ Hin) as (_ & ->). now rewrite occurrences_NoDup.
      * rewrite (Hs p Hp Hnin), occurrences_absent by exact Hnin. reflexivity.
    + intros p Hp. rewrite times_settled_app, Hl, (Hu p Hp).
      rewrite occurrences_absent; [reflexivity|].
      intros Hin. destruct (Hq _ Hin) as (Hlt & _). lia.
Qed.

Lemma in_order_initial : in_order initial.
Proof.
  unfold in_order, initial; simpl.
  split; [apply NoDup_nil_2|]. split; [intros p []|].
  split; [intros p Hp; lia|]. split; [reflexivity|].
  split; [apply NoDup_nil_2 | constructor].
Qed.

Lemma in_order_steps (es : list event) :
  forall (s : service) (w : world),
    in_order s -> in_order (fst (steps cb onSignOut es s w)).
Proof.
  induction es as [|e es IH]; intros s w Hs; [exact Hs|].
  simpl. pose proof (in_order_step e s w Hs) as H1.
  destruct (step cb onSignOut e s w) as [s1 w1]. now apply IH.
Qed.

(** X12.  Whatever is called on the service and whatever calls back, in any
    order since the module was loaded: every promise that [waitForToken]
    has handed out is either still in the queue and not settled, or out
    of the queue and settled exactly once; no other promise is ever
    settled; and the timers still armed are distinct handles that were
    given out before. *)
Theorem promises_settle_at_most_once (es : list event) (w : world) (p : nat) :
  let s := fst (steps cb onSignOut es initial w) in
  (times_settled p (out s) <= 1)%nat
  /\ (In p (_tokenWaiters s) <-> (p < next_promise s)%nat /\ times_settled p (out s) = 0%nat)
  /\ ((next_promise s <= p)%nat -> times_settled p (out s) = 0%nat)
  /\ NoDup (_tokenWaiters s)
  /\ NoDup (armed s)
  /\ Forall (fun t => (t < next_timer s)%nat) (armed s).
Proof.
  pose proof (in_order_steps es initial w in_order_initial)
    as (Hnd & Hq & Hs & Hu & Hta & Htb).
  set (s := fst (steps cb onSignOut es initial w)) in *. simpl.
  assert (Hle : (times_settled p (out s) <= 1)%nat).
  { destruct (Nat.lt_ge_cases p (next_promise s)) as [Hlt|Hge].
    - destruct (in_dec Nat.eq_dec p (_tokenWaiters s)) as [Hin|Hnin].
      + destruct (Hq _ Hin) as (_ & ->). lia.
      + rewrite (Hs p Hlt Hnin). lia.
    - rewrite (Hu p Hge). lia. }
  split; [exact Hle|]. split; [|auto].
  split; [apply Hq|]. intros (Hlt & H0).
  destruct (in_dec Nat.eq_dec p (_tokenWaiters s)) as [Hin|Hnin]; [exact Hin|].
  rewrite (Hs p Hlt Hnin) in H0. discriminate.
Qed.

(** X13.  A failure goes to the callback of the flow that failed.  While a
    silent flow is pending, no conclusion calls the error callback;
    while none is, no conclusion calls the silent-failure callback; and
    one conclusion calls at most one of the two, at most once. *)
Theorem failures_follow_the_flow_type (c : conclusion) (s : service) (w : world) :
  exists new : list signal,
    out (fst (conclude cb c s w)) = out s ++ new
    /\ (_pendingFlowType s = Some silent ->
        Forall (fun x => is_error_call x = false) new)
    /\ (_pendingFlowType s <> Some silent ->
        Forall (fun x => is_silent_fail_call x = false) new)
    /\ (length (List.filter is_error_call new)
        + length (List.filter is_silent_fail_call new) <= 1)%nat.
Proof.
  assert (Hmap : forall (f : nat -> signal) (ps : list nat),
            (forall q : nat, is_error_call (f q) = false
                             /\ is_silent_fail_call (f q) = false) ->
            Forall (fun x => is_error_call x = false) (map f ps)
            /\ Forall (fun x => is_silent_fail_call x = false) (map f ps)
            /\ List.filter is_error_call (map f ps) = []
            /\ List.filter is_silent_fail_call (map f ps) = []).
  { intros f ps Hf. induction ps as [|q ps (IH1 & IH2 & IH3 & IH4)]; simpl.
    - repeat split; constructor.
    - destruct (Hf q) as (E1 & E2). rewrite E1, E2.
      repeat split; auto; constructor; auto. }
  assert (Hsil : forall f : option flow, f <> Some silent -> is_silent f = false).
  { intros [[|]|] Hf; try reflexivity. now destruct Hf. }
  assert (Hpre : exists pre : list signal,
            out (_clearSilentTimer s) = out s ++ pre
            /\ Forall (fun x => is_error_call x = false) pre
            /\ Forall (fun x => is_silent_fail_call x = false) pre
            /\ List.filter is_error_call pre = []
            /\ List.filter is_silent_fail_call pre = []
            /\ _tokenWaiters (_clearSilentTimer s) = _tokenWaiters s
            /\ _pendingFlowType (_clearSilentTimer s) = _pendingFlowType s).
  { unfold _clearSilentTimer. destruct (_silentRefreshTimer s) as [t|]; simpl.
    - exists [ClearTimeout t]. repeat split; auto; repeat constructor.
    - exists []. rewrite app_nil_r. repeat split; auto; constructor. }
  destruct Hpre as (pre & Ho & Hp1 & Hp2 & Hp3 & Hp4 & Hw & Hp).
  assert (Hfail : forall m : string,
            exists new : list signal,
              out (fst (_handleFailedFlow cb (_pendingFlowType (_clearSilentTimer s)) m
                          (set_pendingFlowType None (_clearSilentTimer s)) w))
              = out s ++ new
              /\ (_pendingFlowType s = Some silent ->
                  Forall (fun x => is_error_call x = false) new)
              /\ (_pendingFlowType s <> Some silent ->
                  Forall (fun x => is_silent_fail_call x = false) new)
              /\ (length (List.filter is_error_call new)
                  + length (List.filter is_silent_fail_call new) <= 1)%nat).
  { intros m. unfold _handleFailedFlow.
    destruct (settle_all_fields (fun p => Reject p m)
                (set_pendingFlowType None (_clearSilentTimer s))) as (Ho1 & _).
    simpl in Ho1. rewrite Ho, Hw in Ho1.
    destruct (Hmap (fun p => Reject p m) (_tokenWaiters s)) as (M1 & M2 & M3 & M4);
      [now split|].
    rewrite Hp.
    exists (pre ++ map (fun p => Reject p m) (_tokenWaiters s)
            ++ [if is_silent (_pendingFlowType s) then CallOnSilentFail else CallOnError m]).
    split; [destruct (is_silent (_pendingFlowType s)); simpl;
            rewrite Ho1, <- !app_assoc; reflexivity|].
    split; [intros E; rewrite E; simpl; rewrite !Forall_app; repeat split; auto;
            repeat constructor|].
    split; [intros E; rewrite (Hsil _ E); rewrite !Forall_app; repeat split; auto;
            repeat constructor|].
    rewrite !List.filter_app, Hp3, Hp4, M3, M4.
    now destruct (is_silent (_pendingFlowType s)). }
  destruct c as [now r | err | t]; simpl.
  - unfold _onTokenResponse. destruct (truthy_string (response_error r)); [apply Hfail|].
    match goal with
    | |- context [settle_all ?g ?x] => destruct (settle_all_fields g x) as (Ho1 & _)
    end.
    simpl in Ho1. rewrite Ho, Hw in Ho1.
    destruct (Hmap (fun p => Resolve p (access_token r)) (_tokenWaiters s))
      as (M1 & M2 & M3 & M4); [now split|].
    exists (pre ++ map (fun p => Resolve p (access_token r)) (_tokenWaiters s)
            ++ [CallOnSignIn (access_token r)]).
    simpl. split; [rewrite Ho1, <- !app_assoc; reflexivity|].
    split; [intros _; rewrite !Forall_app; repeat split; auto; repeat constructor|].
    split; [intros _; rewrite !Forall_app; repeat split; auto; repeat constructor|].
    rewrite !List.filter_app, Hp3, Hp4, M3, M4. simpl. lia.
  - unfold _onTokenError. destruct (AuthHelpers.isSilentAuthError err); [|apply Hfail].
    rewrite Hp. destruct (is_silent (_pendingFlowType s)) eqn:Es; simpl.
    + exists pre. rewrite Hp3, Hp4. repeat split; auto.
    + destruct (AuthHelpers.is_string _ _); simpl.
      * exists pre. rewrite Hp3, Hp4. repeat split; auto.
      * exists (pre ++ [CallOnError
                          "Access was denied. Please grant the required permissions."]).
        split; [rewrite Ho, <- app_assoc; reflexivity|].
        split; [intros E; rewrite E in Es; discriminate|].
        split; [intros _; rewrite Forall_app; split; auto; repeat constructor|].
        rewrite !List.filter_app, Hp3, Hp4. simpl. lia.
  - unfold timer_fires. destruct (existsb _ _); simpl.
    + destruct (is_silent (_pendingFlowType s)) eqn:Es; simpl.
      * exists [CallOnSilentFail]. split; [reflexivity|].
        split; [intros _; repeat constructor|].
        split; [|simpl; lia].
        intros E. rewrite (Hsil _ E) in Es. discriminate.
      * exists []. rewrite app_nil_r. repeat split; auto; constructor.
    + exists []. rewrite app_nil_r. repeat split; auto; constructor.
Qed.

(** X14.  The token of a successful response is served for as long as the
    stored expiry says, which is sixty seconds short of the lifetime the
    provider gave: until then the service holds a valid token and
    [waitForToken] answers with it at once, queueing nobody and starting
    no flow; after that the token counts as expired.  The sign-in
    callback is one that leaves the tab-scoped storage alone. *)
Theorem fresh_token_is_served_until_expiry (now later : Z) (r : response)
  (s : service) (w : world) :
  truthy_string (response_error r) = false ->
  access_token r <> EmptyString ->
  js_String (now + (expires_in r - 60) * 1000) <> EmptyString ->
  js_Number (js_String (now + (expires_in r - 60) * 1000))
  = Some (now + (expires_in r - 60) * 1000) ->
  (forall (tok : string) (w0 : world),
      sessionStorage (onSignIn cb tok w0) = sessionStorage w0) ->
  let '(s1, w1) := _onTokenResponse cb now r s w in
  Storage.getAccessToken w1 = Some (access_token r)
  /\ has_valid_token later s1 w1 = (later <=? now + (expires_in r - 60) * 1000)
  /\ (later <= now + (expires_in r - 60) * 1000 ->
      waitForToken later s1 w1 = (Immediate (access_token r), s1, w1))
  /\ (now + (expires_in r - 60) * 1000 < later ->
      Storage.isTokenExpired later w1 = true
      /\ exists s2 : service,
           waitForToken later s1 w1 = (Queued (next_promise s1), s2, w1)).
Proof.
  intros Hok Htok Hstr Hnum Hcb.
  unfold _onTokenResponse. rewrite Hok.
  match goal with
  | |- context [settle_all ?g ?x] => set (s4 := settle_all g x)
  end.
  assert (Hacc : _accessToken s4 = Some (access_token r)).
  { unfold s4, settle_all.
    assert (Hfold : forall (ps : list nat) (s0 : service),
              _accessToken (fold_left (fun acc p => emit (Resolve p (access_token r)) acc)
                              ps s0) = _accessToken s0).
    { induction ps as [|q ps IH]; intros s0; [reflexivity|]. simpl. now rewrite IH. }
    now rewrite Hfold. }
  set (e := now + (expires_in r - 60) * 1000) in *.
  set (w1 := with_sessionStorage _ w).
  assert (Hss : sessionStorage (onSignIn cb (access_token r) w1)
                = <["google_token_expires_at"%string := Text (js_String e)]>
                    (<["google_access_token"%string := Text (access_token r)]>
                       (sessionStorage w))).
  { now rewrite Hcb. }
  assert (Hexp : forall t : Z,
            isTokenExpired t (onSignIn cb (access_token r) w1) = (t >? e)).
  { intros t. unfold isTokenExpired. rewrite Hss, lookup_insert_eq. simpl.
    destruct (String.eqb_spec (js_String e) EmptyString); [contradiction|].
    now rewrite Hnum. }
  assert (Hvalid : has_valid_token later (emit (CallOnSignIn (access_token r)) s4)
                     (onSignIn cb (access_token r) w1) = (later <=? e)).
  { unfold has_valid_token. simpl. rewrite Hacc, Hexp. simpl.
    destruct (String.eqb_spec (access_token r) EmptyString); [contradiction|].
    simpl. rewrite Z.gtb_ltb, Z.leb_antisym. reflexivity. }
  split.
  { unfold Storage.getAccessToken, Storage.SESSION_STORAGE.ACCESS_TOKEN.
    rewrite Hss, lookup_insert_ne by discriminate. now rewrite lookup_insert_eq. }
  split; [exact Hvalid|]. split.
  - intros Hle. unfold waitForToken. rewrite Hvalid.
    destruct (Z.leb_spec later e); [|lia]. simpl. now rewrite Hacc.
  - intros Hlt. split.
    + change (Storage.isTokenExpired later (onSignIn cb (access_token r) w1))
        with (isTokenExpired later (onSignIn cb (access_token r) w1)).
      rewrite Hexp. apply Z.gtb_lt. lia.
    + destruct (TokenLifecycle.waitForToken_invalid later
                  (emit (CallOnSignIn (access_token r)) s4)
                  (onSignIn cb (access_token r) w1)) as (s2 & E & _).
      * rewrite Hvalid. apply Z.leb_gt. exact Hlt.
      * exists s2. exact E.
Qed.

(** X15.  [silentRefresh] arms a new timer and keeps the handle of that one
    only: a timer armed before stays armed.  When the earlier timer
    fires while the new flow is pending, it ends the new flow as a
    silent failure, and the timer of the new flow is still running. *)
Theorem silentRefresh_keeps_earlier_timers (t : nat) (s : service) (w : world) :
  _tokenClient s = true ->
  In t (armed s) ->
  (t < next_timer s)%nat ->
  let '(s1, w1) := silentRefresh s w in
  let '(s2, w2) := timer_fires cb t s1 w1 in
  armed s1 = armed s ++ [next_timer s]
  /\ _silentRefreshTimer s1 = Some (next_timer s)
  /\ _pendingFlowType s1 = Some silent
  /\ _pendingFlowType s2 = None
  /\ out s2 = out s1 ++ [CallOnSilentFail]
  /\ w2 = onSilentFail cb w
  /\ In (next_timer s) (armed s2).
Proof.
  intros Hc Hin Hlt. unfold silentRefresh. rewrite Hc.
  unfold timer_fires. simpl.
  assert (E : existsb (Nat.eqb t) (armed s ++ [next_timer s]) = true).
  { apply existsb_exists. exists t. split; [|apply Nat.eqb_refl].
    apply in_or_app. now left. }
  rewrite E. simpl. repeat split; auto.
  unfold without_timer. apply filter_In. split.
  - apply in_or_app. right. now left.
  - apply negb_true_iff, Nat.eqb_neq. lia.
Qed.

(** X16.  Before the token client exists nothing is asked of the identity
    provider and no timer is armed, whatever is called: [signIn] reports
    that the API is still loading, [silentRefresh] returns at once, and
    [waitForToken] queues its caller without starting a flow. *)
Theorem nothing_requested_before_init (es : list event) :
  forall (s : service) (w : world),
    _tokenClient s = false ->
    forallb (fun e => negb (is_init e)) es = true ->
    let s' := fst (steps cb onSignOut es s w) in
    _tokenClient s' = false
    /\ flows_started (out s') = flows_started (out s)
    /\ next_timer s' = next_timer s
    /\ (next_promise s <= next_promise s')%nat.
Proof.
  induction es as [|e es IH]; intros s w Hc Hes; [simpl; auto|].
  simpl in Hes. apply andb_true_iff in Hes as [He Hes].
  assert (Hstep : _tokenClient (fst (step cb onSignOut e s w)) = false
                  /\ flows_started (out (fst (step cb onSignOut e s w)))
                     = flows_started (out s)
                  /\ next_timer (fst (step cb onSignOut e s w)) = next_timer s
                  /\ (next_promise s <= next_promise (fst (step cb onSignOut e s w)))%nat).
  { assert (Hfail : forall (f : option flow) (m : string) (s0 : service),
              let s' := fst (_handleFailedFlow cb f m s0 w) in
              _tokenClient s' = _tokenClient s0
              /\ flows_started (out s') = flows_started (out s0)
              /\ next_timer s' = next_timer s0
              /\ next_promise s' = next_promise s0).
    { intros f m s0. unfold _handleFailedFlow, settle_all.
      assert (Hfold : forall (ps : list nat) (s1 : service),
                let s' := fold_left (fun acc p => emit (Reject p m) acc) ps s1 in
                _tokenClient s' = _tokenClient s1
                /\ flows_started (out s') = flows_started (out s1)
                /\ next_timer s' = next_timer s1
                /\ next_promise s' = next_promise s1).
      { induction ps as [|q ps IHps]; intros s1; simpl; [auto|].
        destruct (IHps (emit (Reject q m) s1)) as (F1 & F2 & F3 & F4).
        rewrite F1, F2, F3, F4. simpl.
        rewrite TokenLifecycle.flows_started_app. simpl. repeat split; auto. }
      destruct (Hfold (_tokenWaiters s0) (set_tokenWaiters [] s0)) as (F1 & F2 & F3 & F4).
      destruct (is_silent f); simpl; rewrite F1, F3, F4,
        TokenLifecycle.flows_started_app, F2; simpl; repeat split; auto. }
    assert (Hclr : _tokenClient (_clearSilentTimer s) = false
                   /\ flows_started (out (_clearSilentTimer s)) = flows_started (out s)
                   /\ next_timer (_clearSilentTimer s) = next_timer s
                   /\ next_promise (_clearSilentTimer s) = next_promise s).
    { unfold _clearSilentTimer. destruct (_silentRefreshTimer s); simpl;
        rewrite ?TokenLifecycle.flows_started_app; simpl; repeat split; auto. }
    destruct Hclr as (C1 & C2 & C3 & C4).
    destruct e as [| | |now|c|]; simpl in *; try discriminate.
    - unfold signIn. rewrite Hc. simpl.
      rewrite TokenLifecycle.flows_started_app. simpl. repeat split; auto.
    - unfold silentRefresh. rewrite Hc. simpl. repeat split; auto.
    - unfold waitForToken, silentRefresh. simpl. rewrite Hc.
      destruct (has_valid_token now s w); simpl; [repeat split; auto|].
      destruct (is_silent (_pendingFlowType s)); simpl; repeat split; auto.
    - destruct c as [now r | err | t]; simpl.
      + unfold _onTokenResponse. destruct (truthy_string (response_error r)).
        * match goal with
          | |- context [_handleFailedFlow cb ?f ?m ?s0 w] =>
              destruct (Hfail f m s0) as (F1 & F2 & F3 & F4)
          end.
          rewrite F1, F2, F3, F4. simpl. rewrite C1, C2, C3, C4. repeat split; auto.
        * unfold settle_all.
          assert (Hfold : forall (ps : list nat) (s1 : service),
                    let s' := fold_left (fun acc p => emit (Resolve p (access_token r)) acc)
                                ps s1 in
                    _tokenClient s' = _tokenClient s1
                    /\ flows_started (out s') = flows_started (out s1)
                    /\ next_timer s' = next_timer s1
                    /\ next_promise s' = next_promise s1).
          { induction ps as [|q ps IHps]; intros s1; simpl; [auto|].
            destruct (IHps (emit (Resolve q (access_token r)) s1)) as (F1 & F2 & F3 & F4).
            rewrite F1, F2, F3, F4. simpl.
            rewrite TokenLifecycle.flows_started_app. simpl. repeat split; auto. }
          match goal with
          | |- context [fold_left ?g ?ps ?s1] =>
              destruct (Hfold ps s1) as (F1 & F2 & F3 & F4)
          end.
          simpl in F1, F2, F3, F4 |- *.
          rewrite F1, F3, F4, TokenLifecycle.flows_started_app, F2. simpl.
          rewrite C1, C2, C3, C4. repeat split; auto.
      + unfold _onTokenError. destruct (AuthHelpers.isSilentAuthError err).
        * destruct (is_silent _); simpl; [rewrite C1, C2, C3, C4; repeat split; auto|].
          destruct (AuthHelpers.is_string _ _); simpl;
            rewrite ?TokenLifecycle.flows_started_app; simpl;
            rewrite C1, C2, C3, C4; repeat split; auto.
        * match goal with
          | |- context [_handleFailedFlow cb ?f ?m ?s0 w] =>
              destruct (Hfail f m s0) as (F1 & F2 & F3 & F4)
          end.
          rewrite F1, F2, F3, F4. simpl. rewrite C1, C2, C3, C4. repeat split; auto.
      + unfold timer_fires. destruct (existsb _ _); simpl; [|repeat split; auto].
        destruct (is_silent _); simpl; rewrite ?TokenLifecycle.flows_started_app; simpl;
          repeat split; auto.
    - repeat split; auto. }
  destruct Hstep as (S1 & S2 & S3 & S4).
  simpl. destruct (step cb onSignOut e s w) as [s1 w1]. simpl in *.
  destruct (IH s1 w1 S1 Hes) as (I1 & I2 & I3 & I4).
  repeat split; auto; try congruence. lia.
Qed.

End WithRuntime.

(** A token for an hour, received at 1700000000000: it is served up to
    1700003540000 and not one millisecond longer. *)
Lemma fresh_token_sample :
  (let '(s1, w1) :=
     _onTokenResponse (H := Sample.runtime) Sample.app_callbacks 1700000000000
       Scenario.hour_token Sample.service_ready Sample.blank in
   waitForToken (H := Sample.runtime) 1700003540000 s1 w1 = (Immediate "tok", s1, w1))
  /\ (let '(s1, w1) :=
        _onTokenResponse (H := Sample.runtime) Sample.app_callbacks 1700000000000
          Scenario.hour_token Sample.service_ready Sample.blank in
      has_valid_token (H := Sample.runtime) 1700003540001 s1 w1 = false).
Proof.
  split.
  - pose proof (fresh_token_is_served_until_expiry (H := Sample.runtime)
                  Sample.app_callbacks 1700000000000 1700003540000 Scenario.hour_token
                  Sample.service_ready Sample.blank) as P.
    destruct (_onTokenResponse (H := Sample.runtime) Sample.app_callbacks 1700000000000
                Scenario.hour_token Sample.service_ready Sample.blank) as [s1 w1].
    destruct P as (_ & _ & Hserve & _);
      [reflexivity | discriminate | discriminate | reflexivity | reflexivity |].
    apply Hserve. vm_compute. discriminate.
  - pose proof (fresh_token_is_served_until_expiry (H := Sample.runtime)
                  Sample.app_callbacks 1700000000000 1700003540001 Scenario.hour_token
                  Sample.service_ready Sample.blank) as P.
    destruct (_onTokenResponse (H := Sample.runtime) Sample.app_callbacks 1700000000000
                Scenario.hour_token Sample.service_ready Sample.blank) as [s1 w1].
    destruct P as (_ & Hvalid & _);
      [reflexivity | discriminate | discriminate | reflexivity | reflexivity |].
    rewrite Hvalid. reflexivity.
Defined.

(** A second silent refresh while timer 0 of the first is armed: timer 0
    fires and fails the second flow, whose timer 1 is still armed. *)
Lemma silentRefresh_twice_sample :
  let '(s1, w1) := silentRefresh (H := Sample.runtime) Scenario.refreshing Sample.blank in
  let '(s2, w2) := timer_fires Sample.app_callbacks 0 s1 w1 in
  armed s1 = armed Scenario.refreshing ++ [next_timer Scenario.refreshing]
  /\ _silentRefreshTimer s1 = Some (next_timer Scenario.refreshing)
  /\ _pendingFlowType s1 = Some silent
  /\ _pendingFlowType s2 = None
  /\ out s2 = out s1 ++ [CallOnSilentFail]
  /\ w2 = onSilentFail Sample.app_callbacks Sample.blank
  /\ In (next_timer Scenario.refreshing) (armed s2).
Proof.
  apply (silentRefresh_keeps_earlier_timers (H := Sample.runtime) Sample.app_callbacks
           0 Scenario.refreshing Sample.blank).
  - reflexivity.
  - left. reflexivity.
  - vm_compute. lia.
Defined.

(** The page calls into the service before [init] has finished. *)
Lemma nothing_requested_sample :
  let s' := fst (steps (H := Sample.runtime) Sample.app_callbacks
                   AuthLifecycle.onSignOut
                   [CallSignIn; CallWaitForToken 0; CallSilentRefresh;
                    Concludes (TimerFires 0)]
                   initial Sample.blank) in
  _tokenClient s' = false
  /\ flows_started (out s') = flows_started (out initial)
  /\ next_timer s' = next_timer initial
  /\ (next_promise initial <= next_promise s')%nat.
Proof.
  apply (nothing_requested_before_init (H := Sample.runtime) Sample.app_callbacks
           AuthLifecycle.onSignOut
           [CallSignIn; CallWaitForToken 0; CallSilentRefresh; Concludes (TimerFires 0)]
           initial Sample.blank); reflexivity.
Defined.

End AuthFlowFacts.

Module AuthLifecycleFacts.
Import AuthLifecycle.

Section WithRuntime.
Context `{Runtime}.

Lemma silentRefresh_reads_the_hint (s : AuthService.service) (w w' : world) :
  localStorage w' = localStorage w ->
  fst (AuthService.silentRefresh s w') = fst (AuthService.silentRefresh s w)
  /\ snd (AuthService.silentRefresh s w') = w'.
Proof.
  intros Hl. unfold AuthService.silentRefresh. rewrite Hl.
  now destruct (AuthService._tokenClient s).
Qed.

Lemma onAuthReady_without_store (now : Z) (s : AuthService.service) (w : world) :
  truthy_string (Storage.getSheetId w) = false ->
  onAuthReady now s w = (s, AuthController._toUnauthenticated w).
Proof. intros Hs. unfold onAuthReady. simpl. now rewrite Hs. Qed.

(** X17.  What start-up decides from the stored session.  [onAuthReady]
    writes to neither storage area.  With no store id remembered it goes
    to the sign-in screen and asks nothing of the identity provider.
    With one, it takes the id into the state, marks the session as
    restoring and starts a silent refresh; the cached records are taken
    into the state when there are any, and the main screen shows them.
    The stored token is taken into the state only when it is there and
    its expiry has not passed; otherwise the token in the state is left
    as it is. *)
Theorem onAuthReady_decides_from_the_snapshot (now : Z) (s : AuthService.service)
  (w : world) :
  let '(s', w') := onAuthReady now s w in
  localStorage w' = localStorage w
  /\ sessionStorage w' = sessionStorage w
  /\ (truthy_string (Storage.getSheetId w) = false ->
      s' = s
      /\ State.authStatus (STATE w') = State.unauthenticated
      /\ State.currentScreen (STATE w') = "auth"%string
      /\ State.accessToken (STATE w') = State.accessToken (STATE w)
      /\ State.spreadsheetId (STATE w') = State.spreadsheetId (STATE w)
      /\ State.expenses (STATE w') = State.expenses (STATE w))
  /\ (truthy_string (Storage.getSheetId w) = true ->
      s' = fst (AuthService.silentRefresh s w)
      /\ State.authStatus (STATE w') = State.restoring
      /\ State.spreadsheetId (STATE w') = Storage.getSheetId w
      /\ State.expenses (STATE w')
         = (if (0 <? length (Storage.getExpenses w))%nat
            then Storage.getExpenses w
            else State.expenses (STATE w))
      /\ State.accessToken (STATE w')
         = (if truthy_string (Storage.getAccessToken w)
               && negb (Storage.isTokenExpired now w)
            then Storage.getAccessToken w
            else State.accessToken (STATE w))
      /\ State.currentScreen (STATE w')
         = (if (0 <? length (Storage.getExpenses w))%nat then "main"
            else if truthy_string (Storage.getAccessToken w)
                    && negb (Storage.isTokenExpired now w)
                 then "setup"
                 else "auth")%string).
Proof.
  unfold onAuthReady. simpl.
  destruct (Storage.getSheetId w) as [sid|] eqn:Hs; simpl.
  2:{ repeat split; auto; discriminate. }
  destruct (sid =? EmptyString)%string eqn:He; simpl.
  { repeat split; auto; discriminate. }
  assert (Hrun : forall w2 : world,
            localStorage w2 = localStorage w ->
            sessionStorage w2 = sessionStorage w ->
            let '(s', w') := AuthService.silentRefresh s w2 in
            localStorage w' = localStorage w
            /\ sessionStorage w' = sessionStorage w
            /\ s' = fst (AuthService.silentRefresh s w)
            /\ STATE w' = STATE w2).
  { intros w2 Hl Hss.
    destruct (silentRefresh_reads_the_hint s w w2 Hl) as (E1 & E2).
    destruct (AuthService.silentRefresh s w2) as [s' w']. simpl in *. now subst. }
  destruct (Storage.getAccessToken w) as [tok|] eqn:Ht; simpl.
  - destruct (tok =? EmptyString)%string eqn:Hte; simpl.
    + unfold _startSilentRestore.
      destruct (0 <? length (Storage.getExpenses w))%nat eqn:Hn;
        match goal with
        | |- context [AuthService.silentRefresh s ?w2] =>
            pose proof (Hrun w2 eq_refl eq_refl) as P;
            destruct (AuthService.silentRefresh s w2) as [s' w']
        end;
        destruct P as (P1 & P2 & P3 & P4); rewrite P4; simpl;
        repeat split; auto; discriminate.
    + destruct (Storage.isTokenExpired now w) eqn:Hx; simpl.
      * unfold _startSilentRestore.
        destruct (0 <? length (Storage.getExpenses w))%nat eqn:Hn;
          match goal with
          | |- context [AuthService.silentRefresh s ?w2] =>
              pose proof (Hrun w2 eq_refl eq_refl) as P;
              destruct (AuthService.silentRefresh s w2) as [s' w']
          end;
          destruct P as (P1 & P2 & P3 & P4); rewrite P4; simpl;
          repeat split; auto; discriminate.
      * unfold _restoreSession.
        destruct (0 <? length (Storage.getExpenses w))%nat eqn:Hn;
          match goal with
          | |- context [AuthService.silentRefresh s ?w2] =>
              pose proof (Hrun w2 eq_refl eq_refl) as P;
              destruct (AuthService.silentRefresh s w2) as [s' w']
          end;
          destruct P as (P1 & P2 & P3 & P4); rewrite P4; simpl;
          repeat split; auto; discriminate.
  - unfold _startSilentRestore.
    destruct (0 <? length (Storage.getExpenses w))%nat eqn:Hn;
      match goal with
      | |- context [AuthService.silentRefresh s ?w2] =>
          pose proof (Hrun w2 eq_refl eq_refl) as P;
          destruct (AuthService.silentRefresh s w2) as [s' w']
      end;
      destruct P as (P1 & P2 & P3 & P4); rewrite P4; simpl;
      repeat split; auto; discriminate.
Qed.

(** X18.  Signing out leaves nothing of the session.  Once [signOut] has
    awaited the revocation, the service holds no token and no pending
    flow, the state singleton is the one of a fresh page except that the
    session is marked unauthenticated, every key of the storage service
    is gone, and a start-up after that goes to the sign-in screen
    without asking anything of the identity provider. *)
Theorem signOut_leaves_nothing_behind (now : Z) (s : AuthService.service) (w : world) :
  let '(s1, w1) := AuthFlow.signOut_completes onSignOut s w in
  AuthService._accessToken s1 = None
  /\ AuthService._pendingFlowType s1 = None
  /\ AuthService.has_valid_token now s1 w1 = false
  /\ AuthService.out s1 = AuthService.out s
  /\ STATE w1 = State.set_authStatus State.unauthenticated State.initial
  /\ Storage.getStoredSession now w1
     = {| Storage.accessToken := None; Storage.sheetId := None; Storage.expenses := [];
          Storage.loginHint := EmptyString; Storage.tokenExpired := true |}
  /\ Storage.getNumericSheetId w1 = None
  /\ (let '(s2, w2) := onAuthReady now s1 w1 in
      s2 = s1
      /\ State.currentScreen (STATE w2) = "auth"%string
      /\ State.authStatus (STATE w2) = State.unauthenticated).
Proof.
  unfold AuthFlow.signOut_completes.
  set (w0 := with_sessionStorage _ w).
  assert (Hsnap : Storage.getStoredSession now (onSignOut w0)
                  = {| Storage.accessToken := None; Storage.sheetId := None;
                       Storage.expenses := []; Storage.loginHint := EmptyString;
                       Storage.tokenExpired := true |}
                  /\ Storage.getNumericSheetId (onSignOut w0) = None).
  { unfold onSignOut.
    set (w1 := with_STATE _ w0).
    destruct (StorageFacts.clearAll_snapshot now w1) as (E1 & E2).
    split; [rewrite <- E1 | rewrite <- E2]; reflexivity. }
  destruct Hsnap as (Hsnap & Hnum).
  split; [reflexivity|]. split; [reflexivity|]. split; [reflexivity|].
  split; [reflexivity|]. split; [reflexivity|].
  split; [exact Hsnap|]. split; [exact Hnum|].
  assert (Hsid : truthy_string (Storage.getSheetId (onSignOut w0)) = false).
  { change (truthy_string (Storage.sheetId (Storage.getStoredSession now (onSignOut w0)))
            = false).
    now rewrite Hsnap. }
  rewrite (onAuthReady_without_store now _ _ Hsid). now repeat split.
Qed.

End WithRuntime.

(** The page is reloaded on the signed-in browser of the samples, after
    the token has expired: the cached record is shown on the main screen
    and a silent refresh is started with the login hint. *)
Lemma onAuthReady_sample :
  onAuthReady (H := Sample.runtime) 1700000000001 Sample.service_ready Sample.signed_in
  = ({| AuthService._tokenClient := true; AuthService._accessToken := None;
        AuthService._pendingFlowType := Some AuthService.silent;
        AuthService._silentRefreshTimer := Some 0%nat;
        AuthService._tokenWaiters := []; AuthService.armed := [0%nat];
        AuthService.next_timer := 1%nat; AuthService.next_promise := 0%nat;
        AuthService.out :=
          [AuthService.SetTimeout 0 5000;
           AuthService.RequestAccessToken EmptyString (Some "me@example.org"%string)] |},
     Ui.renderUI
       (Ui.showScreen "main"
          (Ui.setNavEnabled true
             (with_STATE (State.set_expenses [Sample.lunch]) Sample.signed_in))))
  /\ (let '(s', w') :=
        onAuthReady (H := Sample.runtime) 1700000000001 Sample.service_ready
          Sample.signed_in in
      State.accessToken (STATE w') = None
      /\ State.currentScreen (STATE w') = "main"%string).
Proof.
  split; [reflexivity|].
  pose proof (onAuthReady_decides_from_the_snapshot (H := Sample.runtime) 1700000000001
                Sample.service_ready Sample.signed_in) as P.
  destruct (onAuthReady (H := Sample.runtime) 1700000000001 Sample.service_ready
              Sample.signed_in) as [s' w'].
  destruct P as (_ & _ & _ & P). destruct (P eq_refl) as (_ & _ & _ & _ & Ht & Hs).
  split; [rewrite Ht | rewrite Hs]; reflexivity.
Defined.

End AuthLifecycleFacts.

Module ExpenseRefreshFacts.
Import SheetsHelpers.

Local Arguments String.append : simpl never.

Section WithRuntime.
Context `{Runtime}.
Context {S : Type} (serve : S -> wait -> reply * S).

(** X19.  The records cached from the last visit are taken into the state
    only when a store id is remembered and the cache holds at least one
    record: records already in the state are never replaced by an empty
    cache, and nothing else of the world changes. *)
Theorem restoreCachedExpenses_takes_a_filled_cache (w : world) :
  let w' := ExpenseRefreshStorage.restoreCachedExpenses w in
  State.expenses (STATE w')
  = (if truthy_string (Storage.getSheetId w) && (0 <? length (Storage.getExpenses w))%nat
     then Storage.getExpenses w
     else State.expenses (STATE w))
  /\ (State.expenses (STATE w) <> [] -> State.expenses (STATE w') <> [])
  /\ localStorage w' = localStorage w
  /\ sessionStorage w' = sessionStorage w
  /\ page w' = page w
  /\ State.set_expenses (State.expenses (STATE w)) (STATE w') = STATE w.
Proof.
  unfold ExpenseRefreshStorage.restoreCachedExpenses.
  destruct (truthy_string (Storage.getSheetId w)); simpl.
  - destruct (Storage.getExpenses w) as [|e es] eqn:E; simpl;
      repeat split; auto; try discriminate; now destruct (STATE w).
  - repeat split; auto; now destruct (STATE w).
Qed.

(** X20.  The revision that parses the cache itself throws, and changes
    nothing, exactly when a store id is remembered and the cache is a
    text that is not empty and does not parse; the storage revision
    starts with the records in memory on such a cache.  Otherwise it
    returns; it never writes to the storage, does nothing without a
    remembered store id, and takes a cache that holds records into the
    state, as the storage revision does. *)
Theorem restoreCachedExpenses_throws_on_a_broken_cache (w : world) :
  let '(w', o) := ExpenseRefresh.restoreCachedExpenses w in
  (o <> Return tt <->
   truthy_string (Storage.getSheetId w) = true
   /\ exists cached : string,
        localStorage w !! STORAGE.EXPENSES = Some (Text cached)
        /\ cached <> EmptyString
        /\ JSON_parse cached = None)
  /\ (o <> Return tt ->
      w' = w /\ ExpenseRefreshStorage.restoreCachedExpenses w = w)
  /\ localStorage w' = localStorage w
  /\ sessionStorage w' = sessionStorage w
  /\ (truthy_string (Storage.getSheetId w) = false -> w' = w)
  /\ (o = Return tt ->
      truthy_string (Storage.getSheetId w) = true ->
      Storage.getExpenses w <> [] ->
      State.expenses (STATE w') = Storage.getExpenses w
      /\ w' = ExpenseRefreshStorage.restoreCachedExpenses w).
Proof.
  unfold ExpenseRefresh.restoreCachedExpenses, ExpenseRefreshStorage.restoreCachedExpenses,
    Storage.getSheetId, Storage.getExpenses.
  change STORAGE.SHEET_ID with Storage.LOCAL_STORAGE.SHEET_ID.
  change STORAGE.EXPENSES with Storage.LOCAL_STORAGE.EXPENSES.
  destruct (truthy_string (item_text <$> localStorage w !! Storage.LOCAL_STORAGE.SHEET_ID));
    simpl.
  2:{ repeat split; auto; try congruence; intros (? & _); discriminate. }
  destruct (localStorage w !! Storage.LOCAL_STORAGE.EXPENSES) as [[cached|es]|] eqn:E; simpl.
  - destruct (String.eqb_spec cached EmptyString) as [->|Hne]; simpl.
    + repeat split; auto; try congruence.
      intros (_ & c & [= <-] & Hc & _). now destruct Hc.
    + destruct (JSON_parse cached) as [es|] eqn:Hp; simpl.
      * repeat split; auto; try congruence.
        -- intros (_ & c & [= <-] & _ & Hc). congruence.
        -- destruct es; [congruence | reflexivity].
      * repeat split; auto; try congruence.
        exists cached. auto.
  - repeat split; auto; try congruence.
    + intros (_ & c & Hc & _). discriminate.
    + destruct es; [congruence | reflexivity].
  - repeat split; auto; try congruence.
    intros (_ & c & Hc & _). discriminate.
Qed.

(** X21.  The background refresh of the storage revision never throws and
    never loses the cache.  Without a token in the state it sends
    nothing and only renders.  With one it reads the data rows once.
    When the read succeeds, the records of the reply become the records
    in memory and the persisted cache, the session is left alone, and
    the main screen is shown if the page was on the set-up or the
    sign-in screen.  When the read fails, the records in memory and the
    persisted cache stay as they were; the stored session and the token
    in the state are cleared, and a silent refresh is due, exactly when
    the error message contains 401 or 403. *)
Theorem refreshDataInBackground_keeps_the_cache (s0 : S) (w : world) :
  (truthy_string (State.accessToken (STATE w)) = false ->
   run serve s0 (ExpenseRefreshStorage.refreshDataInBackground w)
   = ([], Ui.renderUI w, Return false, s0))
  /\ (truthy_string (State.accessToken (STATE w)) = true ->
      let r := fetchRequest (State.accessToken (STATE w))
                 (or_null (State.spreadsheetId (STATE w))) CONFIG.SHEET_NAME in
      let '(tr, w', o, s1) :=
        run serve s0 (ExpenseRefreshStorage.refreshDataInBackground w) in
      tr = [(w, Http r)]
      /\ s1 = snd (serve s0 (Http r))
      /\ match fst (serve s0 (Http r)) with
         | Data d =>
             o = Return false
             /\ State.expenses (STATE w') = fst (rowsToExpenses (values d) (drawn w))
             /\ Storage.getExpenses w' = fst (rowsToExpenses (values d) (drawn w))
             /\ sessionStorage w' = sessionStorage w
             /\ State.accessToken (STATE w') = State.accessToken (STATE w)
             /\ State.currentScreen (STATE w')
                = (if ExpenseRefreshStorage.on_entry_screen w then "main"%string
                   else State.currentScreen (STATE w))
         | Failure m =>
             cache_kept w w'
             /\ page w' = page w
             /\ if includes m "401" || includes m "403"
                then o = Return true
                     /\ Storage.getAccessToken w' = None
                     /\ (forall now : Z, Storage.isTokenExpired now w' = true)
                     /\ State.accessToken (STATE w') = None
                else o = Return false /\ w' = w
         end).
Proof.
  unfold ExpenseRefreshStorage.refreshDataInBackground, SheetsServiceStorage.loadExpenses,
    fetchExpenses, fetchRequest, try_catch, bind, update, ret, get_world, SheetsClient.get,
    await_http.
  split; intros Htok; simpl; rewrite Htok; simpl; [reflexivity|].
  destruct (serve s0 _) as [[d|m] s1]; simpl.
  - destruct (rowsToExpenses (values d) (drawn w)) as [es k]; simpl.
    unfold ExpenseRefreshStorage.on_entry_screen. simpl.
    destruct ((State.currentScreen (STATE w) =? "setup")%string
              || (State.currentScreen (STATE w) =? "auth")%string); simpl;
      repeat split; auto;
      unfold Storage.getExpenses; simpl; now rewrite lookup_insert_eq.
  - destruct (includes m "401" || includes m "403"); simpl.
    + repeat split; auto.
      * unfold Storage.getAccessToken, Storage.clearSession. simpl.
        rewrite lookup_delete_ne by discriminate. now rewrite lookup_delete_eq.
      * intros now. unfold Storage.isTokenExpired, Storage.clearSession. simpl.
        now rewrite lookup_delete_eq.
    + repeat split; auto.
Qed.

(** X22.  The background refresh of the revision that writes the storage
    itself.  It reads the data rows once, whether or not the state holds
    a token, and never throws.  When the read succeeds, the records of
    the reply become the records in memory and the persisted cache, and
    the main screen is shown if the page was on the set-up screen.  When
    the read fails, the records in memory, the persisted cache, the
    stored session and the token in the state all stay as they were;
    the sign-in screen is shown, after a toast with the error, exactly
    when the message contains 401 or auth. *)
Theorem refreshDataInBackground_shows_sign_in_on_auth_errors (s0 : S) (w : world) :
  let r := fetchRequest (State.accessToken (STATE w))
             (or_null (State.spreadsheetId (STATE w))) CONFIG.SHEET_NAME in
  let '(tr, w', o, s1) := run serve s0 (ExpenseRefresh.refreshDataInBackground w) in
  o = Return tt
  /\ tr = [(w, Http r)]
  /\ s1 = snd (serve s0 (Http r))
  /\ sessionStorage w' = sessionStorage w
  /\ State.accessToken (STATE w') = State.accessToken (STATE w)
  /\ match fst (serve s0 (Http r)) with
     | Data d =>
         State.expenses (STATE w') = fst (rowsToExpenses (values d) (drawn w))
         /\ Storage.getExpenses w' = fst (rowsToExpenses (values d) (drawn w))
         /\ State.currentScreen (STATE w')
            = (if (State.currentScreen (STATE w) =? "setup")%string then "main"%string
               else State.currentScreen (STATE w))
     | Failure m =>
         cache_kept w w'
         /\ if includes m "401" || includes m "auth"
            then page w' = page w ++ [ShowToast "toast.auth_error" m "error";
                                      ShowScreen "auth"]
                 /\ State.currentScreen (STATE w') = "auth"%string
            else w' = w
     end.
Proof.
  unfold ExpenseRefresh.refreshDataInBackground, SheetsService.loadExpenses,
    fetchExpenses, fetchRequest, try_catch, bind, update, ret, get_world, SheetsClient.get,
    await_http.
  simpl. destruct (serve s0 _) as [[d|m] s1]; simpl.
  - destruct (rowsToExpenses (values d) (drawn w)) as [es k]; simpl.
    destruct (State.currentScreen (STATE w) =? "setup")%string; simpl;
      repeat split; auto;
      unfold Storage.getExpenses; simpl; now rewrite lookup_insert_eq.
  - destruct (includes m "401" || includes m "auth"); simpl.
    + repeat split; auto. now rewrite <- app_assoc.
    + repeat split; auto.
Qed.

(** X25.  How the storage revision of the refresh tells that the token was
    refused.  When the store answers with a response that is not ok, the
    records stay as they were, and the session is cleared with a silent
    refresh due exactly when the text that [_unwrap] throws contains 401
    or 403: that text is the error message of the body when it has one
    that is not empty, whatever the status, and names the status only
    when the body has none. *)
Theorem refreshDataInBackground_reads_the_error_text
  (wire : S -> request -> SheetsClientWire.fetched * S) (s0 s1 : S) (w : world)
  (status : Z) (json : option (data * option string)) :
  truthy_string (State.accessToken (STATE w)) = true ->
  wire s0 (fetchRequest (State.accessToken (STATE w))
             (or_null (State.spreadsheetId (STATE w))) CONFIG.SHEET_NAME)
  = (SheetsClientWire.Responded false status json, s1) ->
  let '(_, w', o, _) :=
    run (SheetsClientWire.through wire) s0 (ExpenseRefreshStorage.refreshDataInBackground w) in
  let m := snd (default (no_data, None) json) in
  cache_kept w w'
  /\ (truthy_string m = true ->
      o = Return (includes (default EmptyString m) "401"
                  || includes (default EmptyString m) "403")
      /\ (includes (default EmptyString m) "401"
          || includes (default EmptyString m) "403" = false -> w' = w))
  /\ (truthy_string m = false ->
      o = Return (includes ("HTTP " ++ js_String status) "401"
                  || includes ("HTTP " ++ js_String status) "403"))
  /\ (o = Return true ->
      Storage.getAccessToken w' = None /\ State.accessToken (STATE w') = None).
Proof.
  intros Htok Hwire. unfold fetchRequest in Hwire.
  unfold ExpenseRefreshStorage.refreshDataInBackground, SheetsServiceStorage.loadExpenses,
    fetchExpenses, try_catch, bind, update, ret, get_world, SheetsClient.get, await_http.
  simpl. rewrite Htok. simpl. rewrite Hwire. simpl.
  destruct (truthy_string (snd (default (no_data, None) json))) eqn:Hm; simpl.
  - destruct (includes _ "401" || includes _ "403") eqn:Hi; simpl;
      repeat split; auto; try discriminate.
    unfold Storage.getAccessToken, Storage.clearSession. simpl.
    rewrite lookup_delete_ne by discriminate. now rewrite lookup_delete_eq.
  - destruct (includes _ "401" || includes _ "403") eqn:Hi; simpl;
      repeat split; auto; try discriminate.
    unfold Storage.getAccessToken, Storage.clearSession. simpl.
    rewrite lookup_delete_ne by discriminate. now rewrite lookup_delete_eq.
Qed.

End WithRuntime.

(** The store answers HTTP 401 to a refresh on a signed-in page with one
    record cached: the record stays, the session goes. *)
Lemma refreshDataInBackground_sample :
  let '(tr, w', o, _) :=
    run Scenario.unauthorized tt
      (ExpenseRefreshStorage.refreshDataInBackground (H := Sample.runtime)
         Sample.with_lunch) in
  o = Return true
  /\ State.expenses (STATE w') = [Sample.lunch]
  /\ Storage.getExpenses (H := Sample.runtime) w' = [Sample.lunch]
  /\ Storage.getAccessToken (H := Sample.runtime) w' = None
  /\ State.accessToken (STATE w') = None.
Proof.
  pose proof (refreshDataInBackground_keeps_the_cache (H := Sample.runtime)
                Scenario.unauthorized tt Sample.with_lunch) as (_ & P).
  specialize (P eq_refl). cbv zeta in P.
  destruct (run Scenario.unauthorized tt
              (ExpenseRefreshStorage.refreshDataInBackground (H := Sample.runtime)
                 Sample.with_lunch))
    as [[[tr w'] o] s1].
  cbn [Scenario.unauthorized fst snd] in P.
  destruct P as (_ & _ & (Hs & Hl) & _ & P).
  change (includes "HTTP 401" "401" || includes "HTTP 401" "403") with true in P.
  destruct P as (Ho & Hg & _ & Ha).
  split; [exact Ho|]. split; [rewrite Hs; reflexivity|].
  split; [|split; [exact Hg | exact Ha]].
  unfold Storage.getExpenses. unfold STORAGE.EXPENSES in Hl. rewrite Hl. reflexivity.
Defined.

(** A cache cut off in the middle: the revision that parses it itself
    throws at start-up, the storage revision starts without it. *)
Lemma restoreCachedExpenses_broken_sample :
  ExpenseRefresh.restoreCachedExpenses (H := Sample.runtime) Scenario.broken_cache
  = (Scenario.broken_cache, Throw "SyntaxError")
  /\ ExpenseRefreshStorage.restoreCachedExpenses (H := Sample.runtime) Scenario.broken_cache
     = Scenario.broken_cache.
Proof.
  split; [reflexivity|].
  pose proof (restoreCachedExpenses_throws_on_a_broken_cache (H := Sample.runtime)
                Scenario.broken_cache) as P.
  destruct (ExpenseRefresh.restoreCachedExpenses (H := Sample.runtime) Scenario.broken_cache)
    as [w' o] eqn:E.
  destruct P as ((_ & Hthrows) & Hsame & _).
  apply Hsame, Hthrows. split; [reflexivity|].
  exists "[{"%string. split; [reflexivity|]. split; [discriminate | reflexivity].
Defined.

(** The store refuses the token with status 401 and the message of the
    Sheets API, which does not contain the digits: the refresh fails
    quietly, and the session stays. *)
Lemma refreshDataInBackground_worded_401_sample :
  let '(_, w', o, _) :=
    run (SheetsClientWire.through (H := Sample.runtime) Scenario.unauthenticated) tt
      (ExpenseRefreshStorage.refreshDataInBackground (H := Sample.runtime)
         Sample.with_lunch) in
  o = Return false /\ w' = Sample.with_lunch.
Proof.
  pose proof (refreshDataInBackground_reads_the_error_text (H := Sample.runtime)
                Scenario.unauthenticated tt tt Sample.with_lunch 401
                (Some (no_data, Some "Request had invalid authentication credentials."%string))
                eq_refl eq_refl) as P.
  destruct (run (SheetsClientWire.through (H := Sample.runtime) Scenario.unauthenticated) tt
              (ExpenseRefreshStorage.refreshDataInBackground (H := Sample.runtime)
                 Sample.with_lunch)) as [[[tr w'] o] s1].
  cbv zeta in P. destruct P as (_ & P & _).
  destruct (P eq_refl) as (Ho & Hw). split; [exact Ho | apply Hw; reflexivity].
Defined.

End ExpenseRefreshFacts.

Module HelpersFacts.
Import Helpers.

Lemma toString16_digit (n : N) :
  (n < 16)%N ->
  exists c : ascii, toString16 n = String c EmptyString /\ In c hex_digits.
Proof.
  intros Hn.
  assert (Hcases : n = 0%N \/ n = 1%N \/ n = 2%N \/ n = 3%N \/ n = 4%N \/ n = 5%N
                   \/ n = 6%N \/ n = 7%N \/ n = 8%N \/ n = 9%N \/ n = 10%N \/ n = 11%N
                   \/ n = 12%N \/ n = 13%N \/ n = 14%N \/ n = 15%N) by lia.
  repeat (destruct Hcases as [->|Hcases];
          [eexists; split; [reflexivity | simpl; tauto]|]).
  subst n. eexists; split; [reflexivity | simpl; tauto].
Qed.

Lemma toString16_variant (r : N) :
  (r < 16)%N ->
  exists c : ascii,
    toString16 (N.lor (N.land r 3) 8) = String c EmptyString
    /\ In c ["8"; "9"; "a"; "b"]%char.
Proof.
  intros Hn.
  assert (Hcases : r = 0%N \/ r = 1%N \/ r = 2%N \/ r = 3%N \/ r = 4%N \/ r = 5%N
                   \/ r = 6%N \/ r = 7%N \/ r = 8%N \/ r = 9%N \/ r = 10%N \/ r = 11%N
                   \/ r = 12%N \/ r = 13%N \/ r = 14%N \/ r = 15%N) by lia.
  repeat (destruct Hcases as [->|Hcases];
          [eexists; split; [reflexivity | simpl; tauto]|]).
  subst r. eexists; split; [reflexivity | simpl; tauto].
Qed.

Local Arguments toString16 : simpl never.

(** X24.  Every identifier that [uuid] makes has the shape of a version-4
    UUID, whatever is drawn: thirty-six characters, hyphens after the
    eighth, twelfth, sixteenth and twentieth digit, the digit 4 leading
    the third group, one of 8, 9, a, b leading the fourth, and lower-case
    hexadecimal digits everywhere else.  In particular it is never the
    empty string. *)
Theorem uuid_has_the_v4_shape (draws : nat -> N) :
  (forall i : nat, (draws i < 16)%N) ->
  String.length (uuid draws) = 36%nat
  /\ uuid draws <> EmptyString
  /\ (forall k : nat,
         In k [8; 13; 18; 23]%nat -> String.get k (uuid draws) = Some "-"%char)
  /\ String.get 14 (uuid draws) = Some "4"%char
  /\ (exists c : ascii,
         String.get 19 (uuid draws) = Some c /\ In c ["8"; "9"; "a"; "b"]%char)
  /\ (forall (k : nat) (c : ascii),
         String.get k (uuid draws) = Some c ->
         ~ In k [8; 13; 18; 23]%nat ->
         In c hex_digits).
Proof.
  intros Hb. unfold uuid. cbn [replace_xy Ascii.eqb Bool.eqb].
  destruct (toString16_variant (draws 15%nat) (Hb 15%nat)) as (v & -> & Hv).
  repeat match goal with
         | |- context [toString16 (draws ?i)] =>
             let c := fresh "c" in
             let Hc := fresh "Hc" in
             destruct (toString16_digit (draws i) (Hb i)) as (c & Hc & ?);
             rewrite Hc; clear Hc
         end.
  cbn [String.append].
  split; [reflexivity|]. split; [discriminate|].
  split.
  { intros k Hk. simpl in Hk.
    destruct Hk as [<-|[<-|[<-|[<-|[]]]]]; reflexivity. }
  split; [reflexivity|].
  split.
  { exists v. split; [reflexivity | exact Hv]. }
  intros k ch Hget Hk.
  assert (Hv' : In v hex_digits).
  { simpl in Hv. simpl. tauto. }
  do 36 (destruct k as [|k];
         [first [ exfalso; apply Hk; simpl; tauto
                | cbn [String.get] in Hget; injection Hget as <-;
                  first [assumption | simpl; tauto] ]|]).
  cbn [String.get] in Hget. discriminate.
Qed.

(** With zero drawn every time the identifier is the nil pattern with
    its version and variant digits. *)
Lemma uuid_sample :
  uuid (fun _ => 0%N) = "00000000-0000-4000-8000-000000000000"%string
  /\ String.length (uuid (fun _ => 0%N)) = 36%nat.
Proof.
  split; [reflexivity|].
  apply (uuid_has_the_v4_shape (fun _ => 0%N)). intros i. reflexivity.
Defined.

End HelpersFacts.

Module SubmitFacts.
Import SheetsHelpers.

Local Arguments String.append : simpl never.

Section WithRuntime.
Context `{Runtime}.
Context {S : Type} (serve : S -> wait -> reply * S).

(** X23.  The check of the form, in both revisions of [submitExpense].  A form
    whose amount is not a number greater than zero, or that has no
    category selected, is turned away with a toast: nothing is sent, no
    identifier is drawn, and nothing else changes; the amount is checked
    first.  Every other form sends exactly one request.  The handler
    never throws, and whenever it has sent the request it draws one
    identifier and ends by enabling the submit button again, whatever
    the store answered. *)
Theorem submitExpense_checks_the_form (s0 : S) (today inputAmount inputComment : string)
  (w : world) :
  (let '(tr, w', o, s1) :=
     run serve s0 (ExpenseController.submitExpense today inputAmount inputComment w) in
   o = Return tt
   /\ (positive_number (parseFloat_str inputAmount) = false ->
       tr = [] /\ s1 = s0
       /\ w' = Ui.showToast "toast.enter_amount" EmptyString "error" w)
   /\ (positive_number (parseFloat_str inputAmount) = true ->
       truthy_string (State.selectedCat (STATE w)) = false ->
       tr = [] /\ s1 = s0
       /\ w' = Ui.showToast "toast.select_cat" EmptyString "error" w)
   /\ (positive_number (parseFloat_str inputAmount) = true ->
       truthy_string (State.selectedCat (STATE w)) = true ->
       length tr = 1%nat
       /\ drawn w' = Datatypes.S (drawn w)
       /\ last (page w') = Some (SubmitButton false "btn.add")))
  /\ (let '(tr, w', o, s1) :=
        run serve s0
          (ExpenseControllerStorage.submitExpense today inputAmount inputComment w) in
      o = Return tt
      /\ (positive_number (parseAmount inputAmount) = false ->
          tr = [] /\ s1 = s0
          /\ w' = Ui.showToast "toast.enter_amount" EmptyString "error" w)
      /\ (positive_number (parseAmount inputAmount) = true ->
          truthy_string (State.selectedCat (STATE w)) = false ->
          tr = [] /\ s1 = s0
          /\ w' = Ui.showToast "toast.select_cat" EmptyString "error" w)
      /\ (positive_number (parseAmount inputAmount) = true ->
          truthy_string (State.selectedCat (STATE w)) = true ->
          length tr = 1%nat
          /\ drawn w' = Datatypes.S (drawn w)
          /\ last (page w') = Some (SubmitButton false "btn.add"))).
Proof.
  split.
  - unfold ExpenseController.submitExpense, SheetsService.appendExpense, insertExpense,
      SheetsClient.post, await_http, try_finally, try_catch, bind, update, ret, get_world.
    rewrite LocalCache.invalid_amount_spec.
    destruct (positive_number (parseFloat_str inputAmount)); simpl.
    + destruct (State.selectedCat (STATE w)) as [cat|]; simpl.
      * destruct (cat =? EmptyString)%string; simpl.
        -- repeat split; auto; discriminate.
        -- destruct (serve s0 _) as [[d|m] s1]; simpl;
             repeat split; auto; try discriminate; apply last_snoc.
      * repeat split; auto; discriminate.
    + repeat split; auto; discriminate.
  - unfold ExpenseControllerStorage.submitExpense, SheetsServiceStorage.appendExpense,
      insertExpense, SheetsClient.post, await_http, try_finally, try_catch, bind, update,
      ret, get_world.
    rewrite LocalCache.invalid_amount_spec.
    destruct (positive_number (parseAmount inputAmount)); simpl.
    + destruct (State.selectedCat (STATE w)) as [cat|]; simpl.
      * destruct (cat =? EmptyString)%string; simpl.
        -- repeat split; auto; discriminate.
        -- destruct (serve s0 _) as [[d|m] s1]; simpl;
             repeat split; auto; try discriminate; apply last_snoc.
      * repeat split; auto; discriminate.
    + repeat split; auto; discriminate.
Qed.

End WithRuntime.

(** The amount -3 is turned away before the category is looked at. *)
Lemma submitExpense_invalid_sample :
  let '(tr, w', o, s1) :=
    run scripted [Data no_data]
      (ExpenseController.submitExpense (H := Sample.runtime)
         "2024-03-01" "-3" EmptyString Sample.ready_to_add) in
  tr = [] /\ s1 = [Data no_data]
  /\ w' = Ui.showToast "toast.enter_amount" EmptyString "error" Sample.ready_to_add.
Proof.
  pose proof (submitExpense_checks_the_form (H := Sample.runtime) scripted [Data no_data]
                "2024-03-01" "-3" EmptyString Sample.ready_to_add) as (P & _).
  destruct (run scripted [Data no_data]
              (ExpenseController.submitExpense (H := Sample.runtime)
                 "2024-03-01" "-3" EmptyString Sample.ready_to_add)) as [[[tr w'] o] s1].
  destruct P as (_ & P & _). apply P. reflexivity.
Defined.

End SubmitFacts.
